(** * Transcript-Video-Audio: the two scripts, embedded and verified

    [convert_mp4_to_mp3.py] provisions a portable FFmpeg and converts one
    fixed MP4 to MP3; [transcribir_mp3_vosk.py] converts the MP3 to a mono
    16 kHz WAV and transcribes it with Vosk.

    The embedding keeps the scripts' own structure, function by function.
    A Python [str] is a [string] whose characters are the code points
    below 256 (Latin-1, which covers the Spanish text the scripts handle).
    The filesystem is a tree of files and directories.  A function that
    touches the filesystem, the network, a subprocess or the recognizer is
    a computation from a state to an outcome: a result or a raised
    exception, the state reached, and the events it performed, oldest
    first.  What the scripts cannot decide themselves (the HTTP server, the
    archive reader, the spawned program, the WAV parser, the Vosk
    recognizer) is a field of [Externals].

    A run of a script is its module-level [import requests] with the pip
    fallback, and then [main()].  The text of an [OSError] is the one
    CPython gives on a POSIX system, with the path it names.

    Left out: the clock prefix of a printed line, and a [print] that fails
    to encode or to write; the imports of the standard library and
    [Path.cwd()] at module level, taken to go through; [KeyboardInterrupt]
    and [SystemExit], which [except Exception] does not catch;
    permissions, symbolic links and full disks; the encoding and the
    newline translation of a file opened in text mode, whose content is
    kept as the characters written. *)

From Stdlib Require Import List String Ascii ZArith Lia Bool Arith.
From Stdlib Require Strings.Byte.
From Stdlib Require Import DecimalString.
From Equations Require Import Equations.
From Equations.Prop Require Import Logic.

Set Warnings "-register-all".
Import ListNotations.

Local Open Scope string_scope.
Local Open Scope list_scope.

(** ** Python strings *)

Module PyStr.

(** [str.isspace] for one character, on the code points below 256:
    TAB..CR, FS..US, SPACE, NEL and NBSP. *)
Definition isspace (c : ascii) : bool :=
  let n := nat_of_ascii c in
  (((9 <=? n) && (n <=? 13)) || ((28 <=? n) && (n <=? 32))
   || (n =? 133) || (n =? 160))%nat.

Fixpoint lstrip (s : string) : string :=
  match s with
  | EmptyString => EmptyString
  | String c r => if isspace c then lstrip r else s
  end.

Fixpoint rstrip (s : string) : string :=
  match s with
  | EmptyString => EmptyString
  | String c r =>
      match rstrip r with
      | EmptyString => if isspace c then EmptyString else String c EmptyString
      | r' => String c r'
      end
  end.

(** [s.strip()] *)
Definition strip (s : string) : string := rstrip (lstrip s).

(** Truth value of a [str]: non-empty. *)
Definition truthy (s : string) : bool :=
  match s with EmptyString => false | String _ _ => true end.

(** [sep.join(l)] *)
Definition join (sep : string) (l : list string) : string := String.concat sep l.

(** [s.startswith(p)] *)
Definition startswith (p s : string) : bool := String.prefix p s.

(** [name.rfind('.')], counted from the left; [None] for -1. *)
Fixpoint rfind_dot (s : string) : option nat :=
  match s with
  | EmptyString => None
  | String c r =>
      match rfind_dot r with
      | Some i => Some (S i)
      | None => if Ascii.eqb c "."%char then Some 0 else None
      end
  end.

Definition first_char (s : string) : option ascii :=
  match s with EmptyString => None | String c _ => Some c end.

Fixpoint last_char (s : string) : option ascii :=
  match s with
  | EmptyString => None
  | String c r =>
      match last_char r with
      | Some d => Some d
      | None => Some c
      end
  end.

(** Neither the first nor the last character is whitespace. *)
Definition trimmed (s : string) : Prop :=
  (forall c, first_char s = Some c -> isspace c = false) /\
  (forall c, last_char s = Some c -> isspace c = false).

Definition double_quote : ascii := ascii_of_nat 34.
Definition backslash : ascii := ascii_of_nat 92.

Fixpoint contains (c : ascii) (s : string) : bool :=
  match s with
  | EmptyString => false
  | String d r => Ascii.eqb c d || contains c r
  end.

(** One hexadecimal digit, in lower case. *)
Definition hex (n : nat) : ascii :=
  nth n [ "0"; "1"; "2"; "3"; "4"; "5"; "6"; "7";
          "8"; "9"; "a"; "b"; "c"; "d"; "e"; "f" ]%char "0"%char.

(** [str.isprintable] for one character, on the code points below 256:
    the ASCII graphic characters and the space, and the Latin-1 ones but
    the soft hyphen. *)
Definition isprintable (c : ascii) : bool :=
  let n := nat_of_ascii c in
  (((32 <=? n) && (n <=? 126)) || ((161 <=? n) && negb (n =? 173)))%nat.

(** How [repr] writes one character between quotes [quote]. *)
Definition escape (quote c : ascii) : string :=
  let n := nat_of_ascii c in
  if Ascii.eqb c quote || Ascii.eqb c backslash then String backslash (String c EmptyString)
  else if (n =? 9)%nat then String backslash "t"
  else if (n =? 10)%nat then String backslash "n"
  else if (n =? 13)%nat then String backslash "r"
  else if isprintable c then String c EmptyString
  else String backslash (String "x" (String (hex (n / 16)) (String (hex (n mod 16)) EmptyString))).

Fixpoint escaped (quote : ascii) (s : string) : string :=
  match s with
  | EmptyString => EmptyString
  | String c r => (escape quote c ++ escaped quote r)%string
  end.

(** [repr(s)]: single quotes, unless the string holds one and no double
    quote. *)
Definition repr (s : string) : string :=
  let quote := if contains "'" s && negb (contains double_quote s)
               then double_quote else "'"%char in
  String quote (escaped quote s ++ String quote EmptyString)%string.

(** [str(l)] for a list of strings. *)
Definition repr_list (l : list string) : string :=
  ("[" ++ join ", " (map repr l) ++ "]")%string.

(** [str(z)] for an integer. *)
Definition str_int (z : Z) : string := NilZero.string_of_int (Z.to_int z).

End PyStr.

(** ** Exceptions and results *)

(** The exception classes the scripts raise or can receive.  Every one is a
    subclass of [Exception], so [except Exception] catches each of them;
    [OtherError] stands for whatever else an external collaborator raises
    (requests, zipfile, wave, vosk, subprocess), with its class name. *)
Inductive exn : Type :=
| FileNotFoundError (msg : string)
| FileExistsError (msg : string)
| NotADirectoryError (msg : string)
| IsADirectoryError (msg : string)
| RuntimeError (msg : string)
| ValueError (msg : string)
| OtherError (cls msg : string).

(** [str(e)], as the f-strings of the [except] clauses print it. *)
Definition str_exn (e : exn) : string :=
  match e with
  | FileNotFoundError m | FileExistsError m | NotADirectoryError m
  | IsADirectoryError m | RuntimeError m | ValueError m => m
  | OtherError _ m => m
  end.

(** An [OSError] raised by a call on a file: [str(e)] is the errno text
    followed by the file name, as [repr] prints it. *)
Definition named (file : string) (e : exn) : exn :=
  let tag m := (m ++ ": " ++ PyStr.repr file)%string in
  match e with
  | FileNotFoundError m => FileNotFoundError (tag m)
  | FileExistsError m => FileExistsError (tag m)
  | NotADirectoryError m => NotADirectoryError (tag m)
  | IsADirectoryError m => IsADirectoryError (tag m)
  | RuntimeError _ | ValueError _ | OtherError _ _ => e
  end.

Inductive result (A : Type) : Type :=
| Ok (a : A)
| Raise (e : exn).
Arguments Ok {A} a.
Arguments Raise {A} e.

(** ** The filesystem *)

Module FS.

Inductive node : Type :=
| File (content : string)
| Dir (entries : list (string * node)).

(** A path is the list of its components, from the root. *)
Definition path := list string.

Definition entries := list (string * node).

(** The entry a name denotes: the first one that carries it. *)
Fixpoint assoc (k : string) (es : entries) : option node :=
  match es with
  | [] => None
  | (k', v) :: r => if String.eqb k k' then Some v else assoc k r
  end.

(** Rebind a name in place, or add it at the end. *)
Fixpoint set_entry (k : string) (v : node) (es : entries) : entries :=
  match es with
  | [] => [(k, v)]
  | (k', v') :: r =>
      if String.eqb k k' then (k', v) :: r else (k', v') :: set_entry k v r
  end.

Fixpoint lookup (p : path) (n : node) : option node :=
  match p with
  | [] => Some n
  | c :: q =>
      match n with
      | File _ => None
      | Dir es =>
          match assoc c es with
          | Some m => lookup q m
          | None => None
          end
      end
  end.

(** [Path.exists()] *)
Definition exists_ (p : path) (n : node) : bool :=
  match lookup p n with Some _ => true | None => false end.

(** [Path.is_dir()] *)
Definition is_dir (p : path) (n : node) : bool :=
  match lookup p n with Some (Dir _) => true | _ => false end.

(** [Path.mkdir(parents=True, exist_ok=True)]: missing components are
    created, an existing directory is kept, a file in the way raises. *)
Fixpoint mkdir_p (p : path) (n : node) : exn + node :=
  match p with
  | [] =>
      match n with
      | Dir _ => inr n
      | File _ => inl (FileExistsError "[Errno 17] File exists")
      end
  | c :: q =>
      match n with
      | File _ => inl (NotADirectoryError "[Errno 20] Not a directory")
      | Dir es =>
          let child := match assoc c es with Some m => m | None => Dir [] end in
          match mkdir_p q child with
          | inl e => inl e
          | inr m' => inr (Dir (set_entry c m' es))
          end
      end
  end.

(** [open(p, "w")] / [open(p, "wb")], the writes and the close: the file
    is created or replaced; a missing parent, a file used as a directory
    and a directory at the target raise. *)
Fixpoint write_file (p : path) (data : string) (n : node) : exn + node :=
  match p with
  | [] =>
      match n with
      | File _ => inr (File data)
      | Dir _ => inl (IsADirectoryError "[Errno 21] Is a directory")
      end
  | c :: q =>
      match n with
      | File _ => inl (NotADirectoryError "[Errno 20] Not a directory")
      | Dir es =>
          match assoc c es with
          | Some m =>
              match write_file q data m with
              | inl e => inl e
              | inr m' => inr (Dir (set_entry c m' es))
              end
          | None =>
              match q with
              | [] => inr (Dir (set_entry c (File data) es))
              | _ :: _ =>
                  inl (FileNotFoundError "[Errno 2] No such file or directory")
              end
          end
      end
  end.

(** The path leads through a regular file. *)
Fixpoint under_file (p : path) (n : node) : bool :=
  match p with
  | [] => false
  | c :: q =>
      match n with
      | File _ => true
      | Dir es =>
          match assoc c es with
          | Some m => under_file q m
          | None => false
          end
      end
  end.

(** What a call on a path that denotes nothing raises. *)
Definition missing (p : path) (n : node) : exn :=
  if under_file p n then NotADirectoryError "[Errno 20] Not a directory"
  else FileNotFoundError "[Errno 2] No such file or directory".

(** [open(p, "rb").read()] *)
Definition read_file (p : path) (n : node) : exn + string :=
  match lookup p n with
  | Some (File s) => inr s
  | Some (Dir _) => inl (IsADirectoryError "[Errno 21] Is a directory")
  | None => inl (missing p n)
  end.

Definition mem (k : string) (seen : list string) : bool :=
  existsb (String.eqb k) seen.

(** The names a directory lists, each once ([os.scandir] order). *)
Fixpoint listing (seen : list string) (es : entries) : list (string * node) :=
  match es with
  | [] => []
  | (k, v) :: r =>
      if mem k seen then listing seen r else (k, v) :: listing (k :: seen) r
  end.

(** [Path.iterdir()], already drained into a list. *)
Definition iterdir (p : path) (n : node) : exn + list (path * node) :=
  match lookup p n with
  | Some (Dir es) => inr (map (fun e => (p ++ [fst e], snd e)) (listing [] es))
  | Some (File _) => inl (NotADirectoryError "[Errno 20] Not a directory")
  | None => inl (missing p n)
  end.

(** Where [os.makedirs] gives up on a path that leads through a regular
    file: at the first component below that file. *)
Fixpoint stuck_at (p : path) (n : node) : path :=
  match p with
  | [] => []
  | c :: q =>
      match n with
      | File _ => [c]
      | Dir es =>
          match assoc c es with
          | Some m => c :: stuck_at q m
          | None => [c]
          end
      end
  end.

(** pathlib's recursive wildcard: the directory itself, then every
    directory below it, parents before children, in listing order. *)
Fixpoint iterate_directories (here : path) (n : node) : list (path * entries) :=
  match n with
  | File _ => []
  | Dir es =>
      (here, es) ::
      (fix go (seen : list string) (l : entries) : list (path * entries) :=
         match l with
         | [] => []
         | (k, v) :: r =>
             if mem k seen then go seen r
             else iterate_directories (here ++ [k]) v ++ go (k :: seen) r
         end) [] es
  end.

(** [root.rglob(name)] for a name without wildcards: in every directory
    of the walk, the child of that name when it exists. *)
Definition rglob (root : path) (name : string) (n : node) : list path :=
  match lookup root n with
  | Some d =>
      flat_map (fun de => match assoc name (snd de) with
                          | Some _ => [fst de ++ [name]]
                          | None => []
                          end)
               (iterate_directories root d)
  | None => []
  end.

Definition is_dir_node (n : node) : bool :=
  match n with Dir _ => true | File _ => false end.

(** Two nodes of the same kind. *)
Definition same_kind (x y : node) : Prop :=
  match x, y with
  | File _, File _ => True
  | Dir _, Dir _ => True
  | _, _ => False
  end.

(** Nothing that was there is gone or has changed its kind. *)
Definition grows (n n' : node) : Prop :=
  forall q x, lookup q n = Some x ->
              exists x', lookup q n' = Some x' /\ same_kind x x'.

(** A regular file sits at the path, or on the way to it. *)
Definition blocked (p : path) (n : node) : Prop :=
  exists q r c, p = q ++ r /\ lookup q n = Some (File c).

(** The walk below one directory, entry by entry: the inner loop of
    [iterate_directories], named. *)
Fixpoint iterate_entries (here : path) (seen : list string) (l : entries)
  : list (path * entries) :=
  match l with
  | [] => []
  | (k, v) :: r =>
      if mem k seen then iterate_entries here seen r
      else iterate_directories (here ++ [k]) v ++ iterate_entries here (k :: seen) r
  end.

(** Induction over a tree, with the hypothesis for every child. *)
Fixpoint node_ind' (P : node -> Prop)
         (HF : forall s, P (File s))
         (HD : forall es, Forall (fun e => P (snd e)) es -> P (Dir es))
         (n : node) : P n :=
  match n with
  | File s => HF s
  | Dir es =>
      HD es ((fix all (l : entries) : Forall (fun e => P (snd e)) l :=
                match l with
                | [] => Forall_nil _
                | e :: r => Forall_cons e (node_ind' P HF HD (snd e)) (all r)
                end) es)
  end.

End FS.

(** ** Paths, states, events and the computation monad *)

Module Py.

Import FS.

(** A [pathlib.Path] of the scripts: either built from [WORKDIR], hence
    absolute, with its components counted from the root, or relative to
    the working directory, as [Path(MP3_FILE)] is. *)
Record Path : Type := mkPath { anchored : bool; parts : FS.path }.

(** [p / name] *)
Definition child (p : Path) (name : string) : Path :=
  mkPath (anchored p) (parts p ++ [name]).

(** [p.name] *)
Definition name (p : Path) : string := List.last (parts p) EmptyString.

(** Where a path points, from the root, when the working directory is
    [cwd]. *)
Definition resolve (cwd : FS.path) (p : Path) : FS.path :=
  if anchored p then parts p else cwd ++ parts p.

(** [str(p)]: [anchor] is the root as the platform writes it. *)
Definition str_path (anchor sep : string) (p : Path) : string :=
  ((if anchored p then anchor else EmptyString) ++ String.concat sep (parts p))%string.

(** The last suffix of a name, cut off: [rfind('.')] must fall strictly
    inside the name. *)
Definition drop_suffix (nm : string) : string :=
  match PyStr.rfind_dot nm with
  | Some i =>
      if ((0 <? i) && (i <? String.length nm - 1))%nat
      then substring 0 i nm else nm
  | None => nm
  end.

(** [Path(str(p.with_suffix('')) + ext)]; [with_suffix] raises on a path
    without a name. *)
Definition replace_suffix (p : Path) (ext : string) : exn + Path :=
  match parts p with
  | [] => inl (ValueError "Path has an empty name")
  | _ :: _ =>
      inr (mkPath (anchored p)
                  (removelast (parts p) ++ [(drop_suffix (name p) ++ ext)%string]))
  end.

(** What a run can change: the filesystem tree, and whether
    [import vosk] and [import requests] succeed. *)
Record State : Type :=
  mkState { fs : node; vosk_importable : bool; requests_importable : bool }.

(** The state reached keeps everything the tree had, and the import
    flag. *)
Definition extends (st st1 : State) : Prop :=
  grows (fs st) (fs st1) /\ vosk_importable st1 = vosk_importable st.

Definition with_fs (n : node) (s : State) : State :=
  mkState n (vosk_importable s) (requests_importable s).

(** What a run does to its surroundings, in the order it does it. *)
Inductive event : Type :=
| Log (line : string)                      (* one printed line, clock prefix left out *)
| HttpGet (url : string)                   (* requests.get *)
| ExtractAll (archive dest : Path)         (* ZipFile.extractall *)
| Run (cmd : list string)                  (* subprocess.run *)
| ReadFrames (n : Z)                       (* wf.readframes *)
| Feed (data : list Byte.byte).            (* rec.AcceptWaveform *)

Definition outcome (A : Type) : Type := (result A * State * list event)%type.

Definition res {A} (o : outcome A) : result A := fst (fst o).
Definition final {A} (o : outcome A) : State := snd (fst o).
Definition events {A} (o : outcome A) : list event := snd o.

Definition M (A : Type) : Type := State -> outcome A.

Definition ret {A} (a : A) : M A := fun s => (Ok a, s, []).

Definition raise {A} (e : exn) : M A := fun s => (Raise e, s, []).

(** Sequencing: an exception ends the sequence, the state and the events
    reached so far stay. *)
Definition bind {A B} (m : M A) (k : A -> M B) : M B :=
  fun s =>
    match m s with
    | (Ok a, s1, t1) =>
        match k a s1 with
        | (r, s2, t2) => (r, s2, t1 ++ t2)
        end
    | (Raise e, s1, t1) => (Raise e, s1, t1)
    end.

(** [try: body  except Exception as e: handler(e)]; every constructor of
    [exn] is an [Exception]. *)
Definition try_except {A} (body : M A) (handler : exn -> M A) : M A :=
  fun s =>
    match body s with
    | (Ok a, s1, t1) => (Ok a, s1, t1)
    | (Raise e, s1, t1) =>
        match handler e s1 with
        | (r, s2, t2) => (r, s2, t1 ++ t2)
        end
    end.

(** The shape both [main]s use: [try: x = body  except Exception as e:
    handler(e); return], and the rest of [main] after it. *)
Definition try_or_return {A} (body : M A) (handler : exn -> M unit)
           (rest : A -> M unit) : M unit :=
  fun s =>
    match body s with
    | (Ok a, s1, t1) =>
        match rest a s1 with
        | (r, s2, t2) => (r, s2, t1 ++ t2)
        end
    | (Raise e, s1, t1) =>
        match handler e s1 with
        | (r, s2, t2) => (r, s2, t1 ++ t2)
        end
    end.

Definition emit (ev : event) : M unit := fun s => (Ok tt, s, [ev]).

(** [log(msg)] *)
Definition log (msg : string) : M unit := emit (Log msg).

(** A filesystem call: the new tree, or the [OSError] it raises. *)
Definition fs_update (f : node -> exn + node) : M unit :=
  fun s =>
    match f (fs s) with
    | inr n' => (Ok tt, with_fs n' s, [])
    | inl e => (Raise e, s, [])
    end.

Definition fs_query {A} (f : node -> exn + A) : M A :=
  fun s =>
    match f (fs s) with
    | inr a => (Ok a, s, [])
    | inl e => (Raise e, s, [])
    end.

Definition fs_read {A} (f : node -> A) : M A :=
  fun s => (Ok (f (fs s)), s, []).

(** A computation that leaves the state alone. *)
Definition lift_pure {A} (o : result A * list event) : M A :=
  fun s => (fst o, s, snd o).

Definition of_sum {A} (x : exn + A) : M A :=
  match x with inr a => ret a | inl e => raise e end.


Declare Scope py_scope.
Delimit Scope py_scope with py.

Notation "x <- c1 ;; c2" := (bind c1 (fun x => c2))
  (at level 61, c1 at next level, right associativity) : py_scope.
Notation "c1 ;; c2" := (bind c1 (fun _ => c2))
  (at level 61, right associativity) : py_scope.

(** The exit status of the interpreter after a run of a script, which is
    the module's own statements and then [main()]: 0 when the run
    returns, 1 when an exception leaves it. *)
Definition exit_status (o : outcome unit) : Z :=
  match res o with
  | Ok _ => 0%Z
  | Raise _ => 1%Z
  end.

(** The last thing a run did. *)
Definition last_event (t : list event) : option event :=
  match rev t with
  | ev :: _ => Some ev
  | [] => None
  end.

(** [main] caught the exception [e]: it returned normally, and the last
    thing it did was to print [prefix] followed by [str(e)]. *)
Definition reported (prefix : string) (e : exn) (o : outcome unit) : Prop :=
  res o = Ok tt /\ last_event (events o) = Some (Log (prefix ++ str_exn e)%string).

(** How many events of a trace satisfy a test. *)
Definition count (f : event -> bool) (t : list event) : nat :=
  List.length (filter f t).

Definition is_http (ev : event) : bool :=
  match ev with HttpGet _ => true | _ => false end.
Definition is_extract (ev : event) : bool :=
  match ev with ExtractAll _ _ => true | _ => false end.
Definition is_run (ev : event) : bool :=
  match ev with Run _ => true | _ => false end.
Definition is_audio (ev : event) : bool :=
  match ev with ReadFrames _ | Feed _ => true | _ => false end.
Definition is_log (ev : event) : bool :=
  match ev with Log _ => true | _ => false end.

(** A trace with at most [h] network calls, [x] extractions and [r]
    spawned programs. *)
Definition within (h x r : nat) (t : list event) : Prop :=
  count is_http t <= h /\ count is_extract t <= x /\ count is_run t <= r.

End Py.

(** ** The collaborators outside the scripts *)

Module Ext.

Import FS Py.

(** What [requests.get(url, stream=True, timeout=60)], [raise_for_status]
    and the chunk iteration deliver. *)
Inductive http_response : Type :=
| HttpBody (body : string)                   (* a complete body *)
| HttpError (e : exn)                        (* no connection, timeout, or an error status *)
| HttpBroken (received : string) (e : exn).  (* the stream breaks after [received] *)

(** What [subprocess.run(cmd, ...)] delivers. *)
Inductive completed_process : Type :=
| Completed (returncode : Z) (stdout stderr : string) (after : State)
| NotStarted (e : exn).                      (* the program cannot be spawned *)

(** One member of a zip archive: a directory, or a file with its data. *)
Record zip_member : Type :=
  mkMember { member_path : FS.path; member_data : option string }.

(** An opened WAV file: its header and the bytes of its data chunk. *)
Record wave_read : Type :=
  mkWave { nchannels : Z; sampwidth : Z; framerate : Z; frames : list Byte.byte }.

Record Externals : Type := mkExternals {
  cwd : FS.path;                   (* Path.cwd(), from the root *)
  anchor : string;                 (* the root, as str() writes it *)
  sep : string;                    (* os.sep *)
  sys_executable : string;
  requests_get : string -> http_response;
  ZipFile : string -> exn + list zip_member;      (* parse the archive's bytes *)
  subprocess_run : list string -> State -> completed_process;
  (** [repr(signal.Signals(n))], when the platform has a signal [n] *)
  Signals : Z -> option string;
  wave_open : string -> exn + wave_read;          (* parse the file's bytes *)
  Model : Type;
  Recognizer : Type;
  vosk_Model : node -> FS.path -> exn + Model;    (* vosk.Model(dir) *)
  KaldiRecognizer : Model -> Z -> Recognizer;
  SetWords : Recognizer -> bool -> Recognizer;
  (** [rec.AcceptWaveform(data)]: whether a segment just ended *)
  AcceptWaveform : Recognizer -> list Byte.byte -> exn + (bool * Recognizer);
  (** [json.loads(rec.Result())]: its ['text'] member, when it has one *)
  Result : Recognizer -> option string * Recognizer;
  (** [json.loads(rec.FinalResult())], likewise *)
  FinalResult : Recognizer -> option string * Recognizer
}.

End Ext.


(** ** Library calls both scripts make *)

Module Lib.

Import FS Py Ext.
Local Open Scope py_scope.

Section WithExternals.

Variable X : Externals.

Definition at_ (p : Path) : FS.path := resolve (cwd X) p.

(** [str(p)] *)
Definition str (p : Path) : string := str_path (anchor X) (sep X) p.

(** [Path.cwd()] *)
Definition getcwd : Path := mkPath true (cwd X).

(** [p.exists()] *)
Definition path_exists (p : Path) : M bool := fs_read (exists_ (at_ p)).

(** The outcome of an operating-system call on [file]: what it raises
    names the file. *)
Definition os_call {A} (file : Path) (r : exn + A) : exn + A :=
  match r with
  | inl e => inl (named (str file) e)
  | inr a => inr a
  end.

(** [p.mkdir(parents=True, exist_ok=True)] *)
Definition mkdir (p : Path) : M unit :=
  fs_update (fun n => os_call p (mkdir_p (at_ p) n)).

(** A path found below [root], written the way [root] is. *)
Definition below (root : Path) (q : FS.path) : Path :=
  mkPath (anchored root) (parts root ++ skipn (List.length (at_ root)) q).

(** [list(root.rglob(name))] *)
Definition rglob (root : Path) (nm : string) : M (list Path) :=
  fs_read (fun n => map (below root) (FS.rglob (at_ root) nm n)).

(** [open(dest, mode)], the writes, and the close. *)
Definition write (dest : Path) (data : string) : M unit :=
  fs_update (fun n => os_call dest (write_file (at_ dest) data n)).

(** [open(p, "rb").read()] *)
Definition read (p : Path) : M string :=
  fs_query (fun n => os_call p (read_file (at_ p) n)).

(** [os.makedirs(upper)] on a path from the root: what it raises names
    the component it gave up on. *)
Definition makedirs (upper : FS.path) : M unit :=
  fs_update (fun n => os_call (mkPath true (stuck_at upper n)) (mkdir_p upper n)).

(** The last step of extracting one member: the directory is made unless
    it is one already ([os.mkdir]), or the file is written. *)
Definition place_member (target : FS.path) (m : zip_member) : M unit :=
  match member_data m with
  | None =>
      made <- fs_read (FS.is_dir target) ;;
      if negb made then mkdir (mkPath true target) else ret tt
  | Some data => write (mkPath true target) data
  end.

(** One member of [extractall], as [zipfile] extracts it: the upper
    directories are made when nothing is there ([os.makedirs]), then the
    member itself is placed. *)
Definition extract_member (dest : Path) (m : zip_member) : M unit :=
  let target := at_ dest ++ member_path m in
  let upper := removelast target in
  there <- fs_read (exists_ upper) ;;
  (if negb there then makedirs upper else ret tt) ;;
  place_member target m.

Fixpoint extract_members (dest : Path) (ms : list zip_member) : M unit :=
  match ms with
  | [] => ret tt
  | m :: r => extract_member dest m ;; extract_members dest r
  end.

(** [with zipfile.ZipFile(archive, 'r') as z: z.extractall(dest)] *)
Definition unzip (archive dest : Path) : M unit :=
  content <- read archive ;;
  members <- of_sum (ZipFile X content) ;;
  emit (ExtractAll archive dest) ;;
  extract_members dest members.

(** What [subprocess.run] hands back to the caller. *)
Record CompletedProcess : Type :=
  mkCompleted { returncode : Z; stdout : string; stderr : string }.

(** [subprocess.run(cmd, capture_output=True, text=True)] *)
Definition run (cmd : list string) : M CompletedProcess :=
  emit (Run cmd) ;;
  (fun s =>
     match subprocess_run X cmd s with
     | Completed rc out err s' => (Ok (mkCompleted rc out err), s', [])
     | NotStarted e => (Raise e, s, [])
     end).

(** [import requests] *)
Definition import_requests : M unit :=
  fun s =>
    if requests_importable s then (Ok tt, s, [])
    else (Raise (OtherError "ModuleNotFoundError" "No module named 'requests'"), s, []).

(** The first statements of both modules: [try: import requests  except
    Exception: subprocess.run([sys.executable, "-m", "pip", "install",
    "requests", "--quiet"], check=False); import requests].  The status
    and the output of pip are not looked at; an exception of
    [subprocess.run] itself, and the second import, are not guarded. *)
Definition ensure_requests : M unit :=
  try_except import_requests
    (fun _ =>
       run [sys_executable X; "-m"; "pip"; "install"; "requests"; "--quiet"] ;;
       import_requests).

(** What [subprocess.run(cmd, check=True)] raises on the status [rc];
    [str(e)] names the command and the status, or the signal that ended
    the program. *)
Definition CalledProcessError (cmd : list string) (rc : Z) : exn :=
  let command := ("Command '" ++ PyStr.repr_list cmd ++ "'")%string in
  OtherError "CalledProcessError"
    (if (rc <? 0)%Z then
       match Signals X (- rc) with
       | Some sig => command ++ " died with " ++ sig ++ "."
       | None => command ++ " died with unknown signal " ++ PyStr.str_int (- rc) ++ "."
       end
     else command ++ " returned non-zero exit status " ++ PyStr.str_int rc ++ ".")%string.

(** [download_file(url, dest)], the same in both scripts. *)
Definition download_file (url : string) (dest : Path) : M unit :=
  log ("Descargando: " ++ url)%string ;;
  emit (HttpGet url) ;;
  match requests_get X url with
  | HttpError e => raise e
  | HttpBody body =>
      write dest body ;;
      log ("Descargado en: " ++ str dest)%string
  | HttpBroken received e =>
      write dest received ;;
      raise e
  end.

End WithExternals.

End Lib.


(** ** convert_mp4_to_mp3.py *)

Module Mp4ToMp3.

Import FS Py Ext Lib.
Local Open Scope py_scope.

Definition a_acute : string := String (ascii_of_nat 225) EmptyString.
Definition o_acute : string := String (ascii_of_nat 243) EmptyString.

Definition VIDEO_FILE : string :=
  ("CUANTT - Sales Force - Sesi" ++ o_acute ++ "n de Marketing, Comunicaci"
   ++ o_acute ++ "n y Cuidado Preventivo-20250811.mp4")%string.

Definition FFMPEG_URL : string :=
  "https://www.gyan.dev/ffmpeg/builds/ffmpeg-release-essentials.zip".

Definition msg_ffmpeg_not_found : string :=
  ("No se pudo localizar ffmpeg.exe tras la extracci" ++ o_acute ++ "n")%string.
Definition msg_conversion_failed : string :=
  ("Fallo la conversi" ++ o_acute ++ "n con FFmpeg")%string.
Definition msg_no_output : string :=
  ("La conversi" ++ o_acute ++ "n finaliz" ++ o_acute
   ++ " sin crear el archivo MP3")%string.
Definition msg_starting : string :=
  ("Iniciando conversi" ++ o_acute
   ++ "n MP4 -> MP3 (libmp3lame, 192 kbps)...")%string.
Definition msg_done : string := ("Conversi" ++ o_acute ++ "n completada")%string.

Section WithExternals.

Variable X : Externals.

Definition WORKDIR : Path := getcwd X.
Definition TOOLS_DIR : Path := child WORKDIR "tools".
Definition FFMPEG_ROOT : Path := child TOOLS_DIR "ffmpeg".
Definition FFMPEG_ZIP : Path := child FFMPEG_ROOT "ffmpeg-release-essentials.zip".

Definition ensure_dirs : M unit :=
  mkdir X TOOLS_DIR ;;
  mkdir X FFMPEG_ROOT.

(** Lines 59-63 of [ensure_ffmpeg]: fetch the archive unless it is there,
    and extract it. *)
Definition fetch_and_extract_ffmpeg : M unit :=
  have_zip <- path_exists X FFMPEG_ZIP ;;
  (if negb have_zip then download_file X FFMPEG_URL FFMPEG_ZIP else ret tt) ;;
  log "Extrayendo FFmpeg..." ;;
  unzip X FFMPEG_ZIP FFMPEG_ROOT.

(** [for exe in FFMPEG_ROOT.rglob("ffmpeg.exe"): log(...); return exe],
    and what follows the loop when it yields nothing. *)
Definition first_ffmpeg (otherwise : M Path) : M Path :=
  found <- rglob X FFMPEG_ROOT "ffmpeg.exe" ;;
  match found with
  | exe :: _ => log ("FFmpeg localizado: " ++ str X exe)%string ;; ret exe
  | [] => otherwise
  end.

Definition ensure_ffmpeg : M Path :=
  first_ffmpeg
    (fetch_and_extract_ffmpeg ;;
     first_ffmpeg (raise (FileNotFoundError msg_ffmpeg_not_found))).

Definition ffmpeg_cmd (ffmpeg_exe input_mp4 output_mp3 : Path) : list string :=
  [ str X ffmpeg_exe; "-y"; "-i"; str X input_mp4; "-vn";
    "-acodec"; "libmp3lame"; "-b:a"; "192k"; str X output_mp3 ].

Definition convert_mp4_to_mp3 (input_mp4 ffmpeg_exe : Path) : M Path :=
  there <- path_exists X input_mp4 ;;
  if negb there then
    raise (FileNotFoundError ("No existe el archivo: " ++ str X input_mp4)%string)
  else
    output_mp3 <- of_sum (replace_suffix input_mp4 ".mp3") ;;
    log msg_starting ;;
    result <- run X (ffmpeg_cmd ffmpeg_exe input_mp4 output_mp3) ;;
    if negb (returncode result =? 0)%Z then
      log (PyStr.strip (stderr result)) ;;
      raise (RuntimeError msg_conversion_failed)
    else
      made <- path_exists X output_mp3 ;;
      if negb made then raise (RuntimeError msg_no_output)
      else
        log msg_done ;;
        ret output_mp3.

(** [input_mp4 = WORKDIR / VIDEO_FILE], the local of [main]. *)
Definition input_mp4 : Path := child WORKDIR VIDEO_FILE.

Definition main : M unit :=
  log ("Conversor MP4 a MP3 (FFmpeg port" ++ a_acute ++ "til)")%string ;;
  there <- path_exists X input_mp4 ;;
  if negb there then
    log ("No se encontr" ++ o_acute ++ " el archivo MP4 esperado: "
         ++ name input_mp4)%string ;;
    log "Coloca el MP4 en esta carpeta o renombra VIDEO_FILE en el script"
  else
    ensure_dirs ;;
    try_or_return ensure_ffmpeg
      (fun e => log ("Error preparando FFmpeg: " ++ str_exn e)%string)
      (fun ffmpeg_exe =>
         try_or_return
           (out <- convert_mp4_to_mp3 input_mp4 ffmpeg_exe ;;
            log ("Archivo MP3 creado: " ++ str X out)%string)
           (fun e => log ("Error en la conversi" ++ o_acute ++ "n: "
                          ++ str_exn e)%string)
           (fun _ => log "Proceso finalizado")).

(** A run of the script: lines 18-22, then [main()] under
    [if __name__ == "__main__"]. *)
Definition script : M unit :=
  ensure_requests X ;;
  main.

End WithExternals.

End Mp4ToMp3.


(** ** transcribir_mp3_vosk.py *)

Module Mp3Vosk.

Import FS Py Ext Lib.
Local Open Scope py_scope.

Definition nl : string := String (ascii_of_nat 10) EmptyString.
Definition o_acute : string := String (ascii_of_nat 243) EmptyString.

Definition VIDEO_STEM : string :=
  ("CUANTT - Sales Force - Sesi" ++ o_acute ++ "n de Marketing, Comunicaci"
   ++ o_acute ++ "n y Cuidado Preventivo-20250811")%string.
Definition MP3_FILE : string := (VIDEO_STEM ++ ".mp3")%string.
Definition VOSK_MODEL_NAME : string := "vosk-model-small-es-0.42".
Definition FFMPEG_URL : string :=
  "https://www.gyan.dev/ffmpeg/builds/ffmpeg-release-essentials.zip".
Definition VOSK_MODEL_URL : string :=
  ("https://alphacephei.com/vosk/models/" ++ VOSK_MODEL_NAME ++ ".zip")%string.

Definition msg_ffmpeg_not_found : string :=
  "No se encontro ffmpeg.exe tras la extraccion".
Definition msg_conversion_failed : string := "Fallo la conversion con FFmpeg".
Definition msg_model_not_found : string :=
  "No se encontro la carpeta del modelo Vosk tras la extraccion".
Definition msg_wav_format : string := "WAV debe ser mono 16-bit 16000Hz".
Definition msg_starting : string := "Convirtiendo MP3 a WAV mono 16kHz...".
Definition msg_done : string := "Conversion completada".
Definition msg_reused : string := "WAV ya existe, se reutiliza".
Definition msg_loading : string := "Cargando modelo Vosk (puede tardar)...".
Definition msg_no_text : string :=
  "Aviso: No se obtuvo texto. Verifique la claridad del audio.".

(** The two [f.write] calls before the transcript. *)
Definition banner : string :=
  ("TRANSCRIPCION (Vosk - Espanol)" ++ nl
   ++ "================================" ++ nl ++ nl)%string.

(** The test of the fallback loop on one entry of [MODELS_DIR]:
    [d.is_dir() and d.name.startswith("vosk-model-small-es")]. *)
Definition similar_name (e : string * FS.node) : bool :=
  FS.is_dir_node (snd e) && PyStr.startswith "vosk-model-small-es" (fst e).

(** [len(text)] in decimal. *)
Definition str_nat (n : nat) : string := NilZero.string_of_uint (Nat.to_uint n).

(** [if 'text' in res: results.append(res['text'])] *)
Definition append_text (res : option string) (results : list string) : list string :=
  match res with
  | Some t => results ++ [t]
  | None => results
  end.

(** [" ".join(x.strip() for x in results if x.strip()).strip()] *)
Definition assemble (results : list string) : string :=
  PyStr.strip
    (PyStr.join " "
       (map PyStr.strip (filter (fun x => PyStr.truthy (PyStr.strip x)) results))).

Section WithExternals.

Variable X : Externals.

Definition WORKDIR : Path := getcwd X.
Definition TOOLS_DIR : Path := child WORKDIR "tools".
Definition FFMPEG_ROOT : Path := child TOOLS_DIR "ffmpeg".
Definition MODELS_DIR : Path := child WORKDIR "models".
Definition VOSK_MODEL_ZIP : Path := child MODELS_DIR (VOSK_MODEL_NAME ++ ".zip")%string.
Definition VOSK_MODEL_DIR : Path := child MODELS_DIR VOSK_MODEL_NAME.
Definition WAV_FILE : Path := child WORKDIR (VIDEO_STEM ++ "_16k_mono.wav")%string.
Definition OUTPUT_FILE : Path :=
  child WORKDIR (VIDEO_STEM ++ "_transcripcion_vosk.txt")%string.

(** [Path(MP3_FILE)] *)
Definition mp3_path : Path := mkPath false [MP3_FILE].

Definition ensure_dirs : M unit :=
  mkdir X TOOLS_DIR ;;
  mkdir X FFMPEG_ROOT ;;
  mkdir X MODELS_DIR.

(** Lines 69-74 of [ensure_ffmpeg]. *)
Definition fetch_and_extract_ffmpeg : M unit :=
  let zip_path := child FFMPEG_ROOT "ffmpeg-release-essentials.zip" in
  have_zip <- path_exists X zip_path ;;
  (if negb have_zip then download_file X FFMPEG_URL zip_path else ret tt) ;;
  log "Extrayendo FFmpeg..." ;;
  unzip X zip_path FFMPEG_ROOT.

Definition first_ffmpeg (otherwise : M Path) : M Path :=
  found <- rglob X FFMPEG_ROOT "ffmpeg.exe" ;;
  match found with
  | exe :: _ => log ("FFmpeg localizado: " ++ str X exe)%string ;; ret exe
  | [] => otherwise
  end.

Definition ensure_ffmpeg : M Path :=
  first_ffmpeg
    (fetch_and_extract_ffmpeg ;;
     first_ffmpeg (raise (FileNotFoundError msg_ffmpeg_not_found))).

Definition ffmpeg_cmd (ffmpeg_exe input_mp3 output_wav : Path) : list string :=
  [ str X ffmpeg_exe; "-y"; "-i"; str X input_mp3;
    "-ac"; "1"; "-ar"; "16000"; str X output_wav ].

Definition convert_mp3_to_wav (ffmpeg_exe input_mp3 output_wav : Path) : M unit :=
  there <- path_exists X input_mp3 ;;
  if negb there then
    raise (FileNotFoundError ("No existe el MP3: " ++ str X input_mp3)%string)
  else
    done <- path_exists X output_wav ;;
    if done then log msg_reused
    else
      log msg_starting ;;
      result <- run X (ffmpeg_cmd ffmpeg_exe input_mp3 output_wav) ;;
      if negb (returncode result =? 0)%Z then
        log (PyStr.strip (stderr result)) ;;
        raise (RuntimeError msg_conversion_failed)
      else log msg_done.

(** [import vosk] *)
Definition import_vosk : M unit :=
  fun s =>
    if vosk_importable s then (Ok tt, s, [])
    else (Raise (OtherError "ModuleNotFoundError" "No module named 'vosk'"), s, []).

Definition ensure_vosk_installed : M unit :=
  let cmd := [sys_executable X; "-m"; "pip"; "install"; "vosk"; "--quiet"] in
  try_except import_vosk
    (fun _ =>
       log "Instalando paquete vosk..." ;;
       result <- run X cmd ;;
       if negb (returncode result =? 0)%Z then
         raise (CalledProcessError X cmd (returncode result))
       else ret tt).

(** [p.iterdir()], drained. *)
Definition iterdir (p : Path) : M (list Path) :=
  fs_query (fun n => match os_call X p (FS.iterdir (at_ X p) n) with
                     | inr l => inr (map (fun e => below X p (fst e)) l)
                     | inl e => inl e
                     end).

(** [p.is_dir()] *)
Definition is_dir (p : Path) : M bool := fs_read (FS.is_dir (at_ X p)).

(** [VOSK_MODEL_DIR.exists() and any(VOSK_MODEL_DIR.iterdir())] *)
Definition model_ready : M bool :=
  there <- path_exists X VOSK_MODEL_DIR ;;
  if there then
    inside <- iterdir VOSK_MODEL_DIR ;;
    ret (match inside with [] => false | _ :: _ => true end)
  else ret false.

(** Lines 117-122 of [ensure_vosk_model]. *)
Definition fetch_and_extract_model : M unit :=
  have_zip <- path_exists X VOSK_MODEL_ZIP ;;
  (if negb have_zip then download_file X VOSK_MODEL_URL VOSK_MODEL_ZIP else ret tt) ;;
  log "Extrayendo modelo Vosk..." ;;
  unzip X VOSK_MODEL_ZIP MODELS_DIR.

(** The fallback loop of lines 126-129. *)
Fixpoint similar_model_dir (ds : list Path) : M Path :=
  match ds with
  | [] => raise (FileNotFoundError msg_model_not_found)
  | d :: r =>
      isd <- is_dir d ;;
      if isd && PyStr.startswith "vosk-model-small-es" (name d) then ret d
      else similar_model_dir r
  end.

(** Lines 123-129 of [ensure_vosk_model]. *)
Definition locate_model : M Path :=
  there <- path_exists X VOSK_MODEL_DIR ;;
  if there then ret VOSK_MODEL_DIR
  else
    ds <- iterdir MODELS_DIR ;;
    similar_model_dir ds.

Definition ensure_vosk_model : M Path :=
  ready <- model_ready ;;
  if ready then
    log ("Modelo Vosk listo: " ++ str X VOSK_MODEL_DIR)%string ;;
    ret VOSK_MODEL_DIR
  else
    fetch_and_extract_model ;;
    locate_model.

(** How many bytes [wf.readframes(n)] asks the data chunk for. *)
Definition frame_bytes (wf : wave_read) (n : Z) : nat :=
  Z.to_nat (n * nchannels wf * sampwidth wf).

(** The [while True] loop of lines 143-150; [todo] is what the WAV reader
    has not delivered yet, [nbytes] the size of one read. *)
Equations read_loop (nbytes : nat) (todo : list Byte.byte)
          (rec : Recognizer X) (results : list string)
  : result (Recognizer X * list string) * list event
  by wf (List.length todo) lt :=
read_loop nbytes todo rec results with inspect (firstn nbytes todo) := {
  | exist _ [] _ := (Ok (rec, results), [ReadFrames 4000]);
  | exist _ (b :: bs) Heq with AcceptWaveform X rec (b :: bs) := {
      | inl e := (Raise e, [ReadFrames 4000; Feed (b :: bs)]);
      | inr (true, rec1) :=
          let o := read_loop nbytes (skipn nbytes todo) (snd (Result X rec1))
                             (append_text (fst (Result X rec1)) results) in
          (fst o, ReadFrames 4000 :: Feed (b :: bs) :: snd o);
      | inr (false, rec1) :=
          let o := read_loop nbytes (skipn nbytes todo) rec1 results in
          (fst o, ReadFrames 4000 :: Feed (b :: bs) :: snd o) } }.
Next Obligation.
  rewrite length_skipn.
  destruct nbytes; [discriminate|]. destruct todo; [discriminate|]. simpl. lia.
Qed.
Next Obligation.
  rewrite length_skipn.
  destruct nbytes; [discriminate|]. destruct todo; [discriminate|]. simpl. lia.
Qed.

Definition transcribe_with_vosk (wav_path model_dir : Path) : M string :=
  import_vosk ;;
  log msg_loading ;;
  model <- fs_query (fun n => vosk_Model X n (at_ X model_dir)) ;;
  content <- read X wav_path ;;
  wf <- of_sum (wave_open X content) ;;
  if negb (nchannels wf =? 1)%Z || negb (sampwidth wf =? 2)%Z
     || negb (framerate wf =? 16000)%Z
  then raise (ValueError msg_wav_format)
  else
    let rec := SetWords X (KaldiRecognizer X model (framerate wf)) true in
    looped <- lift_pure (read_loop (frame_bytes wf 4000) (frames wf) rec []) ;;
    let res := FinalResult X (fst looped) in
    ret (assemble (append_text (fst res) (snd looped))).

(** The body of the last [try] of [main], lines 186-194. *)
Definition transcribe_and_save (model_dir : Path) : M unit :=
  text <- transcribe_with_vosk WAV_FILE model_dir ;;
  (if negb (PyStr.truthy text)
   then log msg_no_text
   else ret tt) ;;
  write X OUTPUT_FILE (banner ++ text ++ nl)%string ;;
  log ("Transcripcion guardada: " ++ str X OUTPUT_FILE)%string ;;
  log ("Caracteres: " ++ str_nat (String.length text))%string.

(** Lines 163-164 of [main]. *)
Definition make_cache_dirs : M unit :=
  mkdir X TOOLS_DIR ;;
  mkdir X MODELS_DIR.

(** The body of the third [try] of [main], lines 179-180. *)
Definition prepare_vosk : M Path :=
  ensure_vosk_installed ;;
  ensure_vosk_model.

Definition main : M unit :=
  log "Transcriptor offline Vosk - Espanol" ;;
  there <- path_exists X mp3_path ;;
  if negb there then
    log ("No se encontro el MP3: " ++ MP3_FILE)%string
  else
    make_cache_dirs ;;
    try_or_return ensure_ffmpeg
      (fun e => log ("Error preparando FFmpeg: " ++ str_exn e)%string)
      (fun ffmpeg_exe =>
    try_or_return (convert_mp3_to_wav ffmpeg_exe mp3_path WAV_FILE)
      (fun e => log ("Error de conversion: " ++ str_exn e)%string)
      (fun _ =>
    try_or_return prepare_vosk
      (fun e => log ("Error preparando Vosk: " ++ str_exn e)%string)
      (fun model_dir =>
    try_or_return (transcribe_and_save model_dir)
      (fun e => log ("Error durante la transcripcion: " ++ str_exn e)%string)
      (fun _ => log "Proceso completado")))).

(** A run of the script: lines 20-24, then [main()] under
    [if __name__ == "__main__"]. *)
Definition script : M unit :=
  ensure_requests X ;;
  main.

End WithExternals.

End Mp3Vosk.


(** ** The transcription loop, as the specification words it *)

Module TranscriptSpec.

Import FS Py Ext.

(** The audio cut into consecutive reads of [nbytes] bytes; only the last
    one can be shorter. *)
Equations chunks (nbytes : nat) (audio : list Byte.byte) : list (list Byte.byte)
  by wf (List.length audio) lt :=
chunks nbytes audio with inspect (firstn nbytes audio) := {
  | exist _ [] _ := [];
  | exist _ (b :: bs) Heq := (b :: bs) :: chunks nbytes (skipn nbytes audio) }.
Next Obligation.
  rewrite length_skipn.
  destruct nbytes; [discriminate|]. destruct audio; [discriminate|]. simpl. lia.
Qed.

Section WithExternals.

Variable X : Externals.

Definition text_of (res : option string) : list string :=
  match res with Some t => [t] | None => [] end.

(** Feed the reads in order; a read on which the recognizer signals a
    segment boundary contributes that segment's text, the others nothing.
    A recognizer failure ends the run. *)
Fixpoint segments (rec : Recognizer X) (reads : list (list Byte.byte))
  : exn + (list string * Recognizer X) :=
  match reads with
  | [] => inr ([], rec)
  | data :: later =>
      match AcceptWaveform X rec data with
      | inl e => inl e
      | inr (boundary, rec1) =>
          let here := if boundary then text_of (fst (Result X rec1)) else [] in
          let rec2 := if boundary then snd (Result X rec1) else rec1 in
          match segments rec2 later with
          | inl e => inl e
          | inr (texts, rec3) => inr (here ++ texts, rec3)
          end
      end
  end.

(** The non-empty segments, each trimmed. *)
Definition pieces (texts : list string) : list string :=
  filter PyStr.truthy (map PyStr.strip texts).

(** The events of a run over [reads]: one read and one feed per chunk, and
    the last, empty read. *)
Definition audio_events (reads : list (list Byte.byte)) : list event :=
  flat_map (fun data => [ReadFrames 4000; Feed data]) reads ++ [ReadFrames 4000].

End WithExternals.

End TranscriptSpec.


(** ** Provisioning, as the specification words it *)

Module ProvisionSpec.

Import FS Py.



End ProvisionSpec.


(** ** Concrete worlds *)

(** Small worlds on which the scripts can be run: a POSIX-like machine
    whose working directory is [/w], a network that serves both archives,
    an archive reader that knows them, a WAV parser that knows two files,
    and a recognizer that ends a segment on every first read. *)
Module Examples.

Import FS Py Ext Lib.

Definition ffmpeg_archive : list zip_member :=
  [ mkMember ["ffmpeg-8.0"] None;
    mkMember ["ffmpeg-8.0"; "bin"; "ffmpeg.exe"] (Some "MZ") ].

Definition model_archive : list zip_member :=
  [ mkMember ["vosk-model-small-es-0.42"] None;
    mkMember ["vosk-model-small-es-0.42"; "README"] (Some "modelo") ].

Definition serve (url : string) : http_response :=
  if String.eqb url Mp4ToMp3.FFMPEG_URL then HttpBody "ZIP-FFMPEG"
  else if String.eqb url Mp3Vosk.VOSK_MODEL_URL then HttpBody "ZIP-MODEL"
  else HttpError (OtherError "HTTPError" "404 Client Error").

Definition open_zip (content : string) : exn + list zip_member :=
  if String.eqb content "ZIP-FFMPEG" then inr ffmpeg_archive
  else if String.eqb content "ZIP-MODEL" then inr model_archive
  else inl (OtherError "BadZipFile" "File is not a zip file").

(** 8001 bytes of silence: two reads, a full one and one byte. *)
Definition silence : list Byte.byte := repeat Byte.x00 (Z.to_nat 8001).

Definition open_wave (content : string) : exn + wave_read :=
  if String.eqb content "WAV-16K-MONO" then inr (mkWave 1 2 16000 silence)
  else if String.eqb content "WAV-44K-STEREO" then inr (mkWave 2 2 44100 silence)
  else inl (OtherError "wave.Error" "file does not start with RIFF id").

(** The one signal the examples need. *)
Definition signal_names (n : Z) : option string :=
  if (n =? 9)%Z then Some "<Signals.SIGKILL: 9>" else None.

(** A tool that fails, and one that succeeds without writing anything. *)
Definition tool_fails (cmd : list string) (st : State) : completed_process :=
  Completed 1 EmptyString "  Conversion failed!  " st.

Definition tool_silent (cmd : list string) (st : State) : completed_process :=
  Completed 0 EmptyString EmptyString st.

(** The recognizer counts the reads it was fed; the first read ends a
    segment. *)
Definition world (tool : list string -> State -> completed_process) : Externals :=
  {| cwd := ["w"];
     anchor := "/";
     sep := "/";
     sys_executable := "/usr/bin/python3";
     requests_get := serve;
     ZipFile := open_zip;
     subprocess_run := tool;
     Signals := signal_names;
     wave_open := open_wave;
     Model := unit;
     Recognizer := nat;
     vosk_Model := fun n p => if is_dir p n then inr tt
                              else inl (OtherError "Exception" "Failed to create a model");
     KaldiRecognizer := fun _ _ => 0;
     SetWords := fun r _ => r;
     AcceptWaveform := fun r data => inr (Nat.eqb r 0, S r);
     Result := fun r => (Some "  hola ", r);
     FinalResult := fun r => (Some "mundo  ", r) |}.

Definition tree (work : list (string * node)) : State :=
  mkState (Dir [("w", Dir work)]) true true.

Definition provisioned_ffmpeg : string * node :=
  ("tools", Dir [("ffmpeg", Dir [("ffmpeg-8.0", Dir [("bin", Dir [("ffmpeg.exe", File "MZ")])])])]).

Definition provisioned_model : string * node :=
  ("models", Dir [("vosk-model-small-es-0.42", Dir [("README", File "modelo")])]).

(** Nothing but the working directory. *)
Definition st_bare : State := tree [].

(** The video and an MP3 left by an earlier run. *)
Definition st_video : State :=
  tree [ (Mp4ToMp3.VIDEO_FILE, File "mp4"); (Mp3Vosk.MP3_FILE, File "stale mp3") ].

(** The MP3, without the WAV. *)
Definition st_audio : State := tree [ (Mp3Vosk.MP3_FILE, File "mp3") ].

(** Everything in place: video, MP3, WAV, FFmpeg and the model. *)
Definition st_ready : State :=
  tree [ (Mp4ToMp3.VIDEO_FILE, File "mp4");
         (Mp3Vosk.MP3_FILE, File "mp3");
         ((Mp3Vosk.VIDEO_STEM ++ "_16k_mono.wav")%string, File "WAV-16K-MONO");
         provisioned_ffmpeg; provisioned_model ].

(** The same, with a stereo 44.1 kHz WAV. *)
Definition st_stereo : State :=
  tree [ (Mp3Vosk.MP3_FILE, File "mp3");
         ((Mp3Vosk.VIDEO_STEM ++ "_16k_mono.wav")%string, File "WAV-44K-STEREO");
         provisioned_ffmpeg; provisioned_model ].

(** The cache directories are there and empty. *)
Definition st_empty_caches : State :=
  tree [ (Mp4ToMp3.VIDEO_FILE, File "mp4");
         ("tools", Dir [("ffmpeg", Dir [])]);
         ("models", Dir []) ].

(** The model directory is there, with nothing in it. *)
Definition st_empty_model : State :=
  tree [ ("models", Dir [("vosk-model-small-es-0.42", Dir [])]) ].

(** The video is there, and a file called [tools]. *)
Definition st_tools_is_a_file : State :=
  tree [ (Mp4ToMp3.VIDEO_FILE, File "mp4"); ("tools", File "notes") ].

Definition exe_path : Path :=
  mkPath true ["w"; "tools"; "ffmpeg"; "ffmpeg-8.0"; "bin"; "ffmpeg.exe"].

(** A network whose stream breaks after four bytes of any download. *)
Definition cut_off (url : string) : http_response :=
  HttpBroken "ZIP-" (OtherError "ChunkedEncodingError" "Connection broken").

(** A network that answers every address with the FFmpeg archive. *)
Definition serve_ffmpeg_only (url : string) : http_response := HttpBody "ZIP-FFMPEG".

(** A WAV parser that also knows a file without any frame. *)
Definition open_wave_or_empty (content : string) : exn + wave_read :=
  if String.eqb content "WAV-EMPTY" then inr (mkWave 1 2 16000 [])
  else open_wave content.

(** The recognizer of [world]: the first read ends a segment. *)
Definition accept_every (r : nat) (data : list Byte.byte) : exn + (bool * nat) :=
  inr (Nat.eqb r 0, S r).

(** A recognizer that breaks on its second read. *)
Definition accept_once (r : nat) (data : list Byte.byte) : exn + (bool * nat) :=
  if Nat.eqb r 0 then inr (true, S r)
  else inl (OtherError "Exception" "Failed to process waveform").

(** The machine of [world], with its network, WAV parser, recognizer and
    spawned program chosen. *)
Definition world_of (net : string -> http_response)
           (wave : string -> exn + wave_read)
           (accept : nat -> list Byte.byte -> exn + (bool * nat))
           (tool : list string -> State -> completed_process) : Externals :=
  {| cwd := ["w"];
     anchor := "/";
     sep := "/";
     sys_executable := "/usr/bin/python3";
     requests_get := net;
     ZipFile := open_zip;
     subprocess_run := tool;
     Signals := signal_names;
     wave_open := wave;
     Model := unit;
     Recognizer := nat;
     vosk_Model := fun n p => if is_dir p n then inr tt
                              else inl (OtherError "Exception" "Failed to create a model");
     KaldiRecognizer := fun _ _ => 0;
     SetWords := fun r _ => r;
     AcceptWaveform := accept;
     Result := fun r => (Some "  hola ", r);
     FinalResult := fun r => (Some "mundo  ", r) |}.

(** FFmpeg writing the MP3 of the first script, and ending with 0. *)
Definition tool_encodes (cmd : list string) (st : State) : completed_process :=
  match write_file ["w"; Mp3Vosk.MP3_FILE] "ID3" (fs st) with
  | inr n => Completed 0 EmptyString EmptyString (with_fs n st)
  | inl _ => Completed 1 EmptyString "cannot write the output" st
  end.

(** pip installing the package: afterwards [import vosk] succeeds. *)
Definition tool_installs (cmd : list string) (st : State) : completed_process :=
  Completed 0 EmptyString EmptyString (mkState (fs st) true (requests_importable st)).

(** Nothing but the working directory, on a machine without [requests]. *)
Definition st_no_requests : State := mkState (fs st_bare) true false.

(** Everything in place, but the [vosk] package. *)
Definition st_no_vosk : State := mkState (fs st_ready) false true.

(** Everything in place, with a WAV that holds no frame. *)
Definition st_empty_wav : State :=
  tree [ (Mp3Vosk.MP3_FILE, File "mp3");
         ((Mp3Vosk.VIDEO_STEM ++ "_16k_mono.wav")%string, File "WAV-EMPTY");
         provisioned_ffmpeg; provisioned_model ].

(** The video and FFmpeg, no MP3 yet. *)
Definition st_video_and_tool : State :=
  tree [ (Mp4ToMp3.VIDEO_FILE, File "mp4"); provisioned_ffmpeg ].

(** The MP3 and an empty model directory, nothing else. *)
Definition st_audio_empty_model : State :=
  tree [ (Mp3Vosk.MP3_FILE, File "mp3");
         ("models", Dir [("vosk-model-small-es-0.42", Dir [])]) ].

End Examples.


(** * Verification *)

(** ** Facts about the filesystem *)

Module FSFacts.

Import FS.

Lemma assoc_set_entry_eq k v es : assoc k (set_entry k v es) = Some v.
Proof.
  induction es as [|[k' v'] r IH]; simpl.
  - now rewrite String.eqb_refl.
  - destruct (String.eqb k k') eqn:E; simpl; rewrite E; auto.
Qed.

Lemma assoc_set_entry_neq k k' v es :
  k' <> k -> assoc k' (set_entry k v es) = assoc k' es.
Proof.
  intros N. induction es as [|[k0 v0] r IH]; simpl.
  - apply String.eqb_neq in N. now rewrite N.
  - destruct (String.eqb k k0) eqn:E; simpl.
    + apply String.eqb_eq in E. subst k0.
      apply String.eqb_neq in N. now rewrite N.
    + now rewrite IH.
Qed.

Lemma lookup_app p q n :
  lookup (p ++ q) n =
  match lookup p n with Some m => lookup q m | None => None end.
Proof.
  revert n. induction p as [|c p IH]; intros n; simpl; auto.
  destruct n as [s|es]; auto.
  destruct (assoc c es); auto.
Qed.

Lemma lookup_snoc p k n x :
  lookup (p ++ [k]) n = Some x ->
  exists es, lookup p n = Some (Dir es) /\ assoc k es = Some x.
Proof.
  rewrite lookup_app. destruct (lookup p n) as [[s|es]|]; simpl; try discriminate.
  destruct (assoc k es) eqn:E; try discriminate.
  intros H. injection H as <-. eauto.
Qed.

Lemma exists_parent_is_dir p k n :
  exists_ (p ++ [k]) n = true -> is_dir p n = true.
Proof.
  unfold exists_, is_dir. destruct (lookup (p ++ [k]) n) eqn:E; try discriminate.
  apply lookup_snoc in E. destruct E as (es & -> & _). reflexivity.
Qed.

Lemma same_kind_refl x : same_kind x x.
Proof. destruct x; exact I. Qed.

Lemma same_kind_trans x y z : same_kind x y -> same_kind y z -> same_kind x z.
Proof. destruct x, y, z; simpl; tauto. Qed.

Lemma grows_refl n : grows n n.
Proof. intros q x H. exists x. split; [assumption | apply same_kind_refl]. Qed.

Lemma grows_trans a b c : grows a b -> grows b c -> grows a c.
Proof.
  intros H1 H2 q x Hq.
  destruct (H1 q x Hq) as (y & Hy & K1).
  destruct (H2 q y Hy) as (z & Hz & K2).
  exists z. split; [assumption | eapply same_kind_trans; eauto].
Qed.

Lemma grows_exists n n' q : grows n n' -> exists_ q n = true -> exists_ q n' = true.
Proof.
  unfold exists_. intros G H. destruct (lookup q n) eqn:E; try discriminate.
  destruct (G q _ E) as (x' & -> & _). reflexivity.
Qed.

Lemma grows_is_dir n n' q : grows n n' -> is_dir q n = true -> is_dir q n' = true.
Proof.
  unfold is_dir. intros G H. destruct (lookup q n) as [[s|es]|] eqn:E; try discriminate.
  destruct (G q _ E) as (x' & -> & K). destruct x'; simpl in K; tauto.
Qed.

(** Rebinding one name by a node that grows the old one grows the
    directory. *)
Lemma grows_set_entry c es m m' :
  (forall old, assoc c es = Some old -> grows old m') ->
  m = Dir es ->
  grows m (Dir (set_entry c m' es)).
Proof.
  intros Hold -> q x Hq.
  destruct q as [|c' q]; simpl in *.
  - injection Hq as <-. eexists; split; [reflexivity | exact I].
  - destruct (String.eqb_spec c' c) as [->|N].
    + rewrite assoc_set_entry_eq.
      destruct (assoc c es) as [old|] eqn:E; try discriminate.
      exact (Hold old eq_refl q x Hq).
    + rewrite (assoc_set_entry_neq _ _ _ _ N).
      destruct (assoc c' es); try discriminate.
      exists x. split; [assumption | apply same_kind_refl].
Qed.

Lemma mkdir_p_grows p : forall n n', mkdir_p p n = inr n' -> grows n n'.
Proof.
  induction p as [|c p IH]; intros n n' H; simpl in H.
  - destruct n; try discriminate. injection H as <-. apply grows_refl.
  - destruct n as [s|es]; try discriminate.
    destruct (mkdir_p p _) as [e|m'] eqn:E; try discriminate.
    injection H as <-.
    apply grows_set_entry with (m := Dir es); auto.
    intros old Hold. rewrite Hold in E. eapply IH; eauto.
Qed.

Lemma write_file_grows p data : forall n n', write_file p data n = inr n' -> grows n n'.
Proof.
  induction p as [|c p IH]; intros n n' H; simpl in H.
  - destruct n; try discriminate. injection H as <-.
    intros q x Hq. destruct q; simpl in *; try discriminate.
    injection Hq as <-. eexists; split; [reflexivity | exact I].
  - destruct n as [s|es]; try discriminate.
    destruct (assoc c es) as [m|] eqn:A.
    + destruct (write_file p data m) as [e|m'] eqn:E; try discriminate.
      injection H as <-.
      apply grows_set_entry with (m := Dir es); auto.
      intros old Hold. rewrite A in Hold. injection Hold as <-. eapply IH; eauto.
    + destruct p; try discriminate. injection H as <-.
      apply grows_set_entry with (m := Dir es); auto.
      intros old Hold. congruence.
Qed.

Lemma write_file_lookup p data : forall n n',
  write_file p data n = inr n' -> lookup p n' = Some (File data).
Proof.
  induction p as [|c p IH]; intros n n' H; simpl in H.
  - destruct n; try discriminate. now injection H as <-.
  - destruct n as [s|es]; try discriminate.
    destruct (assoc c es) as [m|] eqn:A.
    + destruct (write_file p data m) as [e|m'] eqn:E; try discriminate.
      injection H as <-. simpl. rewrite assoc_set_entry_eq. eauto.
    + destruct p; try discriminate. injection H as <-.
      simpl. now rewrite assoc_set_entry_eq.
Qed.

(** Writing succeeds when the parent is a directory and the target is not
    one. *)
Lemma write_file_succeeds p k data : forall n,
  is_dir p n = true -> is_dir (p ++ [k]) n = false ->
  exists n', write_file (p ++ [k]) data n = inr n'.
Proof.
  unfold is_dir. induction p as [|c p IH]; intros n Hp Ht; simpl in *.
  - destruct n as [s|es]; try discriminate.
    destruct (assoc k es) as [[s|es']|] eqn:A; simpl; eauto; discriminate.
  - destruct n as [s|es]; try discriminate.
    destruct (assoc c es) as [m|] eqn:A; try discriminate.
    destruct (IH m Hp Ht) as (m' & ->). eauto.
Qed.

Lemma iterate_directories_Dir here es :
  iterate_directories here (Dir es) = (here, es) :: iterate_entries here [] es.
Proof.
  cbn [iterate_directories]. f_equal. generalize (@nil string) at 2 3.
  induction es as [|[k v] r IH]; intros seen; [reflexivity|].
  cbn [iterate_entries]. rewrite <- !IH. reflexivity.
Qed.

Lemma mem_cons_neq k k' seen : k' <> k -> mem k' (k :: seen) = mem k' seen.
Proof.
  intros N. unfold mem. simpl. apply String.eqb_neq in N. now rewrite N.
Qed.

(** Every directory the walk reports is a directory of the tree, reached
    from the start of the walk. *)
Lemma iterate_directories_sound n : forall here q es,
  In (q, es) (iterate_directories here n) ->
  exists d, q = here ++ d /\ lookup d n = Some (Dir es).
Proof.
  induction n as [s|es0 IH] using node_ind'; intros here q es Hin.
  - destruct Hin.
  - rewrite iterate_directories_Dir in Hin. destruct Hin as [E|Hin].
    + injection E as <- <-. exists []. now rewrite app_nil_r.
    + assert (G : forall seen l,
                 Forall (fun e => forall here q es,
                             In (q, es) (iterate_directories here (snd e)) ->
                             exists d, q = here ++ d /\ lookup d (snd e) = Some (Dir es)) l ->
                 (forall k, mem k seen = false -> assoc k es0 = assoc k l) ->
                 In (q, es) (iterate_entries here seen l) ->
                 exists d, q = here ++ d /\ lookup d (Dir es0) = Some (Dir es)).
      { clear Hin IH. intros seen l. revert seen.
        induction l as [|[k v] r IHl]; intros seen HF Hinv Hin; simpl in Hin.
        - destruct Hin.
        - inversion HF as [|? ? Hv Hr]; subst.
          destruct (mem k seen) eqn:M.
          + apply (IHl seen Hr); auto.
            intros k' Hk'. rewrite (Hinv k' Hk'). simpl.
            destruct (String.eqb_spec k' k) as [->|N]; [congruence | reflexivity].
          + apply in_app_or in Hin. destruct Hin as [Hin|Hin].
            * destruct (Hv _ _ _ Hin) as (d & -> & Hd). simpl in Hd.
              exists (k :: d). split; [now rewrite <- app_assoc|].
              simpl. rewrite (Hinv k M). simpl. now rewrite String.eqb_refl.
            * apply (IHl (k :: seen) Hr); auto.
              intros k' Hk'.
              destruct (String.eqb_spec k' k) as [->|N].
              { unfold mem in Hk'. simpl in Hk'. now rewrite String.eqb_refl in Hk'. }
              rewrite mem_cons_neq in Hk' by assumption.
              rewrite (Hinv k' Hk'). simpl.
              apply String.eqb_neq in N. now rewrite N. }
      apply (G [] es0); auto.
Qed.

Lemma iterate_entries_covers here c m : forall l seen,
  mem c seen = false -> assoc c l = Some m ->
  incl (iterate_directories (here ++ [c]) m) (iterate_entries here seen l).
Proof.
  induction l as [|[k v] r IH]; intros seen M A; simpl in *; try discriminate.
  destruct (String.eqb_spec c k) as [<-|N].
  - injection A as <-. rewrite M. intros x Hx. apply in_or_app. now left.
  - destruct (mem k seen).
    + now apply IH.
    + intros x Hx. apply in_or_app. right.
      apply (IH (k :: seen)); auto.
      now rewrite mem_cons_neq.
Qed.

(** Every directory of the tree is reported. *)
Lemma iterate_directories_complete d : forall n here es,
  lookup d n = Some (Dir es) -> In (here ++ d, es) (iterate_directories here n).
Proof.
  induction d as [|c d IH]; intros n here es H; simpl in H.
  - injection H as ->. rewrite iterate_directories_Dir, app_nil_r. now left.
  - destruct n as [s|es0]; try discriminate.
    destruct (assoc c es0) as [m|] eqn:A; try discriminate.
    rewrite iterate_directories_Dir. right.
    apply (iterate_entries_covers here c m es0 []); auto.
    replace (here ++ c :: d) with ((here ++ [c]) ++ d) by now rewrite <- app_assoc.
    now apply IH.
Qed.

(** [rglob] finds exactly the existing paths below the root that carry
    the name. *)
Lemma rglob_spec root nm n p :
  In p (rglob root nm n) <->
  exists d, p = root ++ d ++ [nm] /\ exists_ p n = true.
Proof.
  unfold rglob, exists_. split.
  - destruct (lookup root n) as [r|] eqn:R; [|intros []].
    intros Hin. apply in_flat_map in Hin. destruct Hin as ([q es] & Hq & Hp).
    simpl in Hp. destruct (assoc nm es) as [x|] eqn:A; [|destruct Hp].
    destruct Hp as [<-|[]].
    apply iterate_directories_sound in Hq. destruct Hq as (d & -> & Hd).
    exists d. split; [now rewrite <- app_assoc|].
    rewrite !lookup_app, R, Hd. simpl. now rewrite A.
  - intros (d & -> & H).
    rewrite app_assoc in H.
    destruct (lookup ((root ++ d) ++ [nm]) n) as [x|] eqn:E; try discriminate.
    apply lookup_snoc in E. destruct E as (es & Hd & A).
    rewrite lookup_app in Hd. destruct (lookup root n) as [r|]; try discriminate.
    apply in_flat_map. exists (root ++ d, es). split.
    + now apply iterate_directories_complete.
    + simpl. rewrite A. left. now rewrite <- app_assoc.
Qed.

(** What a directory lists under a name is what the name denotes. *)
Lemma listing_assoc es : forall seen k v,
  In (k, v) (listing seen es) -> mem k seen = false /\ assoc k es = Some v.
Proof.
  induction es as [|[k0 v0] r IH]; intros seen k v Hin; simpl in Hin.
  - destruct Hin.
  - destruct (mem k0 seen) eqn:M.
    + destruct (IH _ _ _ Hin) as [Hk A]. split; [assumption|].
      simpl. destruct (String.eqb_spec k k0) as [->|N]; [congruence | assumption].
    + destruct Hin as [E|Hin].
      * injection E as <- <-. split; [assumption|].
        simpl. now rewrite String.eqb_refl.
      * destruct (IH _ _ _ Hin) as [Hk A].
        destruct (String.eqb_spec k k0) as [->|N].
        -- unfold mem in Hk. simpl in Hk. now rewrite String.eqb_refl in Hk.
        -- rewrite mem_cons_neq in Hk by assumption. split; [assumption|].
           simpl. apply String.eqb_neq in N. now rewrite N.
Qed.

End FSFacts.

(** ** Facts about strings *)

Module PyStrFacts.

Import PyStr.
Local Open Scope string_scope.

Lemma lstrip_first s c : first_char (lstrip s) = Some c -> isspace c = false.
Proof.
  induction s as [|a r IH]; simpl; try discriminate.
  destruct (isspace a) eqn:E; auto.
  simpl. intros H. now injection H as <-.
Qed.

Lemma rstrip_last s c : last_char (rstrip s) = Some c -> isspace c = false.
Proof.
  revert c. induction s as [|a r IH]; intros c; simpl; try discriminate.
  destruct (rstrip r) as [|x y] eqn:R.
  - destruct (isspace a) eqn:E; simpl; try discriminate.
    intros H. now injection H as <-.
  - change (last_char (String a (String x y))) with
      (match last_char (String x y) with Some d => Some d | None => Some a end).
    destruct (last_char (String x y)) as [d|] eqn:L.
    + intros H. injection H as <-. now apply IH.
    + simpl in L. destruct (last_char y); discriminate.
Qed.

Lemma rstrip_first s c :
  first_char s = Some c -> isspace c = false -> first_char (rstrip s) = Some c.
Proof.
  destruct s as [|a r]; simpl; try discriminate.
  intros H E. injection H as ->. destruct (rstrip r); [now rewrite E | reflexivity].
Qed.

Lemma first_char_rstrip s c : first_char (rstrip s) = Some c -> first_char s = Some c.
Proof.
  destruct s as [|a r]; simpl; try discriminate.
  destruct (rstrip r); [destruct (isspace a); try discriminate|]; auto.
Qed.

(** [strip] leaves no whitespace at either end. *)
Lemma strip_trimmed s : trimmed (strip s).
Proof.
  unfold strip. split; intros c H.
  - apply first_char_rstrip in H. now apply lstrip_first in H.
  - now apply rstrip_last in H.
Qed.

Lemma lstrip_fixed s :
  (forall c, first_char s = Some c -> isspace c = false) -> lstrip s = s.
Proof.
  destruct s as [|a r]; simpl; auto.
  intros H. now rewrite (H a eq_refl).
Qed.

Lemma last_char_none s : last_char s = None -> s = EmptyString.
Proof.
  destruct s as [|a r]; simpl; auto. destruct (last_char r); discriminate.
Qed.

Lemma rstrip_fixed s :
  (forall c, last_char s = Some c -> isspace c = false) -> rstrip s = s.
Proof.
  induction s as [|a r IH]; simpl; auto.
  intros H. destruct (last_char r) as [d|] eqn:L.
  - rewrite IH by (intros c Hc; apply H; now rewrite Hc in L |- *).
    destruct r; [discriminate | reflexivity].
  - apply last_char_none in L. subst r. simpl. now rewrite (H a eq_refl).
Qed.

Lemma trimmed_strip s : trimmed s -> strip s = s.
Proof.
  intros [Hf Hl]. unfold strip. rewrite (lstrip_fixed s Hf). now apply rstrip_fixed.
Qed.

Lemma strip_idempotent s : strip (strip s) = strip s.
Proof. apply trimmed_strip, strip_trimmed. Qed.

Lemma first_char_app a b c :
  first_char a = Some c -> first_char (a ++ b) = Some c.
Proof. destruct a; simpl; [discriminate | auto]. Qed.

Lemma last_char_app a b :
  b <> EmptyString -> last_char (a ++ b) = last_char b.
Proof.
  intros N. induction a as [|x a IH]; simpl; auto.
  rewrite IH. destruct (last_char b) eqn:L; auto.
  apply last_char_none in L. contradiction.
Qed.

Lemma truthy_nonempty s : truthy s = true <-> s <> EmptyString.
Proof. destruct s; simpl; split; congruence. Qed.

Lemma first_char_some s : s <> EmptyString -> exists c, first_char s = Some c.
Proof. destruct s; [congruence | simpl; eauto]. Qed.

(** Trimmed, non-empty pieces joined by single spaces are trimmed as a
    whole: the final [strip] of the script changes nothing. *)
Lemma join_trimmed ps :
  Forall (fun p => p <> EmptyString /\ trimmed p) ps ->
  trimmed (join " " ps) /\ (ps <> [] -> join " " ps <> EmptyString).
Proof.
  induction 1 as [|p r [Hne [Hf Hl]] Hr IH].
  - split; [split; simpl; discriminate | congruence].
  - destruct r as [|q r].
    + simpl. split; [split; assumption | auto].
    + change (join " " (p :: q :: r)) with (p ++ String " " (join " " (q :: r))).
      destruct IH as [[IHf IHl] IHne].
      assert (N : join " " (q :: r) <> EmptyString) by (apply IHne; congruence).
      split; [split|].
      * intros c Hc. destruct (first_char_some p Hne) as (c' & Hc').
        rewrite (first_char_app _ _ _ Hc') in Hc. injection Hc as <-. auto.
      * intros c Hc.
        change (String " " (join " " (q :: r))) with (" " ++ join " " (q :: r)) in Hc.
        rewrite last_char_app in Hc.
        -- rewrite last_char_app in Hc by assumption. auto.
        -- simpl. discriminate.
      * intros _. destruct p; [congruence | simpl; discriminate].
Qed.

End PyStrFacts.

(** ** Facts about the transcription loop *)

Module TranscriptFacts.

Import FS Py Ext TranscriptSpec.

Lemma chunks_unfold nbytes audio :
  chunks nbytes audio =
  match firstn nbytes audio with
  | [] => []
  | c => c :: chunks nbytes (skipn nbytes audio)
  end.
Proof.
  funelim (chunks nbytes audio).
  - rewrite e. reflexivity.
  - rewrite Heq. reflexivity.
Qed.

(** The reads, put end to end, are the audio: nothing is skipped,
    repeated or reordered. *)
Lemma concat_chunks nbytes audio :
  0 < nbytes -> List.concat (chunks nbytes audio) = audio.
Proof.
  intros Hpos. funelim (chunks nbytes audio).
  - destruct nbytes; [lia|]. destruct audio; [reflexivity | discriminate].
  - rewrite concat_cons, H by assumption. rewrite <- Heq. apply firstn_skipn.
Qed.

Lemma chunks_bounded nbytes audio :
  Forall (fun data => 0 < List.length data <= nbytes) (chunks nbytes audio).
Proof.
  funelim (chunks nbytes audio).
  - constructor.
  - constructor; [|assumption].
    rewrite <- Heq. split.
    + rewrite Heq. simpl. lia.
    + apply firstn_le_length.
Qed.

(** Every read but the last is a full one. *)
Lemma chunks_full nbytes audio : forall before data after,
  chunks nbytes audio = before ++ data :: after ->
  after <> [] -> List.length data = nbytes.
Proof.
  funelim (chunks nbytes audio); intros before data after E N.
  - destruct before; discriminate.
  - destruct before as [|x before]; simpl in E; injection E as E1 E2.
    + subst data. rewrite <- Heq. apply firstn_length_le.
      destruct (le_lt_dec nbytes (List.length audio)) as [L|L]; [assumption|].
      exfalso. apply N. rewrite <- E2.
      rewrite skipn_all2 by lia.
      rewrite chunks_unfold. now rewrite firstn_nil.
    + eapply H; eauto.
Qed.

Section WithExternals.

Variable X : Externals.

Lemma append_text_app res results :
  Mp3Vosk.append_text res results = results ++ text_of res.
Proof. destruct res; simpl; [reflexivity | now rewrite app_nil_r]. Qed.

(** The loop of the script is the fold over the reads. *)
Lemma read_loop_segments nbytes todo rec results :
  forall texts rec',
  segments X rec (chunks nbytes todo) = inr (texts, rec') ->
  Mp3Vosk.read_loop X nbytes todo rec results =
  (Ok (rec', results ++ texts), audio_events (chunks nbytes todo)).
Proof.
  funelim (Mp3Vosk.read_loop X nbytes todo rec results); intros texts rec' Hseg;
    rewrite chunks_unfold in Hseg |- *;
    match goal with
    | E : firstn _ _ = _ |- _ => rewrite E in *
    end; simpl in Hseg.
  - injection Hseg as <- <-. now rewrite app_nil_r.
  - rewrite Heq0 in Hseg. discriminate.
  - rewrite Heq0 in Hseg. simpl in Hseg.
    destruct (segments X _ _) as [err|[ts r3]] eqn:E; try discriminate.
    injection Hseg as <- <-.
    rewrite (H ts r3 eq_refl). simpl. now rewrite append_text_app, <- app_assoc.
  - rewrite Heq0 in Hseg. simpl in Hseg.
    destruct (segments X _ _) as [err|[ts r3]] eqn:E; try discriminate.
    injection Hseg as <- <-.
    rewrite (H ts r3 eq_refl). reflexivity.
Qed.

End WithExternals.

Lemma map_strip_filter l :
  map PyStr.strip (filter (fun x => PyStr.truthy (PyStr.strip x)) l) = pieces l.
Proof.
  unfold pieces. induction l as [|x l IH]; simpl; auto.
  destruct (PyStr.truthy (PyStr.strip x)); simpl; now rewrite IH.
Qed.

Lemma pieces_clean l :
  Forall (fun p => p <> EmptyString /\ PyStr.trimmed p) (pieces l).
Proof.
  unfold pieces. apply Forall_forall. intros p Hp.
  apply filter_In in Hp. destruct Hp as [Hin Ht].
  apply in_map_iff in Hin. destruct Hin as (x & <- & _).
  split; [now apply PyStrFacts.truthy_nonempty | apply PyStrFacts.strip_trimmed].
Qed.

(** What the last line of [transcribe_with_vosk] returns. *)
Lemma assemble_pieces l : Mp3Vosk.assemble l = PyStr.join " " (pieces l).
Proof.
  unfold Mp3Vosk.assemble. rewrite map_strip_filter.
  apply PyStrFacts.trimmed_strip. apply PyStrFacts.join_trimmed, pieces_clean.
Qed.

End TranscriptFacts.

(** ** The claims *)


Import FS Py Ext Lib.
Local Open Scope py_scope.

(** Unfolding the computation monad down to states and events. *)
Ltac run_py :=
  unfold try_or_return, try_except, bind, ret, raise, log, emit, of_sum,
         path_exists, mkdir, write, read, os_call, fs_read, fs_query, fs_update,
         lift_pure in *.

Section MissingInput.

Variable X : Externals.

(** C10.  When the fixed input file is missing as [main] starts, each
    script only prints (three lines in the first script, two in the
    second) and returns: no download, no extraction, no subprocess, not
    even a cache directory; the state is the one it started from. *)
Theorem main_without_input_only_logs (st : State) :
  (exists_ (at_ X (Mp4ToMp3.input_mp4 X)) (fs st) = false ->
   Mp4ToMp3.main X st =
   (Ok tt, st,
    [ Log ("Conversor MP4 a MP3 (FFmpeg port" ++ Mp4ToMp3.a_acute ++ "til)")%string;
      Log ("No se encontr" ++ Mp4ToMp3.o_acute ++ " el archivo MP4 esperado: "
           ++ Mp4ToMp3.VIDEO_FILE)%string;
      Log "Coloca el MP4 en esta carpeta o renombra VIDEO_FILE en el script" ]))
  /\
  (exists_ (at_ X Mp3Vosk.mp3_path) (fs st) = false ->
   Mp3Vosk.main X st =
   (Ok tt, st,
    [ Log "Transcriptor offline Vosk - Espanol";
      Log ("No se encontro el MP3: " ++ Mp3Vosk.MP3_FILE)%string ])).
Proof.
  split; intros H.
  - unfold Mp4ToMp3.main. run_py. rewrite H. cbn.
    unfold name, Mp4ToMp3.input_mp4, child. cbn [parts].
    now rewrite last_last.
  - unfold Mp3Vosk.main. run_py. now rewrite H.
Qed.

End MissingInput.

Section Transcoder.

Variable X : Externals.

(** What [convert_mp4_to_mp3] does once its input is there and it has
    named its output: it starts FFmpeg, whatever is at the output path. *)
Lemma convert_mp4_to_mp3_runs (st : State) (input exe out : Path) :
  exists_ (at_ X input) (fs st) = true ->
  replace_suffix input ".mp3" = inr out ->
  Mp4ToMp3.convert_mp4_to_mp3 X input exe st =
  match subprocess_run X (Mp4ToMp3.ffmpeg_cmd X exe input out) st with
  | NotStarted e =>
      (Raise e, st,
       [Log Mp4ToMp3.msg_starting; Run (Mp4ToMp3.ffmpeg_cmd X exe input out)])
  | Completed rc so se st' =>
      if (rc =? 0)%Z then
        if exists_ (at_ X out) (fs st') then
          (Ok out, st',
           [Log Mp4ToMp3.msg_starting; Run (Mp4ToMp3.ffmpeg_cmd X exe input out);
            Log Mp4ToMp3.msg_done])
        else
          (Raise (RuntimeError Mp4ToMp3.msg_no_output), st',
           [Log Mp4ToMp3.msg_starting; Run (Mp4ToMp3.ffmpeg_cmd X exe input out)])
      else
        (Raise (RuntimeError Mp4ToMp3.msg_conversion_failed), st',
         [Log Mp4ToMp3.msg_starting; Run (Mp4ToMp3.ffmpeg_cmd X exe input out);
          Log (PyStr.strip se)])
  end.
Proof.
  intros Hin Hout. unfold Mp4ToMp3.convert_mp4_to_mp3, run. run_py.
  rewrite Hin, Hout. cbn.
  destruct (subprocess_run X _ st) as [rc so se st'|e]; cbn; [|reflexivity].
  destruct (rc =? 0)%Z; cbn; [|reflexivity].
  destruct (exists_ (at_ X out) (fs st')); reflexivity.
Qed.

(** The same for [convert_mp3_to_wav], which starts FFmpeg only when the
    WAV is not there yet. *)
Lemma convert_mp3_to_wav_runs (st : State) (exe input output : Path) :
  exists_ (at_ X input) (fs st) = true ->
  exists_ (at_ X output) (fs st) = false ->
  Mp3Vosk.convert_mp3_to_wav X exe input output st =
  match subprocess_run X (Mp3Vosk.ffmpeg_cmd X exe input output) st with
  | NotStarted e =>
      (Raise e, st,
       [Log Mp3Vosk.msg_starting; Run (Mp3Vosk.ffmpeg_cmd X exe input output)])
  | Completed rc so se st' =>
      if (rc =? 0)%Z then
        (Ok tt, st',
         [Log Mp3Vosk.msg_starting; Run (Mp3Vosk.ffmpeg_cmd X exe input output);
          Log Mp3Vosk.msg_done])
      else
        (Raise (RuntimeError Mp3Vosk.msg_conversion_failed), st',
         [Log Mp3Vosk.msg_starting; Run (Mp3Vosk.ffmpeg_cmd X exe input output);
          Log (PyStr.strip se)])
  end.
Proof.
  intros Hin Hout. unfold Mp3Vosk.convert_mp3_to_wav, run. run_py.
  rewrite Hin. cbn. rewrite Hout. cbn.
  destruct (subprocess_run X _ st) as [rc so se st'|e]; cbn; [|reflexivity].
  destruct (rc =? 0)%Z; reflexivity.
Qed.

(** C6.  In either script, when FFmpeg has been started and ends with a
    non-zero status, the converter prints the captured standard error,
    trimmed, and then raises its conversion-failed [RuntimeError]; it
    never returns.  Nothing is asked of the output path: an MP3 left by an
    earlier run does not change the outcome. *)
Theorem nonzero_exit_raises_conversion_failed
        (st st' : State) (rc : Z) (so se : string) :
  rc <> 0%Z ->
  (forall input exe out,
      exists_ (at_ X input) (fs st) = true ->
      replace_suffix input ".mp3" = inr out ->
      subprocess_run X (Mp4ToMp3.ffmpeg_cmd X exe input out) st
      = Completed rc so se st' ->
      Mp4ToMp3.convert_mp4_to_mp3 X input exe st =
      (Raise (RuntimeError Mp4ToMp3.msg_conversion_failed), st',
       [Log Mp4ToMp3.msg_starting; Run (Mp4ToMp3.ffmpeg_cmd X exe input out);
        Log (PyStr.strip se)]))
  /\
  (forall exe input output,
      exists_ (at_ X input) (fs st) = true ->
      exists_ (at_ X output) (fs st) = false ->
      subprocess_run X (Mp3Vosk.ffmpeg_cmd X exe input output) st
      = Completed rc so se st' ->
      Mp3Vosk.convert_mp3_to_wav X exe input output st =
      (Raise (RuntimeError Mp3Vosk.msg_conversion_failed), st',
       [Log Mp3Vosk.msg_starting; Run (Mp3Vosk.ffmpeg_cmd X exe input output);
        Log (PyStr.strip se)])).
Proof.
  intros Hrc. apply Z.eqb_neq in Hrc. split.
  - intros input exe out Hin Hout Hrun.
    rewrite (convert_mp4_to_mp3_runs st input exe out Hin Hout), Hrun, Hrc.
    reflexivity.
  - intros exe input output Hin Hout Hrun.
    rewrite (convert_mp3_to_wav_runs st exe input output Hin Hout), Hrun, Hrc.
    reflexivity.
Qed.

(** C1, as the code has it.  FFmpeg ends with status zero and the output
    file is not there afterwards: [convert_mp4_to_mp3] raises its own
    "finished without creating the MP3" error, but [convert_mp3_to_wav]
    prints "Conversion completada" and returns. *)
Theorem zero_exit_without_output
        (st st' : State) (so se : string) :
  (forall input exe out,
      exists_ (at_ X input) (fs st) = true ->
      replace_suffix input ".mp3" = inr out ->
      subprocess_run X (Mp4ToMp3.ffmpeg_cmd X exe input out) st
      = Completed 0 so se st' ->
      exists_ (at_ X out) (fs st') = false ->
      Mp4ToMp3.convert_mp4_to_mp3 X input exe st =
      (Raise (RuntimeError Mp4ToMp3.msg_no_output), st',
       [Log Mp4ToMp3.msg_starting; Run (Mp4ToMp3.ffmpeg_cmd X exe input out)]))
  /\
  (forall exe input output,
      exists_ (at_ X input) (fs st) = true ->
      exists_ (at_ X output) (fs st) = false ->
      subprocess_run X (Mp3Vosk.ffmpeg_cmd X exe input output) st
      = Completed 0 so se st' ->
      exists_ (at_ X output) (fs st') = false ->
      Mp3Vosk.convert_mp3_to_wav X exe input output st =
      (Ok tt, st',
       [Log Mp3Vosk.msg_starting; Run (Mp3Vosk.ffmpeg_cmd X exe input output);
        Log Mp3Vosk.msg_done])).
Proof.
  split.
  - intros input exe out Hin Hout Hrun Hmiss.
    rewrite (convert_mp4_to_mp3_runs st input exe out Hin Hout), Hrun.
    cbn. now rewrite Hmiss.
  - intros exe input output Hin Hout Hrun _.
    rewrite (convert_mp3_to_wav_runs st exe input output Hin Hout), Hrun.
    reflexivity.
Qed.

End Transcoder.

Section Transcription.

Variable X : Externals.

Import TranscriptSpec.

(** [transcribe_with_vosk] up to the format check. *)
Lemma transcribe_with_vosk_opens
      (st : State) (wav model_dir : Path) model content wf :
  vosk_importable st = true ->
  vosk_Model X (fs st) (at_ X model_dir) = inr model ->
  read_file (at_ X wav) (fs st) = inr content ->
  wave_open X content = inr wf ->
  Mp3Vosk.transcribe_with_vosk X wav model_dir st =
  if negb (nchannels wf =? 1)%Z || negb (sampwidth wf =? 2)%Z
     || negb (framerate wf =? 16000)%Z
  then (Raise (ValueError Mp3Vosk.msg_wav_format), st, [Log Mp3Vosk.msg_loading])
  else
    let looped :=
      Mp3Vosk.read_loop X (Mp3Vosk.frame_bytes wf 4000) (frames wf)
        (SetWords X (KaldiRecognizer X model (framerate wf)) true) [] in
    match fst looped with
    | Ok l =>
        (Ok (Mp3Vosk.assemble
               (Mp3Vosk.append_text (fst (FinalResult X (fst l))) (snd l))),
         st, Log Mp3Vosk.msg_loading :: snd looped)
    | Raise e => (Raise e, st, Log Mp3Vosk.msg_loading :: snd looped)
    end.
Proof.
  intros Himp Hmodel Hread Hwave.
  unfold Mp3Vosk.transcribe_with_vosk, Mp3Vosk.import_vosk. run_py.
  rewrite Himp. cbn. rewrite Hmodel. cbn. rewrite Hread. cbn. rewrite Hwave. cbn.
  destruct (negb (nchannels wf =? 1)%Z || negb (sampwidth wf =? 2)%Z
            || negb (framerate wf =? 16000)%Z); cbn; [reflexivity|].
  destruct (Mp3Vosk.read_loop X _ _ _ _) as [[l|e] t]; cbn;
    now rewrite ?app_nil_r.
Qed.

(** The transcription never changes the state, and it returns only when
    it could read the WAV file. *)
Lemma transcribe_with_vosk_returns
      (st st1 : State) (wav model_dir : Path) text t1 :
  Mp3Vosk.transcribe_with_vosk X wav model_dir st = (Ok text, st1, t1) ->
  st1 = st /\ exists content, read_file (at_ X wav) (fs st) = inr content.
Proof.
  unfold Mp3Vosk.transcribe_with_vosk, Mp3Vosk.import_vosk. run_py.
  destruct (vosk_importable st); cbn; [|discriminate].
  destruct (vosk_Model X (fs st) _); cbn; [discriminate|].
  destruct (read_file (at_ X wav) (fs st)) as [e|content]; cbn; [discriminate|].
  destruct (wave_open X content) as [e|wf]; cbn; [discriminate|].
  destruct (negb (nchannels wf =? 1)%Z || negb (sampwidth wf =? 2)%Z
            || negb (framerate wf =? 16000)%Z); cbn; [discriminate|].
  destruct (Mp3Vosk.read_loop X _ _ _ _) as [[l|e] t]; cbn; [|discriminate].
  intros H. injection H as _ <- _. eauto.
Qed.

(** C5.  A WAV file that is not mono, 16-bit, 16000 Hz makes
    [transcribe_with_vosk] raise, with no frame read and none fed to the
    recognizer; once [vosk] is importable and the model loads, what it
    raises is the format [ValueError], right after the loading message. *)
Theorem wrong_format_raises_before_reading
        (st : State) (wav model_dir : Path) (content : string) (wf : wave_read) :
  read_file (at_ X wav) (fs st) = inr content ->
  wave_open X content = inr wf ->
  (nchannels wf <> 1 \/ sampwidth wf <> 2 \/ framerate wf <> 16000)%Z ->
  (exists e, res (Mp3Vosk.transcribe_with_vosk X wav model_dir st) = Raise e)
  /\ count is_audio (events (Mp3Vosk.transcribe_with_vosk X wav model_dir st)) = 0
  /\ (forall model,
         vosk_importable st = true ->
         vosk_Model X (fs st) (at_ X model_dir) = inr model ->
         Mp3Vosk.transcribe_with_vosk X wav model_dir st
         = (Raise (ValueError Mp3Vosk.msg_wav_format), st, [Log Mp3Vosk.msg_loading])).
Proof.
  intros Hread Hwave Hbad.
  assert (B : negb (nchannels wf =? 1)%Z || negb (sampwidth wf =? 2)%Z
              || negb (framerate wf =? 16000)%Z = true).
  { destruct Hbad as [H|[H|H]]; apply Z.eqb_neq in H; rewrite H; cbn;
      rewrite ?orb_true_r; reflexivity. }
  assert (G : forall model,
             vosk_importable st = true ->
             vosk_Model X (fs st) (at_ X model_dir) = inr model ->
             Mp3Vosk.transcribe_with_vosk X wav model_dir st
             = (Raise (ValueError Mp3Vosk.msg_wav_format), st, [Log Mp3Vosk.msg_loading])).
  { intros model Himp Hmodel.
    rewrite (transcribe_with_vosk_opens st wav model_dir model content wf); auto.
    now rewrite B. }
  destruct (vosk_importable st) eqn:Himp.
  - destruct (vosk_Model X (fs st) (at_ X model_dir)) as [e|model] eqn:Hmodel.
    + unfold Mp3Vosk.transcribe_with_vosk, Mp3Vosk.import_vosk. run_py.
      rewrite Himp. cbn. rewrite Hmodel. cbn. repeat split; eauto. discriminate.
    + rewrite (G model eq_refl eq_refl). cbn. repeat split; eauto.
  - unfold Mp3Vosk.transcribe_with_vosk, Mp3Vosk.import_vosk. run_py.
    rewrite Himp. cbn. repeat split; eauto. discriminate.
Qed.

(** C7.  On a mono, 16-bit, 16000 Hz WAV, with the model loaded and a
    recognizer that accepts every read, [transcribe_with_vosk] asks for
    4000 frames at a time (8000 bytes), feeds each read in order until a
    read comes back empty, collects a segment's text exactly on the reads
    where the recognizer signals a boundary, adds the final flushed text,
    and returns the non-empty trimmed pieces joined by single spaces; the
    reads put end to end are the audio, every read but the last is full,
    and the returned text has no whitespace at either end. *)
Theorem transcribe_with_vosk_reads_and_joins
        (st : State) (wav model_dir : Path) model (content : string)
        (wf : wave_read) (texts : list string) rec' :
  vosk_importable st = true ->
  vosk_Model X (fs st) (at_ X model_dir) = inr model ->
  read_file (at_ X wav) (fs st) = inr content ->
  wave_open X content = inr wf ->
  nchannels wf = 1%Z -> sampwidth wf = 2%Z -> framerate wf = 16000%Z ->
  segments X (SetWords X (KaldiRecognizer X model 16000) true)
           (chunks (Z.to_nat 8000) (frames wf)) = inr (texts, rec') ->
  let reads := chunks (Z.to_nat 8000) (frames wf) in
  let collected := texts ++ text_of (fst (FinalResult X rec')) in
  Mp3Vosk.transcribe_with_vosk X wav model_dir st
  = (Ok (PyStr.join " " (pieces collected)), st,
     Log Mp3Vosk.msg_loading :: audio_events reads)
  /\ List.concat reads = frames wf
  /\ (forall before data after,
         reads = before ++ data :: after -> after <> [] ->
         Z.of_nat (List.length data) = 8000%Z)
  /\ Forall (fun data => (0 < Z.of_nat (List.length data) <= 8000)%Z) reads
  /\ Forall (fun p => p <> EmptyString /\ PyStr.trimmed p) (pieces collected)
  /\ PyStr.trimmed (PyStr.join " " (pieces collected)).
Proof.
  intros Himp Hmodel Hread Hwave Hch Hsw Hfr Hseg reads collected.
  split; [|split; [|split; [|split; [|split]]]].
  - rewrite (transcribe_with_vosk_opens st wav model_dir model content wf); auto.
    rewrite Hch, Hsw, Hfr. cbn [Z.eqb Pos.eqb negb orb].
    unfold Mp3Vosk.frame_bytes. rewrite Hch, Hsw.
    change (4000 * 1 * 2)%Z with 8000%Z.
    rewrite (TranscriptFacts.read_loop_segments X _ (frames wf) _ [] texts rec' Hseg).
    cbn [fst snd app]. rewrite TranscriptFacts.append_text_app.
    now rewrite TranscriptFacts.assemble_pieces.
  - apply TranscriptFacts.concat_chunks. lia.
  - intros before data after E N.
    rewrite (TranscriptFacts.chunks_full _ _ before data after E N). lia.
  - eapply Forall_impl; [|apply TranscriptFacts.chunks_bounded].
    cbn beta. intros data H. lia.
  - apply TranscriptFacts.pieces_clean.
  - apply PyStrFacts.join_trimmed, TranscriptFacts.pieces_clean.
Qed.

(** C8.  Once the transcription has returned a text, and unless a
    directory sits at the output path, the stage writes the transcript
    file: the two banner lines, a blank line, the text and a newline.  It
    does so for the empty text as well, after printing the warning, and
    it returns normally. *)
Theorem transcript_file_is_banner_then_text
        (st st1 : State) (model_dir : Path) (text : string) (t1 : list event) :
  Mp3Vosk.transcribe_with_vosk X (Mp3Vosk.WAV_FILE X) model_dir st = (Ok text, st1, t1) ->
  is_dir (at_ X (Mp3Vosk.OUTPUT_FILE X)) (fs st) = false ->
  exists st2,
    Mp3Vosk.transcribe_and_save X model_dir st
    = (Ok tt, st2,
       t1 ++ (if PyStr.truthy text then [] else [Log Mp3Vosk.msg_no_text])
          ++ [ Log ("Transcripcion guardada: " ++ str X (Mp3Vosk.OUTPUT_FILE X))%string;
               Log ("Caracteres: " ++ Mp3Vosk.str_nat (String.length text))%string ])
    /\ read_file (at_ X (Mp3Vosk.OUTPUT_FILE X)) (fs st2)
       = inr ("TRANSCRIPCION (Vosk - Espanol)" ++ Mp3Vosk.nl
              ++ "================================" ++ Mp3Vosk.nl ++ Mp3Vosk.nl
              ++ text ++ Mp3Vosk.nl)%string
    /\ vosk_importable st2 = vosk_importable st.
Proof.
  intros Hrun Hout.
  destruct (transcribe_with_vosk_returns _ _ _ _ _ _ Hrun) as (-> & content & Hread).
  assert (Hcwd : is_dir (cwd X) (fs st) = true).
  { apply (FSFacts.exists_parent_is_dir (cwd X) (Mp3Vosk.VIDEO_STEM ++ "_16k_mono.wav")%string).
    unfold read_file in Hread. unfold exists_.
    change (at_ X (Mp3Vosk.WAV_FILE X))
      with (cwd X ++ [(Mp3Vosk.VIDEO_STEM ++ "_16k_mono.wav")%string]) in Hread.
    destruct (lookup _ (fs st)) as [[s|es]|]; try discriminate; reflexivity. }
  change (at_ X (Mp3Vosk.OUTPUT_FILE X))
    with (cwd X ++ [(Mp3Vosk.VIDEO_STEM ++ "_transcripcion_vosk.txt")%string]) in *.
  destruct (FSFacts.write_file_succeeds (cwd X) _
              (Mp3Vosk.banner ++ text ++ Mp3Vosk.nl)%string (fs st) Hcwd Hout)
    as (n' & Hw).
  exists (with_fs n' st). split; [|split].
  - unfold Mp3Vosk.transcribe_and_save. run_py. rewrite Hrun.
    change (at_ X (Mp3Vosk.OUTPUT_FILE X))
      with (cwd X ++ [(Mp3Vosk.VIDEO_STEM ++ "_transcripcion_vosk.txt")%string]).
    destruct (PyStr.truthy text); cbn [negb]; cbv beta iota zeta;
      rewrite Hw; cbv beta iota zeta; rewrite ?app_nil_r; reflexivity.
  - unfold read_file. cbn [fs with_fs].
    rewrite (FSFacts.write_file_lookup _ _ _ _ Hw).
    reflexivity.
  - reflexivity.
Qed.

End Transcription.

(** ** Facts about the library calls *)

Section LibFacts.

Variable X : Externals.

Lemma at_below (root : Path) (r : FS.path) :
  at_ X (below X root (at_ X root ++ r)) = at_ X root ++ r.
Proof.
  unfold below, at_, resolve. cbn [anchored parts].
  rewrite skipn_app, skipn_all, Nat.sub_diag. cbn [skipn app].
  destruct (anchored root); [reflexivity | now rewrite app_assoc].
Qed.

Lemma below_anchored (root : Path) (r : FS.path) :
  anchored root = true ->
  below X root (at_ X root ++ r) = mkPath true (parts root ++ r).
Proof.
  intros A. unfold below. rewrite A. f_equal.
  rewrite skipn_app, skipn_all, Nat.sub_diag. reflexivity.
Qed.

Lemma extends_refl st : extends st st.
Proof. split; [apply FSFacts.grows_refl | reflexivity]. Qed.

Lemma extends_trans a b c : extends a b -> extends b c -> extends a c.
Proof.
  intros [G1 V1] [G2 V2]. split; [eapply FSFacts.grows_trans; eauto | congruence].
Qed.

(** A filesystem call that only grows the tree. *)
Lemma fs_update_extends (f : node -> exn + node) (st st1 : State) r t :
  (forall n n', f n = inr n' -> grows n n') ->
  fs_update f st = (r, st1, t) ->
  extends st st1 /\ t = [].
Proof.
  intros Hf. unfold fs_update.
  destruct (f (fs st)) as [e|n'] eqn:E; intros H; injection H as <- <- <-.
  - split; [apply extends_refl | reflexivity].
  - split; [split; [now apply Hf | reflexivity] | reflexivity].
Qed.

Lemma os_call_inr {A} (file : Path) (r : exn + A) (a : A) :
  os_call X file r = inr a -> r = inr a.
Proof. destruct r; simpl; congruence. Qed.

Lemma mkdir_outcome (p : Path) s r s1 t :
  mkdir X p s = (r, s1, t) -> extends s s1 /\ t = [].
Proof.
  apply fs_update_extends. intros n n' H. apply os_call_inr in H.
  eapply FSFacts.mkdir_p_grows; eauto.
Qed.

Lemma write_outcome (dest : Path) (data : string) s r s1 t :
  write X dest data s = (r, s1, t) -> extends s s1 /\ t = [].
Proof.
  apply fs_update_extends. intros n n' H. apply os_call_inr in H.
  eapply FSFacts.write_file_grows; eauto.
Qed.

Lemma makedirs_outcome (upper : FS.path) s r s1 t :
  makedirs X upper s = (r, s1, t) -> extends s s1 /\ t = [].
Proof.
  apply fs_update_extends. intros n n' H. apply os_call_inr in H.
  eapply FSFacts.mkdir_p_grows; eauto.
Qed.

Lemma place_member_extends (target : FS.path) (m : zip_member) s r s1 t :
  place_member X target m s = (r, s1, t) ->
  extends s s1 /\ t = [].
Proof.
  unfold place_member. destruct (member_data m) as [data|].
  - apply write_outcome.
  - unfold bind, fs_read. destruct (negb (FS.is_dir target (fs s))).
    + destruct (mkdir X (mkPath true target) s) as [[r2 s2] t2] eqn:E2.
      apply mkdir_outcome in E2.
      destruct E2 as [G2 ->]. intros H. injection H as <- <- <-. auto.
    + unfold ret. intros H. injection H as <- <- <-.
      split; [apply extends_refl | reflexivity].
Qed.

Lemma extract_member_extends dest m st r st1 t :
  extract_member X dest m st = (r, st1, t) ->
  extends st st1 /\ t = [].
Proof.
  unfold extract_member. cbv zeta. unfold bind, fs_read.
  destruct (exists_ (removelast (at_ X dest ++ member_path m)) (fs st)); cbn [negb].
  - unfold ret.
    destruct (place_member X _ m st) as [[r2 s2] t2] eqn:E2.
    apply place_member_extends in E2. destruct E2 as [G2 ->].
    intros H. injection H as <- <- <-. auto.
  - destruct (makedirs X _ st) as [[r1 s1] t1] eqn:E1.
    apply makedirs_outcome in E1.
    destruct E1 as [G1 ->]. destruct r1 as [[]|e].
    + destruct (place_member X _ m s1) as [[r2 s2] t2] eqn:E2.
      apply place_member_extends in E2. destruct E2 as [G2 ->].
      intros H. injection H as <- <- <-.
      split; [eapply extends_trans; eauto | reflexivity].
    + intros H. injection H as <- <- <-. auto.
Qed.

Lemma extract_members_extends dest ms : forall st r st1 t,
  extract_members X dest ms st = (r, st1, t) ->
  extends st st1 /\ t = [].
Proof.
  induction ms as [|m ms IH]; intros st r st1 t; cbn [extract_members].
  - unfold ret. intros H. injection H as <- <- <-.
    split; [apply extends_refl | reflexivity].
  - unfold bind.
    destruct (extract_member X dest m st) as [[r1 s1] t1] eqn:E1.
    apply extract_member_extends in E1. destruct E1 as [G1 ->].
    destruct r1 as [[]|e].
    + destruct (extract_members X dest ms s1) as [[r2 s2] t2] eqn:E2.
      apply IH in E2. destruct E2 as [G2 ->].
      intros H. injection H as <- <- <-.
      split; [eapply extends_trans; eauto | reflexivity].
    + intros H. injection H as <- <- <-. auto.
Qed.

(** [unzip] only adds to the tree; it performs one [extractall] when the
    archive opens, none otherwise; it returns only after having read the
    archive. *)
Lemma unzip_outcome archive dest st r st1 t :
  unzip X archive dest st = (r, st1, t) ->
  extends st st1
  /\ (t = [] \/ t = [ExtractAll archive dest])
  /\ (forall u, r = Ok u ->
        t = [ExtractAll archive dest]
        /\ exists_ (at_ X archive) (fs st) = true).
Proof.
  unfold unzip. run_py. unfold read_file, exists_.
  destruct (lookup (at_ X archive) (fs st)) as [[content|es]|]; cbn.
  - destruct (ZipFile X content) as [e|ms]; cbn.
    + intros H. injection H as <- <- <-.
      repeat split; auto using FSFacts.grows_refl; discriminate.
    + destruct (extract_members X dest ms st) as [[r2 s2] t2] eqn:E2.
      apply extract_members_extends in E2. destruct E2 as [G ->].
      intros H. injection H as <- <- <-. repeat split; auto; apply G.
  - intros H. injection H as <- <- <-.
    repeat split; auto using FSFacts.grows_refl; discriminate.
  - intros H. injection H as <- <- <-.
    repeat split; auto using FSFacts.grows_refl; discriminate.
Qed.

(** [download_file] asks the network exactly once, extracts nothing, and
    only adds to the tree. *)
Lemma download_file_outcome url dest st r st1 t :
  download_file X url dest st = (r, st1, t) ->
  extends st st1 /\ count is_http t = 1 /\ count is_extract t = 0.
Proof.
  unfold download_file. run_py.
  destruct (requests_get X url) as [body|e|received e]; cbn.
  - destruct (write_file (at_ X dest) body (fs st)) as [e|n'] eqn:W; cbn;
      intros H; injection H as <- <- <-; repeat split;
      auto using FSFacts.grows_refl.
    eapply FSFacts.write_file_grows; eauto.
  - intros H; injection H as <- <- <-; repeat split; auto using FSFacts.grows_refl.
  - destruct (write_file (at_ X dest) received (fs st)) as [e'|n'] eqn:W; cbn;
      intros H; injection H as <- <- <-; repeat split;
      auto using FSFacts.grows_refl.
    eapply FSFacts.write_file_grows; eauto.
Qed.

(** The block both provisioners share, whatever the archive, the URL and
    the message: download unless the archive is there, then extract. *)
Lemma fetch_and_extract_outcome (zip dest : Path) (url msg : string) st r st1 t :
  (have_zip <- path_exists X zip ;;
   (if negb have_zip then download_file X url zip else ret tt) ;;
   log msg ;;
   unzip X zip dest) st = (r, st1, t) ->
  extends st st1
  /\ count is_http t = (if exists_ (at_ X zip) (fs st) then 0 else 1)
  /\ count is_extract t <= 1
  /\ (forall u, r = Ok u ->
        count is_extract t = 1 /\ exists_ (at_ X zip) (fs st1) = true).
Proof.
  unfold bind at 1. unfold path_exists, fs_read.
  destruct (exists_ (at_ X zip) (fs st)) eqn:Z; cbn [negb].
  - unfold bind, ret, log, emit.
    destruct (unzip X zip dest st) as [[r2 s2] t2] eqn:U.
    apply unzip_outcome in U. destruct U as (G & Ht & Hok).
    intros H. injection H as <- <- <-. cbn [app].
    repeat split; try apply G.
    + destruct Ht as [->| ->]; reflexivity.
    + destruct Ht as [->| ->]; cbn; lia.
    + destruct (Hok u H) as [-> _]. reflexivity.
    + eapply FSFacts.grows_exists; [apply G | exact Z].
  - unfold bind.
    destruct (download_file X url zip st) as [[r1 s1] t1] eqn:D.
    apply download_file_outcome in D. destruct D as (G1 & H1 & E1).
    destruct r1 as [[]|e].
    + unfold log, emit.
      destruct (unzip X zip dest s1) as [[r2 s2] t2] eqn:U.
      apply unzip_outcome in U. destruct U as (G & Ht & Hok).
      intros H. injection H as <- <- <-. cbn [app].
      unfold count in *. rewrite !filter_app, !length_app.
      repeat split.
      * apply (extends_trans _ _ _ G1 G).
      * apply (extends_trans _ _ _ G1 G).
      * rewrite H1. destruct Ht as [->| ->]; reflexivity.
      * rewrite E1. destruct Ht as [->| ->]; cbn; lia.
      * rewrite E1. destruct (Hok u H) as [-> _]. reflexivity.
      * destruct (Hok u H) as [_ E]. eapply FSFacts.grows_exists; [apply G | exact E].
    + intros H. injection H as <- <- <-.
      repeat split; try apply G1; auto; try lia; discriminate.
Qed.

End LibFacts.

Section Provisioner.

Variable X : Externals.

Let ROOT : Path := Mp4ToMp3.FFMPEG_ROOT X.
Let MODELS : Path := Mp3Vosk.MODELS_DIR X.
Let MODEL : Path := Mp3Vosk.VOSK_MODEL_DIR X.

Lemma first_ffmpeg_hit (st : State) q rest otherwise :
  FS.rglob (at_ X ROOT) "ffmpeg.exe" (fs st) = q :: rest ->
  Mp4ToMp3.first_ffmpeg X otherwise st
  = (Ok (below X ROOT q), st,
     [Log ("FFmpeg localizado: " ++ str X (below X ROOT q))%string]).
Proof.
  intros H. unfold Mp4ToMp3.first_ffmpeg, rglob. run_py.
  fold ROOT. now rewrite H.
Qed.

Lemma first_ffmpeg_miss (st : State) otherwise :
  FS.rglob (at_ X ROOT) "ffmpeg.exe" (fs st) = [] ->
  Mp4ToMp3.first_ffmpeg X otherwise st = otherwise st.
Proof.
  intros H. unfold Mp4ToMp3.first_ffmpeg, rglob. run_py.
  fold ROOT. rewrite H. cbn. now destruct (otherwise st) as [[r s] t].
Qed.

(** The fallback loop returns the first listed directory with a similar
    name, and raises when there is none. *)
Lemma similar_model_dir_find (st : State) (l : list (string * node)) :
  (forall k v, In (k, v) l -> lookup (at_ X MODELS ++ [k]) (fs st) = Some v) ->
  Mp3Vosk.similar_model_dir X (map (fun e => child MODELS (fst e)) l) st
  = (match find Mp3Vosk.similar_name l with
     | Some e => Ok (child MODELS (fst e))
     | None => Raise (FileNotFoundError Mp3Vosk.msg_model_not_found)
     end, st, []).
Proof.
  induction l as [|[k v] l IH]; intros Hl; cbn [map Mp3Vosk.similar_model_dir find].
  - reflexivity.
  - unfold Mp3Vosk.is_dir at 1. run_py.
    assert (D : FS.is_dir (at_ X (child MODELS k)) (fs st) = is_dir_node v).
    { unfold FS.is_dir.
      change (at_ X (child MODELS k)) with (at_ X MODELS ++ [k]).
      rewrite (Hl k v (or_introl eq_refl)). now destruct v. }
    cbn [fst]. rewrite D.
    assert (N : name (child MODELS k) = k).
    { unfold name, child. cbn [parts]. apply last_last. }
    rewrite N. unfold Mp3Vosk.similar_name at 1. cbn [fst snd].
    destruct (is_dir_node v && PyStr.startswith "vosk-model-small-es" k).
    + reflexivity.
    + rewrite IH by (intros k' v' H'; apply Hl; now right).
      reflexivity.
Qed.

(** Lines 123-129, once [MODELS_DIR] is known to be a directory. *)
Lemma locate_model_outcome (st : State) es :
  lookup (at_ X MODELS) (fs st) = Some (Dir es) ->
  Mp3Vosk.locate_model X st
  = (if exists_ (at_ X MODEL) (fs st) then Ok MODEL
     else match find Mp3Vosk.similar_name (listing [] es) with
          | Some e => Ok (child MODELS (fst e))
          | None => Raise (FileNotFoundError Mp3Vosk.msg_model_not_found)
          end, st, []).
Proof.
  intros HM. unfold Mp3Vosk.locate_model, Mp3Vosk.iterdir. run_py.
  fold MODEL. destruct (exists_ (at_ X MODEL) (fs st)); [reflexivity|].
  fold MODELS. unfold FS.iterdir. rewrite HM. cbn [os_call].
  rewrite map_map. cbn [fst].
  assert (E : map (fun e : string * node => below X MODELS (at_ X MODELS ++ [fst e]))
                  (listing [] es)
              = map (fun e => child MODELS (fst e)) (listing [] es)).
  { apply map_ext. intros e. now rewrite below_anchored. }
  rewrite E.
  rewrite similar_model_dir_find.
  - reflexivity.
  - intros k v Hin. apply FSFacts.listing_assoc in Hin. destruct Hin as [_ A].
    rewrite FSFacts.lookup_app, HM. cbn. now rewrite A.
Qed.

(** C2, as the code has it.  When some [ffmpeg.exe] exists anywhere below
    [tools/ffmpeg], [ensure_ffmpeg] (the same in both scripts) returns an
    existing [ffmpeg.exe] below that directory, after one printed line and
    nothing else: no network call, no change of state.  When the model
    directory exists and is not empty, [ensure_vosk_model] returns it, in
    the same way. *)
Theorem cache_hit_needs_no_network (st : State) :
  (forall d,
      exists_ (at_ X ROOT ++ d ++ ["ffmpeg.exe"]) (fs st) = true ->
      exists d',
        let exe := mkPath true (parts ROOT ++ d' ++ ["ffmpeg.exe"]) in
        exists_ (at_ X exe) (fs st) = true
        /\ Mp4ToMp3.ensure_ffmpeg X st
           = (Ok exe, st, [Log ("FFmpeg localizado: " ++ str X exe)%string])
        /\ Mp3Vosk.ensure_ffmpeg X st
           = (Ok exe, st, [Log ("FFmpeg localizado: " ++ str X exe)%string])
        /\ count is_http (events (Mp4ToMp3.ensure_ffmpeg X st)) = 0
        /\ count is_http (events (Mp3Vosk.ensure_ffmpeg X st)) = 0)
  /\
  (forall e es,
      lookup (at_ X MODEL) (fs st) = Some (Dir (e :: es)) ->
      Mp3Vosk.ensure_vosk_model X st
      = (Ok MODEL, st, [Log ("Modelo Vosk listo: " ++ str X MODEL)%string])
      /\ count is_http (events (Mp3Vosk.ensure_vosk_model X st)) = 0).
Proof.
  split.
  - intros d Hd.
    assert (Hin : In (at_ X ROOT ++ d ++ ["ffmpeg.exe"])
                     (FS.rglob (at_ X ROOT) "ffmpeg.exe" (fs st)))
      by (apply FSFacts.rglob_spec; eauto).
    destruct (FS.rglob (at_ X ROOT) "ffmpeg.exe" (fs st)) as [|q rest] eqn:R;
      [destruct Hin|].
    assert (Hq : In q (FS.rglob (at_ X ROOT) "ffmpeg.exe" (fs st)))
      by (rewrite R; now left).
    apply FSFacts.rglob_spec in Hq. destruct Hq as (d' & -> & Hex).
    exists d'. cbn zeta.
    assert (B : below X ROOT (at_ X ROOT ++ d' ++ ["ffmpeg.exe"])
                = mkPath true (parts ROOT ++ d' ++ ["ffmpeg.exe"]))
      by now apply below_anchored.
    set (exe := mkPath true (parts ROOT ++ d' ++ ["ffmpeg.exe"])) in *.
    assert (E1 : Mp4ToMp3.ensure_ffmpeg X st
                 = (Ok exe, st, [Log ("FFmpeg localizado: " ++ str X exe)%string])).
    { unfold Mp4ToMp3.ensure_ffmpeg. rewrite (first_ffmpeg_hit st _ _ _ R).
      now rewrite B. }
    assert (E2 : Mp3Vosk.ensure_ffmpeg X st = Mp4ToMp3.ensure_ffmpeg X st).
    { unfold Mp3Vosk.ensure_ffmpeg, Mp4ToMp3.ensure_ffmpeg.
      change (Mp3Vosk.first_ffmpeg X) with (Mp4ToMp3.first_ffmpeg X).
      now rewrite !(first_ffmpeg_hit st _ _ _ R). }
    rewrite E2, E1. repeat split; auto.
  - intros e es HM.
    assert (E : Mp3Vosk.ensure_vosk_model X st
                = (Ok MODEL, st, [Log ("Modelo Vosk listo: " ++ str X MODEL)%string])).
    { unfold Mp3Vosk.ensure_vosk_model, Mp3Vosk.model_ready, Mp3Vosk.iterdir. run_py.
      fold MODEL. unfold exists_, FS.iterdir. rewrite HM. cbv beta iota.
      rewrite HM. destruct e as [k v]. reflexivity. }
    rewrite E. split; reflexivity.
Qed.

End Provisioner.

Section Fetching.

Variable X : Externals.

Let ROOT : Path := Mp4ToMp3.FFMPEG_ROOT X.
Let MODELS : Path := Mp3Vosk.MODELS_DIR X.
Let MODEL : Path := Mp3Vosk.VOSK_MODEL_DIR X.

Lemma count_app f (a b : list event) : count f (a ++ b) = count f a + count f b.
Proof. unfold count. now rewrite filter_app, length_app. Qed.




End Fetching.

Section Orchestrator.

Variable X : Externals.

Ltac last_log :=
  unfold last_event; cbn [rev]; rewrite ?rev_app_distr; cbn [rev app];
  try reflexivity; eauto.

Ltac outcome_parts :=
  unfold reported, exit_status, res, final, events; cbn [fst snd].

(** What [main] does with the failures of its stages.  The
    directory-making calls ([ensure_dirs] in the first script, the two
    [mkdir] of lines 163-164 in the second) are outside any [try].  When
    the input is missing, or when those calls go through, [main] returns
    normally, and the last thing it does is print a line; the failure of
    any later stage (provisioning, conversion, Vosk preparation,
    transcription and writing) is caught by [main], which prints it and
    returns. *)
Lemma main_catches_stage_failures (st : State) :
  (exists_ (at_ X (Mp4ToMp3.input_mp4 X)) (fs st) = false
  \/ res (Mp4ToMp3.ensure_dirs X st) = Ok tt ->
  exit_status (Mp4ToMp3.main X st) = 0%Z
  /\ (exists line, last_event (events (Mp4ToMp3.main X st)) = Some (Log line))
  /\ (exists_ (at_ X (Mp4ToMp3.input_mp4 X)) (fs st) = true ->
      let o1 := Mp4ToMp3.ensure_ffmpeg X (final (Mp4ToMp3.ensure_dirs X st)) in
      (forall e, res o1 = Raise e ->
                 reported "Error preparando FFmpeg: " e (Mp4ToMp3.main X st))
      /\ (forall exe e,
             res o1 = Ok exe ->
             res (Mp4ToMp3.convert_mp4_to_mp3 X (Mp4ToMp3.input_mp4 X) exe (final o1))
             = Raise e ->
             reported ("Error en la conversi" ++ Mp4ToMp3.o_acute ++ "n: ")%string e
                      (Mp4ToMp3.main X st))))
  /\
  (exists_ (at_ X Mp3Vosk.mp3_path) (fs st) = false
  \/ res (Mp3Vosk.make_cache_dirs X st) = Ok tt ->
  exit_status (Mp3Vosk.main X st) = 0%Z
  /\ (exists line, last_event (events (Mp3Vosk.main X st)) = Some (Log line))
  /\ (exists_ (at_ X Mp3Vosk.mp3_path) (fs st) = true ->
      let o1 := Mp3Vosk.ensure_ffmpeg X (final (Mp3Vosk.make_cache_dirs X st)) in
      (forall e, res o1 = Raise e ->
                 reported "Error preparando FFmpeg: " e (Mp3Vosk.main X st))
      /\ (forall exe,
             res o1 = Ok exe ->
             let o2 := Mp3Vosk.convert_mp3_to_wav X exe Mp3Vosk.mp3_path
                                                 (Mp3Vosk.WAV_FILE X) (final o1) in
             (forall e, res o2 = Raise e ->
                        reported "Error de conversion: " e (Mp3Vosk.main X st))
             /\ (res o2 = Ok tt ->
                 let o3 := Mp3Vosk.prepare_vosk X (final o2) in
                 (forall e, res o3 = Raise e ->
                            reported "Error preparando Vosk: " e (Mp3Vosk.main X st))
                 /\ (forall model_dir e,
                        res o3 = Ok model_dir ->
                        res (Mp3Vosk.transcribe_and_save X model_dir (final o3))
                        = Raise e ->
                        reported "Error durante la transcripcion: " e
                                 (Mp3Vosk.main X st)))))).
Proof.
  split.
  - intros Hd. unfold Mp4ToMp3.main. run_py.
    destruct (exists_ (at_ X (Mp4ToMp3.input_mp4 X)) (fs st)) eqn:Hin;
      cbn [negb]; cbv beta iota.
    + destruct Hd as [Hd|Hd]; [discriminate|].
      destruct (Mp4ToMp3.ensure_dirs X st) as [[r0 s0] t0].
      unfold res in Hd. cbn [fst] in Hd. subst r0. cbn [final fst snd].
      destruct (Mp4ToMp3.ensure_ffmpeg X s0) as [[[exe|e1] s1] t1]; cbv beta iota.
      * destruct (Mp4ToMp3.convert_mp4_to_mp3 X _ exe s1) as [[[out|e2] s2] t2] eqn:C;
          cbv beta iota; outcome_parts.
        -- split; [reflexivity|]. split; [eexists; last_log|].
          intros _. split; [intros e H; discriminate H|].
          intros exe' e H1 H2. injection H1 as <-. rewrite C in H2. discriminate H2.
        -- split; [reflexivity|]. split; [eexists; last_log|].
          intros _. split; [intros e H; discriminate H|].
          intros exe' e H1 H2. injection H1 as <-. rewrite C in H2.
          injection H2 as <-. split; [reflexivity | last_log].
      * outcome_parts.
        split; [reflexivity|]. split; [eexists; last_log|].
        intros _. split.
        -- intros e H. injection H as <-. split; [reflexivity | last_log].
        -- intros exe' e H1 H2. discriminate H1.
    + outcome_parts. split; [reflexivity|]. split; [eexists; last_log|].
      intros H. discriminate H.
  - intros Hd. unfold Mp3Vosk.main. run_py.
    destruct (exists_ (at_ X Mp3Vosk.mp3_path) (fs st)) eqn:Hin;
      cbn [negb]; cbv beta iota.
    + destruct Hd as [Hd|Hd]; [discriminate|].
      destruct (Mp3Vosk.make_cache_dirs X st) as [[r0 s0] t0].
      unfold res in Hd. cbn [fst] in Hd. subst r0. cbn [final fst snd].
      destruct (Mp3Vosk.ensure_ffmpeg X s0) as [[[exe|e1] s1] t1]; cbv beta iota.
      * destruct (Mp3Vosk.convert_mp3_to_wav X exe _ _ s1) as [[[[]|e2] s2] t2] eqn:C2;
          cbv beta iota.
        -- destruct (Mp3Vosk.prepare_vosk X s2) as [[[md|e3] s3] t3] eqn:C3;
            cbv beta iota.
          ++ destruct (Mp3Vosk.transcribe_and_save X md s3) as [[[[]|e4] s4] t4] eqn:C4;
               cbv beta iota; outcome_parts.
             ** split; [reflexivity|]. split; [eexists; last_log|].
                intros _. split; [intros e H; discriminate H|].
                intros exe' H1. injection H1 as <-. rewrite C2. cbn [fst snd].
                split; [intros e H; discriminate H|].
                intros _. rewrite C3. cbn [fst snd].
                split; [intros e H; discriminate H|].
                intros md' e H1 H2. injection H1 as <-. rewrite C4 in H2.
                discriminate H2.
             ** split; [reflexivity|]. split; [eexists; last_log|].
                intros _. split; [intros e H; discriminate H|].
                intros exe' H1. injection H1 as <-. rewrite C2. cbn [fst snd].
                split; [intros e H; discriminate H|].
                intros _. rewrite C3. cbn [fst snd].
                split; [intros e H; discriminate H|].
                intros md' e H1 H2. injection H1 as <-. rewrite C4 in H2.
                injection H2 as <-. split; [reflexivity | last_log].
          ++ outcome_parts.
             split; [reflexivity|]. split; [eexists; last_log|].
             intros _. split; [intros e H; discriminate H|].
             intros exe' H1. injection H1 as <-. rewrite C2. cbn [fst snd].
             split; [intros e H; discriminate H|].
             intros _. rewrite C3. cbn [fst snd].
             split; [|intros md' e H1 H2; discriminate H1].
             intros e H. injection H as <-. split; [reflexivity | last_log].
        -- outcome_parts.
          split; [reflexivity|]. split; [eexists; last_log|].
          intros _. split; [intros e H; discriminate H|].
          intros exe' H1. injection H1 as <-. rewrite C2. cbn [fst snd].
          split; [|intros H; discriminate H].
          intros e H. injection H as <-. split; [reflexivity | last_log].
      * outcome_parts.
        split; [reflexivity|]. split; [eexists; last_log|].
        intros _. split.
        -- intros e H. injection H as <-. split; [reflexivity | last_log].
        -- intros exe' H1. discriminate H1.
    + outcome_parts. split; [reflexivity|]. split; [eexists; last_log|].
      intros H. discriminate H.
Qed.

(** A run after its first statements have gone through is [main] in the
    state they left. *)
Lemma script_outcome (body : M unit) (st s0 : State) (t0 : list event) :
  ensure_requests X st = (Ok tt, s0, t0) ->
  (_ <- ensure_requests X ;; body) st
  = (res (body s0), final (body s0), t0 ++ events (body s0)).
Proof.
  intros H. unfold bind. rewrite H. now destruct (body s0) as [[r s] t].
Qed.

Lemma script_stopped (body : M unit) (st s0 : State) (t0 : list event) e :
  ensure_requests X st = (Raise e, s0, t0) ->
  (_ <- ensure_requests X ;; body) st = (Raise e, s0, t0).
Proof. intros H. unfold bind. now rewrite H. Qed.

Lemma last_event_app (t0 t : list event) (ev : event) :
  last_event t = Some ev -> last_event (t0 ++ t) = Some ev.
Proof.
  unfold last_event. rewrite rev_app_distr.
  destruct (rev t); [discriminate|]. auto.
Qed.

Lemma reported_in_run (body : M unit) (st s0 : State) (t0 : list event) prefix e :
  ensure_requests X st = (Ok tt, s0, t0) ->
  reported prefix e (body s0) ->
  reported prefix e ((_ <- ensure_requests X ;; body) st).
Proof.
  intros H [R L]. rewrite (script_outcome body st s0 t0 H).
  split; [exact R | now apply last_event_app].
Qed.

(** C9, as the code has it.  A run of either script is the module's first
    statements (the import of [requests], with its pip fallback) and then
    [main()].  The import fallback, and the directory-making calls of
    [main] ([ensure_dirs] in the first script, the two [mkdir] of lines
    163-164 in the second), are outside any [try]: an exception raised
    there ends the run.  When the import goes through, and the input is
    missing or the directories can be made, the run returns normally, so
    the interpreter exits with status 0, and the last thing the run does
    is print a line; the failure of any later stage (provisioning,
    conversion, Vosk preparation, transcription and writing) is caught by
    [main], which prints it and returns. *)
Theorem stage_failures_are_caught_and_logged (st : State) :
  let s0 := final (ensure_requests X st) in
  (res (ensure_requests X st) = Ok tt ->
   exists_ (at_ X (Mp4ToMp3.input_mp4 X)) (fs s0) = false
   \/ res (Mp4ToMp3.ensure_dirs X s0) = Ok tt ->
   exit_status (Mp4ToMp3.script X st) = 0%Z
   /\ (exists line, last_event (events (Mp4ToMp3.script X st)) = Some (Log line))
   /\ (exists_ (at_ X (Mp4ToMp3.input_mp4 X)) (fs s0) = true ->
       let o1 := Mp4ToMp3.ensure_ffmpeg X (final (Mp4ToMp3.ensure_dirs X s0)) in
       (forall e, res o1 = Raise e ->
                  reported "Error preparando FFmpeg: " e (Mp4ToMp3.script X st))
       /\ (forall exe e,
              res o1 = Ok exe ->
              res (Mp4ToMp3.convert_mp4_to_mp3 X (Mp4ToMp3.input_mp4 X) exe (final o1))
              = Raise e ->
              reported ("Error en la conversi" ++ Mp4ToMp3.o_acute ++ "n: ")%string e
                       (Mp4ToMp3.script X st))))
  /\
  (res (ensure_requests X st) = Ok tt ->
   exists_ (at_ X Mp3Vosk.mp3_path) (fs s0) = false
   \/ res (Mp3Vosk.make_cache_dirs X s0) = Ok tt ->
   exit_status (Mp3Vosk.script X st) = 0%Z
   /\ (exists line, last_event (events (Mp3Vosk.script X st)) = Some (Log line))
   /\ (exists_ (at_ X Mp3Vosk.mp3_path) (fs s0) = true ->
       let o1 := Mp3Vosk.ensure_ffmpeg X (final (Mp3Vosk.make_cache_dirs X s0)) in
       (forall e, res o1 = Raise e ->
                  reported "Error preparando FFmpeg: " e (Mp3Vosk.script X st))
       /\ (forall exe,
              res o1 = Ok exe ->
              let o2 := Mp3Vosk.convert_mp3_to_wav X exe Mp3Vosk.mp3_path
                                                  (Mp3Vosk.WAV_FILE X) (final o1) in
              (forall e, res o2 = Raise e ->
                         reported "Error de conversion: " e (Mp3Vosk.script X st))
              /\ (res o2 = Ok tt ->
                  let o3 := Mp3Vosk.prepare_vosk X (final o2) in
                  (forall e, res o3 = Raise e ->
                             reported "Error preparando Vosk: " e (Mp3Vosk.script X st))
                  /\ (forall model_dir e,
                         res o3 = Ok model_dir ->
                         res (Mp3Vosk.transcribe_and_save X model_dir (final o3))
                         = Raise e ->
                         reported "Error durante la transcripcion: " e
                                  (Mp3Vosk.script X st))))))
  /\
  (forall e,
      res (ensure_requests X st) = Raise e ->
      Mp4ToMp3.script X st = (Raise e, s0, events (ensure_requests X st))
      /\ Mp3Vosk.script X st = (Raise e, s0, events (ensure_requests X st))
      /\ exit_status (Mp4ToMp3.script X st) = 1%Z
      /\ exit_status (Mp3Vosk.script X st) = 1%Z)
  /\
  (forall e,
      res (ensure_requests X st) = Ok tt ->
      (exists_ (at_ X (Mp4ToMp3.input_mp4 X)) (fs s0) = true ->
       res (Mp4ToMp3.ensure_dirs X s0) = Raise e ->
       res (Mp4ToMp3.script X st) = Raise e
       /\ exit_status (Mp4ToMp3.script X st) = 1%Z)
      /\ (exists_ (at_ X Mp3Vosk.mp3_path) (fs s0) = true ->
          res (Mp3Vosk.make_cache_dirs X s0) = Raise e ->
          res (Mp3Vosk.script X st) = Raise e
          /\ exit_status (Mp3Vosk.script X st) = 1%Z)).
Proof.
  cbv zeta.
  destruct (ensure_requests X st) as [[r0 s0] t0] eqn:I.
  change (final (r0, s0, t0)) with s0.
  change (res (r0, s0, t0)) with r0.
  change (events (r0, s0, t0)) with t0.
  split; [|split; [|split]].
  - intros -> Hd.
    destruct (main_catches_stage_failures s0) as [M _].
    destruct (M Hd) as (A & (line & B) & C).
    unfold Mp4ToMp3.script.
    split; [|split].
    + unfold exit_status in *. now rewrite (script_outcome _ st s0 t0 I).
    + exists line. rewrite (script_outcome _ st s0 t0 I).
      now apply last_event_app.
    + intros Hin. destruct (C Hin) as [C1 C2]. split.
      * intros e He. apply (reported_in_run _ st s0 t0 _ _ I). now apply C1.
      * intros exe e He1 He2. apply (reported_in_run _ st s0 t0 _ _ I).
        now apply (C2 exe).
  - intros -> Hd.
    destruct (main_catches_stage_failures s0) as [_ M].
    destruct (M Hd) as (A & (line & B) & C).
    unfold Mp3Vosk.script.
    split; [|split].
    + unfold exit_status in *. now rewrite (script_outcome _ st s0 t0 I).
    + exists line. rewrite (script_outcome _ st s0 t0 I).
      now apply last_event_app.
    + intros Hin. destruct (C Hin) as [C1 C2]. split.
      * intros e He. apply (reported_in_run _ st s0 t0 _ _ I). now apply C1.
      * intros exe He1. destruct (C2 exe He1) as [C3 C4]. split.
        -- intros e He. apply (reported_in_run _ st s0 t0 _ _ I). now apply C3.
        -- intros He2. destruct (C4 He2) as [C5 C6]. split.
           ++ intros e He. apply (reported_in_run _ st s0 t0 _ _ I). now apply C5.
           ++ intros md e He3 He4. apply (reported_in_run _ st s0 t0 _ _ I).
              now apply (C6 md).
  - intros e ->.
    unfold Mp4ToMp3.script, Mp3Vosk.script, exit_status.
    rewrite !(script_stopped _ st s0 t0 e I). repeat split.
  - intros e ->. split.
    + intros Hin Hd. unfold Mp4ToMp3.script, exit_status.
      rewrite (script_outcome _ st s0 t0 I).
      assert (R : res (Mp4ToMp3.main X s0) = Raise e).
      { unfold Mp4ToMp3.main. run_py. rewrite Hin. cbn [negb]. cbv beta iota.
        destruct (Mp4ToMp3.ensure_dirs X s0) as [[rd sd] td].
        unfold res in Hd. cbn [fst] in Hd. subst rd. reflexivity. }
      unfold res in *. cbn [fst]. rewrite R. split; reflexivity.
    + intros Hin Hd. unfold Mp3Vosk.script, exit_status.
      rewrite (script_outcome _ st s0 t0 I).
      assert (R : res (Mp3Vosk.main X s0) = Raise e).
      { unfold Mp3Vosk.main. run_py. rewrite Hin. cbn [negb]. cbv beta iota.
        destruct (Mp3Vosk.make_cache_dirs X s0) as [[rd sd] td].
        unfold res in Hd. cbn [fst] in Hd. subst rd. reflexivity. }
      unfold res in *. cbn [fst]. rewrite R. split; reflexivity.
Qed.

End Orchestrator.

Section StagePreconditions.

Variable X : Externals.

Lemma mkdir_extends (p : Path) st r st1 t :
  mkdir X p st = (r, st1, t) -> extends st st1.
Proof.
  intros H. apply mkdir_outcome in H. apply H.
Qed.

Lemma ensure_ffmpeg_extends msg st r st1 t :
  Mp4ToMp3.first_ffmpeg X
    (_ <- Mp4ToMp3.fetch_and_extract_ffmpeg X ;;
     Mp4ToMp3.first_ffmpeg X (raise (FileNotFoundError msg))) st = (r, st1, t) ->
  extends st st1.
Proof.
  destruct (FS.rglob (at_ X (Mp4ToMp3.FFMPEG_ROOT X)) "ffmpeg.exe" (fs st))
    as [|q rest] eqn:R.
  - rewrite (first_ffmpeg_miss X st _ R). unfold bind.
    destruct (Mp4ToMp3.fetch_and_extract_ffmpeg X st) as [[r1 s1] t1] eqn:F.
    pose proof (fetch_and_extract_outcome X _ _ _ _ st r1 s1 t1 F) as (G & _).
    destruct r1 as [[]|e].
    + destruct (FS.rglob (at_ X (Mp4ToMp3.FFMPEG_ROOT X)) "ffmpeg.exe" (fs s1))
        as [|q rest] eqn:R1.
      * rewrite (first_ffmpeg_miss X s1 _ R1). unfold raise.
        intros H. now injection H as _ <- _.
      * rewrite (first_ffmpeg_hit X s1 q rest _ R1).
        intros H. now injection H as _ <- _.
    + intros H. now injection H as _ <- _.
  - rewrite (first_ffmpeg_hit X st q rest _ R).
    intros H. injection H as _ <- _. apply extends_refl.
Qed.

(** The input that [main] has checked is still there when the conversion
    stage starts: making the cache directories, downloading and extracting
    only add to the tree. *)
Lemma input_survives_provisioning (st : State) :
  (exists_ (at_ X (Mp4ToMp3.input_mp4 X)) (fs st) = true ->
   exists_ (at_ X (Mp4ToMp3.input_mp4 X))
           (fs (final (Mp4ToMp3.ensure_ffmpeg X (final (Mp4ToMp3.ensure_dirs X st)))))
   = true)
  /\
  (exists_ (at_ X Mp3Vosk.mp3_path) (fs st) = true ->
   exists_ (at_ X Mp3Vosk.mp3_path)
           (fs (final (Mp3Vosk.ensure_ffmpeg X (final (Mp3Vosk.make_cache_dirs X st)))))
   = true).
Proof.
  split; intros H.
  - destruct (Mp4ToMp3.ensure_dirs X st) as [[r0 s0] t0] eqn:D.
    assert (G0 : extends st s0).
    { revert D. unfold Mp4ToMp3.ensure_dirs, bind.
      destruct (mkdir X (Mp4ToMp3.TOOLS_DIR X) st) as [[r1 s1] t1] eqn:M1.
      apply mkdir_extends in M1. destruct r1 as [[]|e].
      - destruct (mkdir X (Mp4ToMp3.FFMPEG_ROOT X) s1) as [[r2 s2] t2] eqn:M2.
        apply mkdir_extends in M2. intros K. injection K as _ <- _.
        eapply extends_trans; eauto.
      - intros K. now injection K as _ <- _. }
    cbn [final fst snd].
    destruct (Mp4ToMp3.ensure_ffmpeg X s0) as [[r1 s1] t1] eqn:E.
    apply (ensure_ffmpeg_extends Mp4ToMp3.msg_ffmpeg_not_found) in E. cbn [final fst snd].
    eapply FSFacts.grows_exists; [apply (extends_trans _ _ _ G0 E) | exact H].
  - destruct (Mp3Vosk.make_cache_dirs X st) as [[r0 s0] t0] eqn:D.
    assert (G0 : extends st s0).
    { revert D. unfold Mp3Vosk.make_cache_dirs, bind.
      destruct (mkdir X (Mp3Vosk.TOOLS_DIR X) st) as [[r1 s1] t1] eqn:M1.
      apply mkdir_extends in M1. destruct r1 as [[]|e].
      - destruct (mkdir X (Mp3Vosk.MODELS_DIR X) s1) as [[r2 s2] t2] eqn:M2.
        apply mkdir_extends in M2. intros K. injection K as _ <- _.
        eapply extends_trans; eauto.
      - intros K. now injection K as _ <- _. }
    cbn [final fst snd].
    destruct (Mp3Vosk.ensure_ffmpeg X s0) as [[r1 s1] t1] eqn:E.
    apply (ensure_ffmpeg_extends Mp3Vosk.msg_ffmpeg_not_found) in E. cbn [final fst snd].
    eapply FSFacts.grows_exists; [apply (extends_trans _ _ _ G0 E) | exact H].
Qed.

End StagePreconditions.

Section SkipPolicy.

Variable X : Externals.

(** C4.  Once its input is there, [convert_mp3_to_wav] returns at once,
    without starting FFmpeg, when the WAV is already there; whatever the
    input, an existing WAV means no subprocess at all.
    [convert_mp4_to_mp3] never skips: whatever is at the output path, it
    starts FFmpeg exactly once, with [-y] and the output path as its last
    argument, and what it returns or raises is decided by FFmpeg's answer
    alone (its status, and whether the MP3 is there in the state FFmpeg
    left).  And the input is there whenever [main] reaches the conversion
    stage: [main] has checked it, and what runs in between only adds to
    the tree. *)
Theorem conversion_skip_policy
        (st : State) (exe input_mp3 output_wav input_mp4 out_mp3 : Path) :
  exists_ (at_ X output_wav) (fs st) = true ->
  exists_ (at_ X input_mp3) (fs st) = true ->
  exists_ (at_ X input_mp4) (fs st) = true ->
  replace_suffix input_mp4 ".mp3" = inr out_mp3 ->
  let cmd := Mp4ToMp3.ffmpeg_cmd X exe input_mp4 out_mp3 in
  Mp3Vosk.convert_mp3_to_wav X exe input_mp3 output_wav st
  = (Ok tt, st, [Log Mp3Vosk.msg_reused])
  /\ (forall other_input,
         count is_run (events (Mp3Vosk.convert_mp3_to_wav X exe other_input output_wav st)) = 0)
  /\ Mp4ToMp3.convert_mp4_to_mp3 X input_mp4 exe st
     = match subprocess_run X cmd st with
       | NotStarted e => (Raise e, st, [Log Mp4ToMp3.msg_starting; Run cmd])
       | Completed rc so se st' =>
           if (rc =? 0)%Z then
             if exists_ (at_ X out_mp3) (fs st') then
               (Ok out_mp3, st',
                [Log Mp4ToMp3.msg_starting; Run cmd; Log Mp4ToMp3.msg_done])
             else
               (Raise (RuntimeError Mp4ToMp3.msg_no_output), st',
                [Log Mp4ToMp3.msg_starting; Run cmd])
           else
             (Raise (RuntimeError Mp4ToMp3.msg_conversion_failed), st',
              [Log Mp4ToMp3.msg_starting; Run cmd; Log (PyStr.strip se)])
       end
  /\ count is_run (events (Mp4ToMp3.convert_mp4_to_mp3 X input_mp4 exe st)) = 1
  /\ (exists after,
         events (Mp4ToMp3.convert_mp4_to_mp3 X input_mp4 exe st)
         = Log Mp4ToMp3.msg_starting :: Run cmd :: after)
  /\ nth_error cmd 1 = Some "-y"
  /\ last cmd EmptyString = str X out_mp3
  /\ (forall st0,
         exists_ (at_ X Mp3Vosk.mp3_path) (fs st0) = true ->
         exists_ (at_ X Mp3Vosk.mp3_path)
                 (fs (final (Mp3Vosk.ensure_ffmpeg X
                               (final (Mp3Vosk.make_cache_dirs X st0))))) = true)
  /\ (forall st0,
         exists_ (at_ X (Mp4ToMp3.input_mp4 X)) (fs st0) = true ->
         exists_ (at_ X (Mp4ToMp3.input_mp4 X))
                 (fs (final (Mp4ToMp3.ensure_ffmpeg X
                               (final (Mp4ToMp3.ensure_dirs X st0))))) = true).
Proof.
  intros Hwav Hmp3 Hmp4 Hout cmd.
  pose proof (convert_mp4_to_mp3_runs X st input_mp4 exe out_mp3 Hmp4 Hout) as E.
  fold cmd in E.
  split; [|split; [|split; [|split; [|split; [|split; [|split; [|split]]]]]]].
  - unfold Mp3Vosk.convert_mp3_to_wav. run_py. rewrite Hmp3. cbn. now rewrite Hwav.
  - intros other. unfold Mp3Vosk.convert_mp3_to_wav. run_py.
    destruct (exists_ (at_ X other) (fs st)); cbn; [|reflexivity].
    now rewrite Hwav.
  - exact E.
  - rewrite E.
    destruct (subprocess_run X cmd st) as [rc so se st'|e]; [|reflexivity].
    destruct (rc =? 0)%Z; [|reflexivity].
    destruct (exists_ (at_ X out_mp3) (fs st')); reflexivity.
  - rewrite E.
    destruct (subprocess_run X cmd st) as [rc so se st'|e]; [|eexists; reflexivity].
    destruct (rc =? 0)%Z; [|eexists; reflexivity].
    destruct (exists_ (at_ X out_mp3) (fs st')); eexists; reflexivity.
  - reflexivity.
  - reflexivity.
  - intros st0. apply (proj2 (input_survives_provisioning X st0)).
  - intros st0. apply (proj1 (input_survives_provisioning X st0)).
Qed.

End SkipPolicy.


(** ** The claims on concrete worlds *)

Section Witnesses.

Import Examples.

Let Xfail : Externals := world tool_fails.
Let Xsilent : Externals := world tool_silent.

(** C10 on the bare working directory. *)
Lemma main_without_input_only_logs_witness :
  res (Mp4ToMp3.main Xsilent st_bare) = Ok tt
  /\ final (Mp4ToMp3.main Xsilent st_bare) = st_bare
  /\ count is_log (events (Mp4ToMp3.main Xsilent st_bare)) = 3
  /\ Mp3Vosk.main Xsilent st_bare
     = (Ok tt, st_bare,
        [ Log "Transcriptor offline Vosk - Espanol";
          Log ("No se encontro el MP3: " ++ Mp3Vosk.MP3_FILE)%string ]).
Proof.
  destruct (main_without_input_only_logs Xsilent st_bare) as [H1 H2].
  rewrite (H1 eq_refl), (H2 eq_refl). repeat split; reflexivity.
Defined.

(** C6 with a stale MP3 at the output path, and with no WAV yet. *)
Lemma nonzero_exit_raises_conversion_failed_witness :
  exists_ (at_ Xfail (mkPath true ["w"; Mp3Vosk.MP3_FILE])) (fs st_video) = true
  /\ res (Mp4ToMp3.convert_mp4_to_mp3 Xfail (Mp4ToMp3.input_mp4 Xfail) exe_path st_video)
     = Raise (RuntimeError Mp4ToMp3.msg_conversion_failed)
  /\ last_event (events (Mp4ToMp3.convert_mp4_to_mp3 Xfail (Mp4ToMp3.input_mp4 Xfail)
                                                     exe_path st_video))
     = Some (Log "Conversion failed!")
  /\ res (Mp3Vosk.convert_mp3_to_wav Xfail exe_path Mp3Vosk.mp3_path
                                     (Mp3Vosk.WAV_FILE Xfail) st_audio)
     = Raise (RuntimeError Mp3Vosk.msg_conversion_failed).
Proof.
  assert (N : (1 <> 0)%Z) by discriminate.
  destruct (nonzero_exit_raises_conversion_failed Xfail st_video st_video 1 EmptyString
              "  Conversion failed!  " N) as [H1 _].
  destruct (nonzero_exit_raises_conversion_failed Xfail st_audio st_audio 1 EmptyString
              "  Conversion failed!  " N) as [_ H2].
  rewrite (H1 (Mp4ToMp3.input_mp4 Xfail) exe_path
              (mkPath true ["w"; Mp3Vosk.MP3_FILE]) eq_refl eq_refl eq_refl).
  rewrite (H2 exe_path Mp3Vosk.mp3_path (Mp3Vosk.WAV_FILE Xfail)
              eq_refl eq_refl eq_refl).
  repeat split; reflexivity.
Defined.

(** C1 at the failing input: FFmpeg exits with 0 and writes nothing. *)
Lemma zero_exit_without_output_witness :
  res (Mp4ToMp3.convert_mp4_to_mp3 Xsilent (Mp4ToMp3.input_mp4 Xsilent) exe_path
                                   (tree [(Mp4ToMp3.VIDEO_FILE, File "mp4")]))
  = Raise (RuntimeError Mp4ToMp3.msg_no_output)
  /\ Mp3Vosk.convert_mp3_to_wav Xsilent exe_path Mp3Vosk.mp3_path
                                (Mp3Vosk.WAV_FILE Xsilent) st_audio
     = (Ok tt, st_audio,
        [ Log Mp3Vosk.msg_starting;
          Run (Mp3Vosk.ffmpeg_cmd Xsilent exe_path Mp3Vosk.mp3_path
                                  (Mp3Vosk.WAV_FILE Xsilent));
          Log Mp3Vosk.msg_done ])
  /\ exists_ (at_ Xsilent (Mp3Vosk.WAV_FILE Xsilent)) (fs st_audio) = false.
Proof.
  destruct (zero_exit_without_output Xsilent
              (tree [(Mp4ToMp3.VIDEO_FILE, File "mp4")])
              (tree [(Mp4ToMp3.VIDEO_FILE, File "mp4")]) EmptyString EmptyString) as [H1 _].
  destruct (zero_exit_without_output Xsilent st_audio st_audio EmptyString EmptyString)
    as [_ H2].
  rewrite (H1 (Mp4ToMp3.input_mp4 Xsilent) exe_path
              (mkPath true ["w"; Mp3Vosk.MP3_FILE]) eq_refl eq_refl eq_refl eq_refl).
  rewrite (H2 exe_path Mp3Vosk.mp3_path (Mp3Vosk.WAV_FILE Xsilent)
              eq_refl eq_refl eq_refl eq_refl).
  repeat split; reflexivity.
Defined.

(** C4 with the WAV and a stale MP3 already there: the WAV is reused,
    and FFmpeg is started on the video all the same; what it answers
    decides the outcome. *)
Lemma conversion_skip_policy_witness :
  Mp3Vosk.convert_mp3_to_wav Xsilent exe_path Mp3Vosk.mp3_path
                             (Mp3Vosk.WAV_FILE Xsilent) st_ready
  = (Ok tt, st_ready, [Log Mp3Vosk.msg_reused])
  /\ exists_ ["w"; Mp3Vosk.MP3_FILE] (fs st_ready) = true
  /\ Mp4ToMp3.convert_mp4_to_mp3 Xsilent (Mp4ToMp3.input_mp4 Xsilent) exe_path st_ready
     = (Ok (mkPath true ["w"; Mp3Vosk.MP3_FILE]), st_ready,
        [ Log Mp4ToMp3.msg_starting;
          Run [ "/w/tools/ffmpeg/ffmpeg-8.0/bin/ffmpeg.exe"; "-y"; "-i";
                ("/w/" ++ Mp4ToMp3.VIDEO_FILE)%string; "-vn";
                "-acodec"; "libmp3lame"; "-b:a"; "192k";
                ("/w/" ++ Mp3Vosk.MP3_FILE)%string ];
          Log Mp4ToMp3.msg_done ])
  /\ res (Mp4ToMp3.convert_mp4_to_mp3 Xfail (Mp4ToMp3.input_mp4 Xfail) exe_path st_ready)
     = Raise (RuntimeError Mp4ToMp3.msg_conversion_failed)
  /\ count is_run
       (events (Mp4ToMp3.convert_mp4_to_mp3 Xfail (Mp4ToMp3.input_mp4 Xfail)
                                            exe_path st_ready)) = 1.
Proof.
  destruct (conversion_skip_policy Xsilent st_ready exe_path Mp3Vosk.mp3_path
              (Mp3Vosk.WAV_FILE Xsilent) (Mp4ToMp3.input_mp4 Xsilent)
              (mkPath true ["w"; Mp3Vosk.MP3_FILE])
              eq_refl eq_refl eq_refl eq_refl) as (H1 & _ & H3 & _).
  destruct (conversion_skip_policy Xfail st_ready exe_path Mp3Vosk.mp3_path
              (Mp3Vosk.WAV_FILE Xfail) (Mp4ToMp3.input_mp4 Xfail)
              (mkPath true ["w"; Mp3Vosk.MP3_FILE])
              eq_refl eq_refl eq_refl eq_refl) as (_ & _ & K3 & K4 & _).
  split; [exact H1|]. split; [reflexivity|].
  split; [rewrite H3; reflexivity|].
  split; [rewrite K3; reflexivity | exact K4].
Defined.

(** C5 on a stereo, 44.1 kHz WAV. *)
Lemma wrong_format_raises_before_reading_witness :
  Mp3Vosk.transcribe_with_vosk Xsilent (Mp3Vosk.WAV_FILE Xsilent)
                               (Mp3Vosk.VOSK_MODEL_DIR Xsilent) st_stereo
  = (Raise (ValueError "WAV debe ser mono 16-bit 16000Hz"), st_stereo,
     [Log Mp3Vosk.msg_loading]).
Proof.
  assert (Hbad : (2 <> 1 \/ 2 <> 2 \/ 44100 <> 16000)%Z) by (left; discriminate).
  destruct (wrong_format_raises_before_reading Xsilent st_stereo
              (Mp3Vosk.WAV_FILE Xsilent) (Mp3Vosk.VOSK_MODEL_DIR Xsilent)
              "WAV-44K-STEREO" (mkWave 2 2 44100 silence)
              eq_refl eq_refl Hbad) as (_ & _ & H).
  exact (H tt eq_refl eq_refl).
Defined.

(** C7 on 8001 bytes of audio: two reads, the first ends a segment. *)
Lemma transcribe_with_vosk_reads_and_joins_witness :
  res (Mp3Vosk.transcribe_with_vosk Xsilent (Mp3Vosk.WAV_FILE Xsilent)
                                    (Mp3Vosk.VOSK_MODEL_DIR Xsilent) st_ready)
  = Ok "hola mundo"
  /\ List.length (TranscriptSpec.chunks (Z.to_nat 8000) silence) = 2.
Proof.
  assert (Hseg : TranscriptSpec.segments Xsilent 0
                   (TranscriptSpec.chunks (Z.to_nat 8000) silence)
                 = inr (["  hola "], 2)) by (vm_compute; reflexivity).
  destruct (transcribe_with_vosk_reads_and_joins Xsilent st_ready
              (Mp3Vosk.WAV_FILE Xsilent) (Mp3Vosk.VOSK_MODEL_DIR Xsilent)
              tt "WAV-16K-MONO" (mkWave 1 2 16000 silence) ["  hola "] 2
              eq_refl eq_refl eq_refl eq_refl eq_refl eq_refl eq_refl Hseg)
    as (H & _).
  rewrite H. split; [reflexivity | vm_compute; reflexivity].
Defined.

(** C8 on the same audio: the file holds the banner and "hola mundo". *)
Lemma transcript_file_is_banner_then_text_witness :
  exists st2,
    res (Mp3Vosk.transcribe_and_save Xsilent (Mp3Vosk.VOSK_MODEL_DIR Xsilent) st_ready)
    = Ok tt
    /\ final (Mp3Vosk.transcribe_and_save Xsilent (Mp3Vosk.VOSK_MODEL_DIR Xsilent)
                                          st_ready) = st2
    /\ read_file (at_ Xsilent (Mp3Vosk.OUTPUT_FILE Xsilent)) (fs st2)
       = inr ("TRANSCRIPCION (Vosk - Espanol)" ++ Mp3Vosk.nl
              ++ "================================" ++ Mp3Vosk.nl ++ Mp3Vosk.nl
              ++ "hola mundo" ++ Mp3Vosk.nl)%string.
Proof.
  assert (Hrun : Mp3Vosk.transcribe_with_vosk Xsilent (Mp3Vosk.WAV_FILE Xsilent)
                   (Mp3Vosk.VOSK_MODEL_DIR Xsilent) st_ready
                 = (Ok "hola mundo", st_ready,
                    events (Mp3Vosk.transcribe_with_vosk Xsilent
                              (Mp3Vosk.WAV_FILE Xsilent)
                              (Mp3Vosk.VOSK_MODEL_DIR Xsilent) st_ready)))
    by (vm_compute; reflexivity).
  destruct (transcript_file_is_banner_then_text Xsilent st_ready st_ready
              (Mp3Vosk.VOSK_MODEL_DIR Xsilent) "hola mundo" _ Hrun eq_refl)
    as (st2 & H1 & H2 & _).
  exists st2. rewrite H1. repeat split. exact H2.
Defined.

(** C2, amended, on the provisioned tree. *)
Lemma cache_hit_needs_no_network_witness :
  (exists d',
      Mp4ToMp3.ensure_ffmpeg Xsilent st_ready
      = (Ok (mkPath true (["w"; "tools"; "ffmpeg"] ++ d' ++ ["ffmpeg.exe"])), st_ready,
         [Log ("FFmpeg localizado: "
               ++ str Xsilent
                    (mkPath true (["w"; "tools"; "ffmpeg"] ++ d' ++ ["ffmpeg.exe"])%list))%string]))
  /\ Mp3Vosk.ensure_vosk_model Xsilent st_ready
     = (Ok (Mp3Vosk.VOSK_MODEL_DIR Xsilent), st_ready,
        [Log "Modelo Vosk listo: /w/models/vosk-model-small-es-0.42"]).
Proof.
  destruct (cache_hit_needs_no_network Xsilent st_ready) as [H1 H2].
  split.
  - destruct (H1 ["ffmpeg-8.0"; "bin"] eq_refl) as (d' & _ & E & _).
    exists d'. exact E.
  - exact (proj1 (H2 ("README", File "modelo") [] eq_refl)).
Defined.

(** C2 as stated fails: the model directory is present, but empty, and
    [ensure_vosk_model] goes to the network. *)
Lemma present_but_empty_model_directory_is_downloaded :
  ~ (is_dir (at_ Xsilent (Mp3Vosk.VOSK_MODEL_DIR Xsilent)) (fs st_empty_model) = true ->
     count is_http (events (Mp3Vosk.ensure_vosk_model Xsilent st_empty_model)) = 0).
Proof.
  intros H. specialize (H eq_refl). vm_compute in H. discriminate H.
Defined.


(** C9, amended: [requests] is there, FFmpeg is fetched, the conversion
    fails, [main] prints the failure and the run ends with status 0. *)
Lemma stage_failures_are_caught_and_logged_witness :
  exit_status (Mp4ToMp3.script Xfail st_video) = 0%Z
  /\ reported ("Error en la conversi" ++ Mp4ToMp3.o_acute ++ "n: ")%string
              (RuntimeError Mp4ToMp3.msg_conversion_failed)
              (Mp4ToMp3.script Xfail st_video)
  /\ exit_status (Mp3Vosk.script Xfail st_audio) = 0%Z.
Proof.
  destruct (stage_failures_are_caught_and_logged Xfail st_video) as (H1 & _).
  destruct (stage_failures_are_caught_and_logged Xfail st_audio) as (_ & H2 & _).
  destruct (H1 eq_refl (or_intror eq_refl)) as (A1 & _ & A3).
  destruct (H2 eq_refl (or_intror eq_refl)) as (B1 & _).
  destruct (A3 eq_refl) as (_ & A4).
  split; [exact A1|]. split; [|exact B1].
  apply (A4 exe_path); reflexivity.
Defined.

(** C9 as stated fails.  With a file called [tools] in the way,
    [ensure_dirs] (or the first [mkdir] of the second script) raises
    outside any [try]; and on a machine without [requests] where pip
    installs nothing, the import after the fallback raises, with the
    input missing, before [main] starts.  Either way the interpreter
    exits with status 1. *)
Lemma tools_file_makes_main_raise :
  exit_status (Mp4ToMp3.script Xsilent st_tools_is_a_file) <> 0%Z
  /\ res (Mp4ToMp3.script Xsilent st_tools_is_a_file)
     = Raise (FileExistsError "[Errno 17] File exists: '/w/tools'")
  /\ exit_status (Mp3Vosk.script Xsilent
                    (tree [(Mp3Vosk.MP3_FILE, File "mp3"); ("tools", File "notes")]))
     <> 0%Z
  /\ exit_status (Mp4ToMp3.script Xsilent st_no_requests) <> 0%Z
  /\ exit_status (Mp3Vosk.script Xsilent st_no_requests) <> 0%Z
  /\ events (Mp4ToMp3.script Xsilent st_no_requests)
     = [Run ["/usr/bin/python3"; "-m"; "pip"; "install"; "requests"; "--quiet"]].
Proof.
  split; [vm_compute; discriminate|].
  split; [vm_compute; reflexivity|].
  split; [vm_compute; discriminate|].
  split; [vm_compute; discriminate|].
  split; [vm_compute; discriminate|].
  vm_compute; reflexivity.
Defined.

(** On a working directory that holds only the MP3, the second script
    cannot fetch FFmpeg by itself: [main] makes [tools] and [models] but
    not [tools/ffmpeg] ([ensure_dirs] is never called), so the archive
    cannot be written after the download, and the run ends with the
    provisioning error. *)
Remark mp3_main_cannot_store_the_ffmpeg_archive :
  res (Mp3Vosk.main Xsilent st_audio) = Ok tt
  /\ count is_http (events (Mp3Vosk.main Xsilent st_audio)) = 1
  /\ count is_extract (events (Mp3Vosk.main Xsilent st_audio)) = 0
  /\ last_event (events (Mp3Vosk.main Xsilent st_audio))
     = Some (Log ("Error preparando FFmpeg: [Errno 2] No such file or directory: "
                  ++ "'/w/tools/ffmpeg/ffmpeg-release-essentials.zip'")).
Proof.
  repeat split; vm_compute; reflexivity.
Qed.

End Witnesses.


(** * Further properties of the scripts *)

(** ** More about the filesystem *)

Module FSMore.

Import FS.

Lemma set_entry_same k v es : assoc k es = Some v -> set_entry k v es = es.
Proof.
  induction es as [|[k' v'] r IH]; simpl; try discriminate.
  destruct (String.eqb k k') eqn:E.
  - intros H. injection H as ->. reflexivity.
  - intros H. now rewrite IH.
Qed.

(** After [mkdir], the path is a directory. *)
Lemma mkdir_p_is_dir p : forall n n', mkdir_p p n = inr n' -> is_dir p n' = true.
Proof.
  unfold is_dir. induction p as [|c p IH]; intros n n' H; simpl in H.
  - destruct n; try discriminate. injection H as <-. reflexivity.
  - destruct n as [s|es]; try discriminate.
    destruct (mkdir_p p _) as [e|m'] eqn:E; try discriminate.
    injection H as <-. simpl. rewrite FSFacts.assoc_set_entry_eq. eapply IH; eauto.
Qed.

(** [mkdir] on a directory changes nothing. *)
Lemma mkdir_p_noop p : forall n, is_dir p n = true -> mkdir_p p n = inr n.
Proof.
  unfold is_dir. induction p as [|c p IH]; intros n H; simpl in *.
  - destruct n; [discriminate | reflexivity].
  - destruct n as [s|es]; try discriminate.
    destruct (assoc c es) as [m|] eqn:A; try discriminate.
    rewrite (IH m H). now rewrite set_entry_same.
Qed.

(** [mkdir] raises exactly when a regular file sits on the way. *)
Lemma mkdir_p_raises p : forall n,
  (exists e, mkdir_p p n = inl e) <-> blocked p n.
Proof.
  unfold blocked. induction p as [|k p IH]; intros n; simpl.
  - destruct n as [s|es]; split.
    + intros _. exists [], [], s. auto.
    + eauto.
    + intros [e H]. discriminate.
    + intros (q & r & c & E & L). symmetry in E. apply app_eq_nil in E.
      destruct E as [-> _]. discriminate.
  - destruct n as [s|es]; split.
    + intros _. exists [], (k :: p), s. auto.
    + eauto.
    + intros [e H].
      destruct (mkdir_p p _) as [e'|m'] eqn:E; try discriminate.
      destruct (proj1 (IH _) (ex_intro _ e' E)) as (q & r & c & -> & L).
      destruct (assoc k es) as [m|] eqn:A.
      * exists (k :: q), r, c. split; [reflexivity|]. simpl. now rewrite A.
      * destruct q; simpl in L; discriminate.
    + intros (q & r & c & E & L).
      destruct q as [|k' q]; [discriminate|].
      simpl in E. injection E as <- ->. simpl in L.
      destruct (assoc k es) as [m|] eqn:A; try discriminate.
      destruct (proj2 (IH m) (ex_intro _ q (ex_intro _ r (ex_intro _ c (conj eq_refl L)))))
        as [e ->]. eauto.
Qed.

(** A regular file found after [mkdir] was there before. *)
Lemma mkdir_p_keeps_files p : forall n n' q c,
  mkdir_p p n = inr n' -> lookup q n' = Some (File c) -> lookup q n = Some (File c).
Proof.
  induction p as [|k p IH]; intros n n' q c H L; simpl in H.
  - destruct n; try discriminate. now injection H as <-.
  - destruct n as [s|es]; try discriminate.
    destruct (mkdir_p p _) as [e|m'] eqn:E; try discriminate.
    injection H as <-.
    destruct q as [|k' q]; [discriminate|]. simpl in *.
    destruct (String.eqb_spec k' k) as [->|N].
    + rewrite FSFacts.assoc_set_entry_eq in L.
      destruct (assoc k es) as [m|] eqn:A.
      * eapply IH; eauto.
      * apply (IH _ _ _ _ E) in L. destruct q; simpl in L; discriminate.
    + now rewrite (FSFacts.assoc_set_entry_neq _ _ _ _ N) in L.
Qed.

(** What exists after [mkdir] was there before, or lies on the way to the
    directory made. *)
Lemma mkdir_p_only_adds p : forall n n' q,
  mkdir_p p n = inr n' -> exists_ q n' = true ->
  exists_ q n = true \/ exists r, p = q ++ r.
Proof.
  unfold exists_. induction p as [|k p IH]; intros n n' q H L; simpl in H.
  - destruct n; try discriminate. injection H as <-. now left.
  - destruct n as [s|es]; try discriminate.
    destruct (mkdir_p p _) as [e|m'] eqn:E; try discriminate.
    injection H as <-.
    destruct q as [|k' q]; [now left|]. simpl in *.
    destruct (String.eqb_spec k' k) as [->|N].
    + rewrite FSFacts.assoc_set_entry_eq in L.
      destruct (IH _ _ q E L) as [K|[r ->]].
      * destruct (assoc k es) as [m|] eqn:A; [now left|].
        right. destruct q as [|k1 q]; [now exists p | simpl in K; discriminate].
      * right. now exists r.
    + rewrite (FSFacts.assoc_set_entry_neq _ _ _ _ N) in L. now left.
Qed.

(** What exists after a write was there before, or is the file written. *)
Lemma write_file_only_adds p data : forall n n' q,
  write_file p data n = inr n' -> exists_ q n' = true ->
  q = p \/ exists_ q n = true.
Proof.
  unfold exists_. induction p as [|k p IH]; intros n n' q H L; simpl in H.
  - destruct n; try discriminate. injection H as <-.
    destruct q; [now left | discriminate].
  - destruct n as [s|es]; try discriminate.
    destruct q as [|k' q]; [now right|].
    destruct (assoc k es) as [m|] eqn:A.
    + destruct (write_file p data m) as [e|m'] eqn:E; try discriminate.
      injection H as <-. simpl in *.
      destruct (String.eqb_spec k' k) as [->|N].
      * rewrite FSFacts.assoc_set_entry_eq in L. rewrite A.
        destruct (IH _ _ q E L) as [->|K]; [now left | now right].
      * rewrite (FSFacts.assoc_set_entry_neq _ _ _ _ N) in L. now right.
    + destruct p; try discriminate. injection H as <-. simpl in *.
      destruct (String.eqb_spec k' k) as [->|N].
      * rewrite FSFacts.assoc_set_entry_eq in L.
        destruct q; [now left | discriminate].
      * rewrite (FSFacts.assoc_set_entry_neq _ _ _ _ N) in L. now right.
Qed.

(** A file cannot be written where the parent is not a directory. *)
Lemma write_file_needs_parent p k data : forall n,
  is_dir p n = false -> exists e, write_file (p ++ [k]) data n = inl e.
Proof.
  unfold is_dir. induction p as [|c p IH]; intros n H; simpl in *.
  - destruct n as [s|es]; [eauto | discriminate].
  - destruct n as [s|es]; [eauto|].
    destruct (assoc c es) as [m|] eqn:A.
    + destruct (IH m H) as [e ->]. eauto.
    + destruct p; simpl; eauto.
Qed.

(** A search that found nothing still finds nothing after a file of
    another name has been written. *)
Lemma rglob_after_write p data n n' root nm :
  write_file p data n = inr n' ->
  (forall d, p <> root ++ d ++ [nm]) ->
  rglob root nm n = [] -> rglob root nm n' = [].
Proof.
  intros W Hp R.
  destruct (rglob root nm n') as [|q rest] eqn:R'; [reflexivity|].
  assert (Hq : In q (rglob root nm n')) by (rewrite R'; now left).
  apply FSFacts.rglob_spec in Hq. destruct Hq as (d & -> & Hex).
  destruct (write_file_only_adds _ _ _ _ _ W Hex) as [E|E].
  - exfalso. apply (Hp d). now symmetry.
  - assert (Hin : In (root ++ d ++ [nm]) (rglob root nm n))
      by (apply FSFacts.rglob_spec; eauto).
    rewrite R in Hin. destruct Hin.
Qed.

End FSMore.

(** ** Downloads *)

Section Downloads.

Variable X : Externals.

Let ROOT : Path := Mp4ToMp3.FFMPEG_ROOT X.
Let ZIP : Path := Mp4ToMp3.FFMPEG_ZIP X.

(** X1.  When [download_file] returns, the server has delivered a
    complete body, the destination file holds exactly that body, nothing
    that was on disk is gone, and the run printed the two lines around one
    request. *)
Theorem download_file_stores_the_body
        (url : string) (dest : Path) (st st1 : State) (t : list event) :
  download_file X url dest st = (Ok tt, st1, t) ->
  exists body,
    requests_get X url = HttpBody body
    /\ read_file (at_ X dest) (fs st1) = inr body
    /\ extends st st1
    /\ t = [ Log ("Descargando: " ++ url)%string; HttpGet url;
             Log ("Descargado en: " ++ str X dest)%string ].
Proof.
  unfold download_file. run_py.
  destruct (requests_get X url) as [body|e|received e]; cbn.
  - destruct (write_file (at_ X dest) body (fs st)) as [e|n'] eqn:W; cbn;
      intros H; [discriminate|].
    injection H as <- <-. exists body.
    split; [reflexivity|]. split; [|split; [split|]]; try reflexivity.
    + unfold read_file. cbn [fs with_fs].
      now rewrite (FSFacts.write_file_lookup _ _ _ _ W).
    + cbn [fs with_fs]. eapply FSFacts.write_file_grows; eauto.
  - discriminate.
  - destruct (write_file (at_ X dest) received (fs st)); cbn; discriminate.
Qed.

(** [ensure_ffmpeg] stays off the network once the archive is on disk,
    whatever the message of its last line. *)
Lemma ensure_ffmpeg_offline (msg : string) (st : State) :
  exists_ (at_ X ZIP) (fs st) = true ->
  count is_http
        (events (Mp4ToMp3.first_ffmpeg X
                   (_ <- Mp4ToMp3.fetch_and_extract_ffmpeg X ;;
                    Mp4ToMp3.first_ffmpeg X (raise (FileNotFoundError msg))) st)) = 0.
Proof.
  intros Hz.
  destruct (FS.rglob (at_ X ROOT) "ffmpeg.exe" (fs st)) as [|q rest] eqn:R.
  - rewrite (first_ffmpeg_miss X st _ R). unfold bind.
    destruct (Mp4ToMp3.fetch_and_extract_ffmpeg X st) as [[r1 s1] t1] eqn:F.
    pose proof (fetch_and_extract_outcome X _ _ _ _ st r1 s1 t1 F) as (_ & Hh & _).
    fold ZIP in Hh. rewrite Hz in Hh.
    destruct r1 as [[]|e]; [|exact Hh].
    destruct (FS.rglob (at_ X ROOT) "ffmpeg.exe" (fs s1)) as [|q rest] eqn:R1.
    + rewrite (first_ffmpeg_miss X s1 _ R1). unfold raise. cbn [events snd].
      now rewrite app_nil_r.
    + rewrite (first_ffmpeg_hit X s1 q rest _ R1). cbn [events snd].
      rewrite count_app, Hh. reflexivity.
  - rewrite (first_ffmpeg_hit X st q rest _ R). reflexivity.
Qed.

(** X2.  A download of the FFmpeg archive that breaks midway leaves the
    bytes received so far at the archive's path and raises.  Every later
    run finds that file, so it never asks the network again; when the
    archive reader rejects the truncated file, the later run raises that
    error after one printed line and leaves the state as it is, so the
    same happens on each run after it. *)
Theorem interrupted_download_blocks_later_runs
        (st : State) (received : string) (e : exn) :
  requests_get X Mp4ToMp3.FFMPEG_URL = HttpBroken received e ->
  FS.rglob (at_ X ROOT) "ffmpeg.exe" (fs st) = [] ->
  is_dir (at_ X ROOT) (fs st) = true ->
  exists_ (at_ X ZIP) (fs st) = false ->
  exists st1,
    Mp4ToMp3.ensure_ffmpeg X st
    = (Raise e, st1,
       [ Log ("Descargando: " ++ Mp4ToMp3.FFMPEG_URL)%string;
         HttpGet Mp4ToMp3.FFMPEG_URL ])
    /\ read_file (at_ X ZIP) (fs st1) = inr received
    /\ count is_http (events (Mp4ToMp3.ensure_ffmpeg X st1)) = 0
    /\ (forall e2, ZipFile X received = inl e2 ->
          Mp4ToMp3.ensure_ffmpeg X st1
          = (Raise e2, st1, [Log "Extrayendo FFmpeg..."])).
Proof.
  intros Hnet Hmiss Hroot Hzip.
  assert (Hnd : is_dir (at_ X ROOT ++ ["ffmpeg-release-essentials.zip"]) (fs st) = false).
  { change (at_ X ZIP) with (at_ X ROOT ++ ["ffmpeg-release-essentials.zip"]) in Hzip.
    unfold exists_ in Hzip. unfold is_dir.
    destruct (lookup _ (fs st)); [discriminate | reflexivity]. }
  destruct (FSFacts.write_file_succeeds _ _ received (fs st) Hroot Hnd) as (n' & W).
  assert (Hread : lookup (at_ X ZIP) n' = Some (File received))
    by exact (FSFacts.write_file_lookup _ _ _ _ W).
  assert (R1 : FS.rglob (at_ X ROOT) "ffmpeg.exe" n' = []).
  { apply (FSMore.rglob_after_write _ _ _ _ _ _ W); [|exact Hmiss].
    intros d E. apply app_inv_head in E.
    assert (L : last ["ffmpeg-release-essentials.zip"] EmptyString
                = last (d ++ ["ffmpeg.exe"]) EmptyString) by now rewrite E.
    rewrite last_last in L. discriminate L. }
  exists (with_fs n' st). split; [|split; [|split]].
  - unfold Mp4ToMp3.ensure_ffmpeg. rewrite (first_ffmpeg_miss X st _ Hmiss).
    unfold Mp4ToMp3.fetch_and_extract_ffmpeg, download_file. run_py.
    fold ZIP. rewrite Hzip. cbn [negb]. rewrite Hnet. cbv beta iota zeta.
    change (at_ X ZIP) with (at_ X ROOT ++ ["ffmpeg-release-essentials.zip"]).
    rewrite W. reflexivity.
  - unfold read_file. cbn [fs with_fs]. now rewrite Hread.
  - apply (ensure_ffmpeg_offline Mp4ToMp3.msg_ffmpeg_not_found).
    unfold exists_. cbn [fs with_fs]. now rewrite Hread.
  - intros e2 Hbad.
    unfold Mp4ToMp3.ensure_ffmpeg.
    rewrite (first_ffmpeg_miss X (with_fs n' st) _ R1).
    unfold Mp4ToMp3.fetch_and_extract_ffmpeg, unzip. run_py.
    fold ZIP. unfold exists_, read_file. cbn [fs with_fs].
    rewrite Hread. cbn [negb]. cbv beta iota zeta.
    cbn [fs with_fs os_call]. rewrite ?Hread. cbv beta iota zeta.
    cbn [os_call]. cbv beta iota zeta. rewrite Hbad. reflexivity.
Qed.

End Downloads.

(** ** The cache directories *)

Section CacheDirectories.

Variable X : Externals.

Lemma with_fs_same (s : State) : with_fs (fs s) s = s.
Proof. now destruct s. Qed.

Lemma mkdir_returns p st st1 t :
  mkdir X p st = (Ok tt, st1, t) ->
  is_dir (at_ X p) (fs st1) = true /\ extends st st1 /\ t = [].
Proof.
  intros H. pose proof (mkdir_extends X p st _ st1 t H) as G.
  unfold mkdir, fs_update, os_call in H.
  destruct (mkdir_p (at_ X p) (fs st)) as [e|n'] eqn:E; [discriminate|].
  injection H as <- <-. split; [|split; [exact G | reflexivity]].
  cbn [fs with_fs]. eapply FSMore.mkdir_p_is_dir; eauto.
Qed.

Lemma mkdir_again p st :
  is_dir (at_ X p) (fs st) = true -> mkdir X p st = (Ok tt, st, []).
Proof.
  intros H. unfold mkdir, fs_update, os_call. rewrite (FSMore.mkdir_p_noop _ _ H).
  now rewrite with_fs_same.
Qed.

Lemma mkdir_raises p st :
  (exists e, res (mkdir X p st) = Raise e) <-> blocked (at_ X p) (fs st).
Proof.
  rewrite <- FSMore.mkdir_p_raises. unfold mkdir, fs_update, os_call, res.
  destruct (mkdir_p (at_ X p) (fs st)) as [e|n']; cbn [fst]; split.
  - eauto.
  - eauto.
  - intros [e H]. discriminate.
  - intros [e H]. discriminate.
Qed.

(** A file in the way before a [mkdir] is in the way after it, and the
    other way round. *)
Lemma blocked_across_mkdir p q st st1 t :
  mkdir X p st = (Ok tt, st1, t) ->
  (blocked q (fs st) <-> blocked q (fs st1)).
Proof.
  intros H. pose proof (mkdir_extends X p st _ st1 t H) as [G _].
  unfold mkdir, fs_update, os_call in H.
  destruct (mkdir_p (at_ X p) (fs st)) as [e|n'] eqn:E; [discriminate|].
  injection H as <- _. cbn [fs with_fs] in *. unfold blocked. split.
  - intros (a & r & c & -> & L).
    destruct (G a _ L) as (x' & L' & K). destruct x' as [c'|]; [|destruct K].
    exists a, r, c'. auto.
  - intros (a & r & c & -> & L).
    exists a, r, c. split; [reflexivity|].
    eapply FSMore.mkdir_p_keeps_files; eauto.
Qed.

Lemma blocked_app p r n : blocked p n -> blocked (p ++ r) n.
Proof.
  intros (a & b & c & -> & L). exists a, (b ++ r), c.
  split; [now rewrite app_assoc | assumption].
Qed.

(** X3.  When [ensure_dirs] returns, [tools] and [tools/ffmpeg] (and
    [models], in the second script) are directories, nothing that was on
    disk is gone, nothing was printed, and running it again changes
    nothing. *)
Theorem ensure_dirs_is_idempotent (st st1 : State) (t : list event) :
  (Mp4ToMp3.ensure_dirs X st = (Ok tt, st1, t) ->
   is_dir (at_ X (Mp4ToMp3.TOOLS_DIR X)) (fs st1) = true
   /\ is_dir (at_ X (Mp4ToMp3.FFMPEG_ROOT X)) (fs st1) = true
   /\ extends st st1
   /\ t = []
   /\ Mp4ToMp3.ensure_dirs X st1 = (Ok tt, st1, []))
  /\
  (Mp3Vosk.ensure_dirs X st = (Ok tt, st1, t) ->
   is_dir (at_ X (Mp3Vosk.TOOLS_DIR X)) (fs st1) = true
   /\ is_dir (at_ X (Mp3Vosk.FFMPEG_ROOT X)) (fs st1) = true
   /\ is_dir (at_ X (Mp3Vosk.MODELS_DIR X)) (fs st1) = true
   /\ extends st st1
   /\ t = []
   /\ Mp3Vosk.ensure_dirs X st1 = (Ok tt, st1, [])).
Proof.
  split.
  - unfold Mp4ToMp3.ensure_dirs, bind.
    destruct (mkdir X (Mp4ToMp3.TOOLS_DIR X) st) as [[[[]|e1] s1] t1] eqn:M1;
      [|discriminate].
    destruct (mkdir X (Mp4ToMp3.FFMPEG_ROOT X) s1) as [[[[]|e2] s2] t2] eqn:M2;
      [|discriminate].
    intros H. injection H as <- <-.
    destruct (mkdir_returns _ _ _ _ M1) as (D1 & G1 & ->).
    destruct (mkdir_returns _ _ _ _ M2) as (D2 & G2 & ->).
    assert (D1' : is_dir (at_ X (Mp4ToMp3.TOOLS_DIR X)) (fs s2) = true)
      by (eapply FSFacts.grows_is_dir; [apply G2 | exact D1]).
    split; [exact D1'|]. split; [exact D2|].
    split; [eapply extends_trans; eauto|]. split; [reflexivity|].
    rewrite (mkdir_again _ _ D1'). now rewrite (mkdir_again _ _ D2).
  - unfold Mp3Vosk.ensure_dirs, bind.
    destruct (mkdir X (Mp3Vosk.TOOLS_DIR X) st) as [[[[]|e1] s1] t1] eqn:M1;
      [|discriminate].
    destruct (mkdir X (Mp3Vosk.FFMPEG_ROOT X) s1) as [[[[]|e2] s2] t2] eqn:M2;
      [|discriminate].
    destruct (mkdir X (Mp3Vosk.MODELS_DIR X) s2) as [[[[]|e3] s3] t3] eqn:M3;
      [|discriminate].
    intros H. injection H as <- <-.
    destruct (mkdir_returns _ _ _ _ M1) as (D1 & G1 & ->).
    destruct (mkdir_returns _ _ _ _ M2) as (D2 & G2 & ->).
    destruct (mkdir_returns _ _ _ _ M3) as (D3 & G3 & ->).
    assert (D2' : is_dir (at_ X (Mp3Vosk.FFMPEG_ROOT X)) (fs s3) = true)
      by (eapply FSFacts.grows_is_dir; [apply G3 | exact D2]).
    assert (D1' : is_dir (at_ X (Mp3Vosk.TOOLS_DIR X)) (fs s3) = true).
    { eapply FSFacts.grows_is_dir; [apply G3|].
      eapply FSFacts.grows_is_dir; [apply G2 | exact D1]. }
    split; [exact D1'|]. split; [exact D2'|]. split; [exact D3|].
    split; [eapply extends_trans; [|exact G3]; eapply extends_trans; eauto|].
    split; [reflexivity|].
    rewrite (mkdir_again _ _ D1'). rewrite (mkdir_again _ _ D2').
    now rewrite (mkdir_again _ _ D3).
Qed.

Lemma ensure_dirs_raises (st : State) :
  (exists e, res (Mp4ToMp3.ensure_dirs X st) = Raise e)
  <-> blocked (at_ X (Mp4ToMp3.FFMPEG_ROOT X)) (fs st).
Proof.
  pose proof (mkdir_raises (Mp4ToMp3.TOOLS_DIR X) st) as R1.
  unfold Mp4ToMp3.ensure_dirs, bind.
  destruct (mkdir X (Mp4ToMp3.TOOLS_DIR X) st) as [[[[]|e1] s1] t1] eqn:M1.
  - pose proof (mkdir_raises (Mp4ToMp3.FFMPEG_ROOT X) s1) as R2.
    rewrite (blocked_across_mkdir _ (at_ X (Mp4ToMp3.FFMPEG_ROOT X)) _ _ _ M1).
    destruct (mkdir X (Mp4ToMp3.FFMPEG_ROOT X) s1) as [[r2 s2] t2].
    exact R2.
  - split; [intros _ | intros _; exists e1; reflexivity].
    change (at_ X (Mp4ToMp3.FFMPEG_ROOT X))
      with (at_ X (Mp4ToMp3.TOOLS_DIR X) ++ ["ffmpeg"]).
    apply blocked_app, R1. exists e1; reflexivity.
Qed.

Lemma make_cache_dirs_raises (st : State) :
  (exists e, res (Mp3Vosk.make_cache_dirs X st) = Raise e)
  <-> blocked (at_ X (Mp3Vosk.TOOLS_DIR X)) (fs st)
      \/ blocked (at_ X (Mp3Vosk.MODELS_DIR X)) (fs st).
Proof.
  pose proof (mkdir_raises (Mp3Vosk.TOOLS_DIR X) st) as R1.
  unfold Mp3Vosk.make_cache_dirs, bind.
  destruct (mkdir X (Mp3Vosk.TOOLS_DIR X) st) as [[[[]|e1] s1] t1] eqn:M1.
  - pose proof (mkdir_raises (Mp3Vosk.MODELS_DIR X) s1) as R2.
    rewrite (blocked_across_mkdir _ (at_ X (Mp3Vosk.MODELS_DIR X)) _ _ _ M1).
    destruct (mkdir X (Mp3Vosk.MODELS_DIR X) s1) as [[r2 s2] t2].
    rewrite R2. split; [now right|].
    intros [B|B]; [|exact B].
    apply R1 in B. destruct B as [e B]. discriminate B.
  - split; [intros _; left; apply R1 | intros _]; exists e1; reflexivity.
Qed.

(** X4.  A regular file at a cache directory that [main] makes outside
    its [try] blocks, or on the way to it ([tools/ffmpeg] in the first
    script, [tools] or [models] in the second), ends the run: once the
    import of [requests] has gone through and the input file is there,
    the directory-making call raises, nothing catches it, the run ends in
    the state that call left, having printed only its first line after
    the import (no request, no extraction, no program started), and the
    interpreter exits with status 1. *)
Theorem a_file_in_the_way_ends_the_run (st s0 : State) (t0 : list event) :
  ensure_requests X st = (Ok tt, s0, t0) ->
  (exists_ (at_ X (Mp4ToMp3.input_mp4 X)) (fs s0) = true ->
   blocked (at_ X (Mp4ToMp3.FFMPEG_ROOT X)) (fs s0) ->
   exists e,
     res (Mp4ToMp3.ensure_dirs X s0) = Raise e
     /\ Mp4ToMp3.script X st
        = (Raise e, final (Mp4ToMp3.ensure_dirs X s0),
           t0 ++ [Log ("Conversor MP4 a MP3 (FFmpeg port"
                       ++ Mp4ToMp3.a_acute ++ "til)")%string])
     /\ exit_status (Mp4ToMp3.script X st) = 1%Z)
  /\
  (exists_ (at_ X Mp3Vosk.mp3_path) (fs s0) = true ->
   blocked (at_ X (Mp3Vosk.TOOLS_DIR X)) (fs s0)
   \/ blocked (at_ X (Mp3Vosk.MODELS_DIR X)) (fs s0) ->
   exists e,
     res (Mp3Vosk.make_cache_dirs X s0) = Raise e
     /\ Mp3Vosk.script X st
        = (Raise e, final (Mp3Vosk.make_cache_dirs X s0),
           t0 ++ [Log "Transcriptor offline Vosk - Espanol"])
     /\ exit_status (Mp3Vosk.script X st) = 1%Z).
Proof.
  intros I. split.
  - intros Hin B. apply ensure_dirs_raises in B. destruct B as [e He].
    exists e. split; [exact He|].
    assert (S0 : events (Mp4ToMp3.ensure_dirs X s0) = []).
    { unfold Mp4ToMp3.ensure_dirs, bind.
      destruct (mkdir X (Mp4ToMp3.TOOLS_DIR X) s0) as [[r1 s1] t1] eqn:M1.
      destruct (mkdir_outcome X _ _ _ _ _ M1) as [_ ->].
      destruct r1 as [[]|e1]; [|reflexivity].
      destruct (mkdir X (Mp4ToMp3.FFMPEG_ROOT X) s1) as [[r2 s2] t2] eqn:M2.
      destruct (mkdir_outcome X _ _ _ _ _ M2) as [_ ->]. reflexivity. }
    assert (M : Mp4ToMp3.main X s0
                = (Raise e, final (Mp4ToMp3.ensure_dirs X s0),
                   [Log ("Conversor MP4 a MP3 (FFmpeg port"
                         ++ Mp4ToMp3.a_acute ++ "til)")%string])).
    { unfold Mp4ToMp3.main, bind, log, emit, path_exists, fs_read.
      rewrite Hin. cbn [negb]. cbv beta iota.
      destruct (Mp4ToMp3.ensure_dirs X s0) as [[rd sd] td].
      unfold res in He. cbn [fst events snd final] in *. subst rd td.
      reflexivity. }
    unfold Mp4ToMp3.script, exit_status.
    rewrite (script_outcome X _ st s0 t0 I), M. split; reflexivity.
  - intros Hin B. apply make_cache_dirs_raises in B. destruct B as [e He].
    exists e. split; [exact He|].
    assert (S0 : events (Mp3Vosk.make_cache_dirs X s0) = []).
    { unfold Mp3Vosk.make_cache_dirs, bind.
      destruct (mkdir X (Mp3Vosk.TOOLS_DIR X) s0) as [[r1 s1] t1] eqn:M1.
      destruct (mkdir_outcome X _ _ _ _ _ M1) as [_ ->].
      destruct r1 as [[]|e1]; [|reflexivity].
      destruct (mkdir X (Mp3Vosk.MODELS_DIR X) s1) as [[r2 s2] t2] eqn:M2.
      destruct (mkdir_outcome X _ _ _ _ _ M2) as [_ ->]. reflexivity. }
    assert (M : Mp3Vosk.main X s0
                = (Raise e, final (Mp3Vosk.make_cache_dirs X s0),
                   [Log "Transcriptor offline Vosk - Espanol"])).
    { unfold Mp3Vosk.main, bind, log, emit, path_exists, fs_read.
      rewrite Hin. cbn [negb]. cbv beta iota.
      destruct (Mp3Vosk.make_cache_dirs X s0) as [[rd sd] td].
      unfold res in He. cbn [fst events snd final] in *. subst rd td.
      reflexivity. }
    unfold Mp3Vosk.script, exit_status.
    rewrite (script_outcome X _ st s0 t0 I), M. split; reflexivity.
Qed.

End CacheDirectories.

(** ** The Vosk package *)

Section VoskPackage.

Variable X : Externals.

Let pip : list string :=
  [sys_executable X; "-m"; "pip"; "install"; "vosk"; "--quiet"].

(** X5.  [ensure_vosk_installed] starts pip exactly when [import vosk]
    fails, and at most once; it returns normally exactly when the import
    works or pip ends with status 0.  The import is not tried again after
    pip: when the package still cannot be imported, the transcription
    raises [ModuleNotFoundError] before it prints or loads anything. *)
Theorem ensure_vosk_installed_trusts_pip (st : State) :
  count is_run (events (Mp3Vosk.ensure_vosk_installed X st))
  = (if vosk_importable st then 0 else 1)
  /\ (vosk_importable st = true ->
      Mp3Vosk.ensure_vosk_installed X st = (Ok tt, st, []))
  /\ (res (Mp3Vosk.ensure_vosk_installed X st) = Ok tt <->
      vosk_importable st = true
      \/ exists so se st', subprocess_run X pip st = Completed 0 so se st')
  /\ (forall st1 t wav model_dir,
         Mp3Vosk.ensure_vosk_installed X st = (Ok tt, st1, t) ->
         vosk_importable st1 = false ->
         (exists so se, subprocess_run X pip st = Completed 0 so se st1)
         /\ Mp3Vosk.transcribe_with_vosk X wav model_dir st1
            = (Raise (OtherError "ModuleNotFoundError" "No module named 'vosk'"),
               st1, [])).
Proof.
  unfold Mp3Vosk.ensure_vosk_installed, Mp3Vosk.import_vosk, run. run_py.
  fold pip. destruct (vosk_importable st) eqn:V; cbv beta iota.
  - split; [reflexivity|]. split; [reflexivity|]. split.
    + unfold res; cbn [fst]. split; auto.
    + intros st1 t wav md H. injection H as <- <-. congruence.
  - destruct (subprocess_run X pip st) as [rc so se st'|e] eqn:R; cbv beta iota.
    + cbn [returncode]. destruct (rc =? 0)%Z eqn:Z0; cbn [negb]; cbv beta iota.
      * apply Z.eqb_eq in Z0. subst rc.
        split; [reflexivity|]. split; [discriminate|]. split.
        -- unfold res; cbn [fst]. split; [intros _; right; eauto | reflexivity].
        -- intros st1 t wav md H V1. injection H as <- <-.
           split; [eauto|].
           unfold Mp3Vosk.transcribe_with_vosk, Mp3Vosk.import_vosk. run_py.
           now rewrite V1.
      * apply Z.eqb_neq in Z0.
        split; [reflexivity|]. split; [discriminate|]. split.
        -- unfold res; cbn [fst]. split; [discriminate|].
           intros [K|(so' & se' & st'' & K)]; [discriminate|].
           injection K as K _ _ _. congruence.
        -- intros st1 t wav md H. discriminate H.
    + split; [reflexivity|]. split; [discriminate|]. split.
      * unfold res; cbn [fst]. split; [discriminate|].
        intros [K|(so' & se' & st'' & K)]; discriminate.
      * intros st1 t wav md H. discriminate H.
Qed.

End VoskPackage.

(** ** The first script's conversion *)

Module SuffixFacts.

Import PyStr.
Local Open Scope string_scope.

Lemma length_append a b : String.length (a ++ b) = String.length a + String.length b.
Proof. induction a as [|c a IH]; simpl; [reflexivity | now rewrite IH]. Qed.

Lemma rfind_dot_last stem ext :
  rfind_dot ext = None ->
  rfind_dot (stem ++ "." ++ ext) = Some (String.length stem).
Proof.
  intros H. induction stem as [|c r IH]; simpl.
  - now rewrite H.
  - simpl in IH. now rewrite IH.
Qed.

Lemma substring_prefix a b : substring 0 (String.length a) (a ++ b) = a.
Proof.
  induction a as [|c a IH]; simpl.
  - now destruct b.
  - now rewrite IH.
Qed.

(** [stem.ext] loses its suffix. *)
Lemma drop_suffix_stem stem ext :
  stem <> EmptyString -> ext <> EmptyString -> rfind_dot ext = None ->
  Py.drop_suffix (stem ++ "." ++ ext) = stem.
Proof.
  intros Hs He Hd. unfold Py.drop_suffix. rewrite (rfind_dot_last _ _ Hd).
  rewrite length_append. simpl String.length.
  assert (L1 : 0 < String.length stem) by (destruct stem; [congruence | simpl; lia]).
  assert (L2 : 0 < String.length ext) by (destruct ext; [congruence | simpl; lia]).
  replace ((0 <? String.length stem)
           && (String.length stem <? String.length stem + S (String.length ext) - 1))%nat
    with true.
  - apply substring_prefix.
  - symmetry. apply andb_true_iff. split; apply Nat.ltb_lt; lia.
Qed.

(** A name that starts with its only dot, or has none, keeps all of it. *)
Lemma drop_suffix_none nm :
  rfind_dot nm = None \/ rfind_dot nm = Some 0 -> Py.drop_suffix nm = nm.
Proof.
  unfold Py.drop_suffix. intros [-> | ->]; reflexivity.
Qed.

End SuffixFacts.

Section Mp4Conversion.

Variable X : Externals.

(** Lines 73-74 on a path with a last component. *)
Lemma replace_suffix_child (dir : Path) (nm ext : string) :
  replace_suffix (child dir nm) ext
  = inr (child dir (drop_suffix nm ++ ext)).
Proof.
  unfold replace_suffix, child, name. cbn [parts anchored].
  destruct (parts dir ++ [nm]) eqn:E; [destruct (parts dir); discriminate|].
  rewrite <- E. now rewrite removelast_last, last_last.
Qed.

(** The MP3 that the first script names is the one the second script
    looks for. *)
Lemma output_is_the_next_input (out : Path) :
  replace_suffix (Mp4ToMp3.input_mp4 X) ".mp3" = inr out ->
  at_ X out = at_ X Mp3Vosk.mp3_path.
Proof.
  unfold Mp4ToMp3.input_mp4. rewrite replace_suffix_child.
  intros H. injection H as <-.
  replace (drop_suffix Mp4ToMp3.VIDEO_FILE) with Mp3Vosk.VIDEO_STEM
    by (vm_compute; reflexivity).
  reflexivity.
Qed.

(** What [convert_mp4_to_mp3] returns was named on line 74 and found on
    line 90. *)
Lemma convert_mp4_to_mp3_made (st st1 : State) (input exe out : Path) t :
  Mp4ToMp3.convert_mp4_to_mp3 X input exe st = (Ok out, st1, t) ->
  replace_suffix input ".mp3" = inr out
  /\ exists_ (at_ X out) (fs st1) = true.
Proof.
  intros H.
  destruct (exists_ (at_ X input) (fs st)) eqn:Hin.
  - destruct (replace_suffix input ".mp3") as [e|out'] eqn:Hout.
    + revert H. unfold Mp4ToMp3.convert_mp4_to_mp3. run_py.
      rewrite Hin, Hout. cbn. discriminate.
    + rewrite (convert_mp4_to_mp3_runs X st input exe out' Hin Hout) in H.
      destruct (subprocess_run X _ st) as [rc so se st'|e]; [|discriminate].
      destruct (rc =? 0)%Z; [|discriminate].
      destruct (exists_ (at_ X out') (fs st')) eqn:Hmade; [|discriminate].
      injection H as <- <- _. auto.
  - revert H. unfold Mp4ToMp3.convert_mp4_to_mp3. run_py.
    rewrite Hin. cbn. discriminate.
Qed.

(** X6.  The output of [convert_mp4_to_mp3] is named after its input, in
    the same directory: [stem.ext] gives [stem.mp3], where [ext] has no
    dot and [stem] may have some, so that only the last suffix is
    replaced; a name without a dot, or whose only dot comes first, gets
    [.mp3] appended. *)
Theorem output_name_replaces_the_last_suffix (dir : Path) (stem ext : string) :
  stem <> EmptyString -> ext <> EmptyString -> PyStr.rfind_dot ext = None ->
  replace_suffix (child dir (stem ++ "." ++ ext)) ".mp3"
  = inr (child dir (stem ++ ".mp3"))
  /\ replace_suffix (child dir ext) ".mp3" = inr (child dir (ext ++ ".mp3"))
  /\ replace_suffix (child dir ("." ++ ext)) ".mp3"
     = inr (child dir ("." ++ ext ++ ".mp3")).
Proof.
  intros Hs He Hd. rewrite !replace_suffix_child. split; [|split].
  - now rewrite SuffixFacts.drop_suffix_stem.
  - rewrite SuffixFacts.drop_suffix_none; auto.
  - rewrite SuffixFacts.drop_suffix_none; [reflexivity|].
    right. simpl. now rewrite Hd.
Qed.

(** X7.  When [convert_mp4_to_mp3] returns a path, the input was there,
    FFmpeg has run exactly once and ended with status 0, the path is the
    input's with [.mp3] for its last suffix, and a file or directory
    exists at that path in the state reached. *)
Theorem convert_mp4_to_mp3_returns_an_existing_file
        (st st1 : State) (input exe out : Path) (t : list event) :
  Mp4ToMp3.convert_mp4_to_mp3 X input exe st = (Ok out, st1, t) ->
  exists_ (at_ X input) (fs st) = true
  /\ replace_suffix input ".mp3" = inr out
  /\ exists_ (at_ X out) (fs st1) = true
  /\ (exists so se,
        subprocess_run X (Mp4ToMp3.ffmpeg_cmd X exe input out) st
        = Completed 0 so se st1)
  /\ t = [ Log Mp4ToMp3.msg_starting; Run (Mp4ToMp3.ffmpeg_cmd X exe input out);
           Log Mp4ToMp3.msg_done ].
Proof.
  intros H.
  destruct (exists_ (at_ X input) (fs st)) eqn:Hin.
  - destruct (replace_suffix input ".mp3") as [e|out'] eqn:Hout.
    + revert H. unfold Mp4ToMp3.convert_mp4_to_mp3. run_py.
      rewrite Hin, Hout. cbn. discriminate.
    + rewrite (convert_mp4_to_mp3_runs X st input exe out' Hin Hout) in H.
      destruct (subprocess_run X _ st) as [rc so se st'|e] eqn:R; [|discriminate].
      destruct (rc =? 0)%Z eqn:Z0; [|discriminate].
      destruct (exists_ (at_ X out') (fs st')) eqn:Hmade; [|discriminate].
      injection H as <- <- <-. apply Z.eqb_eq in Z0. subst rc.
      repeat split; eauto.
  - revert H. unfold Mp4ToMp3.convert_mp4_to_mp3. run_py.
    rewrite Hin. cbn. discriminate.
Qed.

End Mp4Conversion.

(** ** What the provisioners return *)

Section ProvisionerResults.

Variable X : Externals.

Let ROOT : Path := Mp4ToMp3.FFMPEG_ROOT X.
Let MODELS : Path := Mp3Vosk.MODELS_DIR X.
Let MODEL : Path := Mp3Vosk.VOSK_MODEL_DIR X.

(** Whatever [ensure_ffmpeg] returns is the first [ffmpeg.exe] of the walk
    in the state it reaches. *)
Lemma ensure_ffmpeg_result (msg : string) (st st1 : State) (exe : Path) t :
  Mp4ToMp3.first_ffmpeg X
    (_ <- Mp4ToMp3.fetch_and_extract_ffmpeg X ;;
     Mp4ToMp3.first_ffmpeg X (raise (FileNotFoundError msg))) st = (Ok exe, st1, t) ->
  exists q rest,
    FS.rglob (at_ X ROOT) "ffmpeg.exe" (fs st1) = q :: rest
    /\ exe = below X ROOT q.
Proof.
  destruct (FS.rglob (at_ X ROOT) "ffmpeg.exe" (fs st)) as [|q rest] eqn:R.
  - rewrite (first_ffmpeg_miss X st _ R). unfold bind.
    destruct (Mp4ToMp3.fetch_and_extract_ffmpeg X st) as [[[[]|e] s1] t1];
      [|discriminate].
    destruct (FS.rglob (at_ X ROOT) "ffmpeg.exe" (fs s1)) as [|q rest] eqn:R1.
    + rewrite (first_ffmpeg_miss X s1 _ R1). discriminate.
    + rewrite (first_ffmpeg_hit X s1 q rest _ R1).
      intros H. injection H as <- <- _. eauto.
  - rewrite (first_ffmpeg_hit X st q rest _ R).
    intros H. injection H as <- <- _. eauto.
Qed.

Lemma ensure_ffmpeg_again (msg : string) (st st1 : State) (exe : Path) t :
  Mp4ToMp3.first_ffmpeg X
    (_ <- Mp4ToMp3.fetch_and_extract_ffmpeg X ;;
     Mp4ToMp3.first_ffmpeg X (raise (FileNotFoundError msg))) st = (Ok exe, st1, t) ->
  (exists d, exe = mkPath true (parts ROOT ++ d ++ ["ffmpeg.exe"]))
  /\ exists_ (at_ X exe) (fs st1) = true
  /\ extends st st1
  /\ Mp4ToMp3.first_ffmpeg X
       (_ <- Mp4ToMp3.fetch_and_extract_ffmpeg X ;;
        Mp4ToMp3.first_ffmpeg X (raise (FileNotFoundError msg))) st1
     = (Ok exe, st1, [Log ("FFmpeg localizado: " ++ str X exe)%string]).
Proof.
  intros H.
  pose proof (ensure_ffmpeg_extends X msg st _ st1 t H) as G.
  destruct (ensure_ffmpeg_result msg st st1 exe t H) as (q & rest & R & ->).
  assert (Hq : In q (FS.rglob (at_ X ROOT) "ffmpeg.exe" (fs st1)))
    by (rewrite R; now left).
  apply FSFacts.rglob_spec in Hq. destruct Hq as (d & -> & Hex).
  split; [|split; [|split]].
  - exists d. now apply below_anchored.
  - now rewrite at_below.
  - exact G.
  - apply (first_ffmpeg_hit X st1 _ rest _ R).
Qed.

(** X8.  Whatever [ensure_ffmpeg] returns, in either script, cached or
    just extracted, is a path named [ffmpeg.exe] below [tools/ffmpeg]
    that exists in the state reached; every path that was on disk is
    still there, as a file or as a directory as before (what a file holds
    can have been overwritten by the extraction); and a second call in
    that state returns the same path after one printed line, with no
    download, no extraction and no change of state. *)
Theorem ensure_ffmpeg_returns_an_existing_executable
        (st st1 : State) (exe : Path) (t : list event) :
  (Mp4ToMp3.ensure_ffmpeg X st = (Ok exe, st1, t) ->
   (exists d, exe = mkPath true (parts ROOT ++ d ++ ["ffmpeg.exe"]))
   /\ exists_ (at_ X exe) (fs st1) = true
   /\ extends st st1
   /\ Mp4ToMp3.ensure_ffmpeg X st1
      = (Ok exe, st1, [Log ("FFmpeg localizado: " ++ str X exe)%string]))
  /\
  (Mp3Vosk.ensure_ffmpeg X st = (Ok exe, st1, t) ->
   (exists d, exe = mkPath true (parts ROOT ++ d ++ ["ffmpeg.exe"]))
   /\ exists_ (at_ X exe) (fs st1) = true
   /\ extends st st1
   /\ Mp3Vosk.ensure_ffmpeg X st1
      = (Ok exe, st1, [Log ("FFmpeg localizado: " ++ str X exe)%string])).
Proof.
  split.
  - exact (ensure_ffmpeg_again Mp4ToMp3.msg_ffmpeg_not_found st st1 exe t).
  - exact (ensure_ffmpeg_again Mp3Vosk.msg_ffmpeg_not_found st st1 exe t).
Qed.

(** The guard of line 114, by what is at the model directory's path. *)
Lemma model_ready_cases (st : State) :
  Mp3Vosk.model_ready X st
  = (match lookup (at_ X MODEL) (fs st) with
     | None | Some (Dir []) => Ok false
     | Some (Dir (_ :: _)) => Ok true
     | Some (File _) =>
         Raise (named (str X MODEL)
                      (NotADirectoryError "[Errno 20] Not a directory"))
     end, st, []).
Proof.
  unfold Mp3Vosk.model_ready, Mp3Vosk.iterdir. run_py. fold MODEL.
  unfold exists_, FS.iterdir.
  destruct (lookup (at_ X MODEL) (fs st)) as [[c|[|[k v] es]]|] eqn:L;
    cbv beta iota; rewrite ?L; reflexivity.
Qed.

(** The second search of [ensure_vosk_model] prints nothing and keeps the
    state; what it returns exists. *)
Lemma locate_model_result (st : State) :
  is_dir (at_ X MODELS) (fs st) = true ->
  exists r,
    Mp3Vosk.locate_model X st = (r, st, [])
    /\ forall d, r = Ok d ->
         exists_ (at_ X d) (fs st) = true
         /\ (d = MODEL
             \/ exists k, d = child MODELS k
                  /\ PyStr.startswith "vosk-model-small-es" k = true
                  /\ is_dir (at_ X d) (fs st) = true).
Proof.
  unfold is_dir. intros HM.
  destruct (lookup (at_ X MODELS) (fs st)) as [[c|es]|] eqn:L; try discriminate.
  rewrite (locate_model_outcome X st es L). eexists. split; [reflexivity|].
  intros d Hd. fold MODEL in Hd. fold MODELS in Hd.
  destruct (exists_ (at_ X MODEL) (fs st)) eqn:E.
  - injection Hd as <-. split; [exact E | now left].
  - destruct (find Mp3Vosk.similar_name (listing [] es)) as [[k v]|] eqn:F;
      [|discriminate].
    injection Hd as <-. apply find_some in F. destruct F as [Hin Hs].
    apply FSFacts.listing_assoc in Hin. destruct Hin as [_ A].
    unfold Mp3Vosk.similar_name in Hs. cbn [fst snd] in Hs.
    apply andb_true_iff in Hs. destruct Hs as [Hd Hn].
    assert (Lk : lookup (at_ X (child MODELS k)) (fs st) = Some v).
    { change (at_ X (child MODELS k)) with (at_ X MODELS ++ [k]).
      rewrite FSFacts.lookup_app, L. cbn. now rewrite A. }
    split.
    + unfold exists_. now rewrite Lk.
    + right. exists k. split; [reflexivity|]. split; [exact Hn|].
      unfold is_dir. rewrite Lk. now destruct v.
Qed.

(** X9.  Whatever [ensure_vosk_model] returns exists in the state
    reached, and is the model directory or a directory of [models] whose
    name starts with [vosk-model-small-es]; every path that was on disk
    is still there, as a file or as a directory as before (what a file
    holds can have been overwritten by the extraction); and a further call
    in that state never asks the network. *)
Theorem ensure_vosk_model_returns_an_existing_path
        (st st1 : State) (d : Path) (t : list event) :
  Mp3Vosk.ensure_vosk_model X st = (Ok d, st1, t) ->
  exists_ (at_ X d) (fs st1) = true
  /\ (d = MODEL
      \/ exists k, d = child MODELS k
           /\ PyStr.startswith "vosk-model-small-es" k = true
           /\ is_dir (at_ X d) (fs st1) = true)
  /\ extends st st1
  /\ count is_http (events (Mp3Vosk.ensure_vosk_model X st1)) = 0.
Proof.
  assert (Again : forall s, exists_ (at_ X (Mp3Vosk.VOSK_MODEL_ZIP X)) (fs s) = true ->
            count is_http (events (Mp3Vosk.ensure_vosk_model X s)) = 0).
  { intros s Hz. unfold Mp3Vosk.ensure_vosk_model. unfold bind at 1.
    rewrite (model_ready_cases s).
    destruct (lookup (at_ X MODEL) (fs s)) as [[c|[|[k v] es]]|];
      cbv beta iota; try reflexivity.
    all: unfold bind;
      destruct (Mp3Vosk.fetch_and_extract_model X s) as [[r2 s2] t2] eqn:F2;
      pose proof (fetch_and_extract_outcome X _ _ _ _ s r2 s2 t2 F2)
        as (_ & Hh & _ & Hok);
      rewrite Hz in Hh;
      destruct r2 as [[]|e2]; cbn [events snd app]; [|exact Hh];
      destruct (Hok tt eq_refl) as [_ Hz2];
      apply (FSFacts.exists_parent_is_dir (at_ X MODELS)) in Hz2;
      destruct (locate_model_result s2 Hz2) as (r & -> & _);
      cbn [app]; now rewrite app_nil_r. }
  unfold Mp3Vosk.ensure_vosk_model. unfold bind at 1.
  rewrite (model_ready_cases st).
  destruct (lookup (at_ X MODEL) (fs st)) as [[c|[|[k v] es]]|] eqn:L;
    cbv beta iota; try discriminate.
  - (* the directory is there, empty *)
    unfold bind.
    destruct (Mp3Vosk.fetch_and_extract_model X st) as [[r1 s1] t1] eqn:F.
    pose proof (fetch_and_extract_outcome X _ _ _ _ st r1 s1 t1 F)
      as (G & _ & _ & Hok).
    destruct r1 as [[]|e1]; [|discriminate].
    destruct (Hok tt eq_refl) as [_ Hz].
    pose proof (FSFacts.exists_parent_is_dir (at_ X MODELS) _ _ Hz) as HM.
    destruct (locate_model_result s1 HM) as (r & -> & Hr).
    intros H. injection H as -> <- _.
    destruct (Hr d eq_refl) as [E K].
    split; [exact E|]. split; [exact K|]. split; [exact G|]. now apply Again.
  - (* the directory is there, with something in it *)
    intros H. unfold log, emit, ret, bind in H. injection H as <- <- _.
    split; [unfold exists_; fold MODEL; now rewrite L|].
    split; [now left|]. split; [apply extends_refl|].
    unfold Mp3Vosk.ensure_vosk_model. unfold bind at 1.
    rewrite (model_ready_cases st), L. reflexivity.
  - (* nothing is there *)
    unfold bind.
    destruct (Mp3Vosk.fetch_and_extract_model X st) as [[r1 s1] t1] eqn:F.
    pose proof (fetch_and_extract_outcome X _ _ _ _ st r1 s1 t1 F)
      as (G & _ & _ & Hok).
    destruct r1 as [[]|e1]; [|discriminate].
    destruct (Hok tt eq_refl) as [_ Hz].
    pose proof (FSFacts.exists_parent_is_dir (at_ X MODELS) _ _ Hz) as HM.
    destruct (locate_model_result s1 HM) as (r & -> & Hr).
    intros H. injection H as -> <- _.
    destruct (Hr d eq_refl) as [E K].
    split; [exact E|]. split; [exact K|]. split; [exact G|]. now apply Again.
Qed.

(** X10.  The test after the extraction is weaker than the one before it:
    a model directory that exists and is empty sends [ensure_vosk_model]
    to the archive, and once the archive has been fetched and extracted
    the function returns that directory, whether or not the archive has
    put anything into it. *)
Theorem empty_model_directory_is_returned_unchecked
        (st st1 : State) (t1 : list event) :
  lookup (at_ X MODEL) (fs st) = Some (Dir []) ->
  Mp3Vosk.fetch_and_extract_model X st = (Ok tt, st1, t1) ->
  Mp3Vosk.ensure_vosk_model X st = (Ok MODEL, st1, t1).
Proof.
  intros L F.
  pose proof (fetch_and_extract_outcome X _ _ _ _ st _ st1 t1 F) as ([G _] & _).
  unfold Mp3Vosk.ensure_vosk_model. unfold bind at 1.
  rewrite (model_ready_cases st), L. cbv beta iota.
  unfold bind. rewrite F.
  unfold Mp3Vosk.locate_model. run_py. fold MODEL.
  assert (E : exists_ (at_ X MODEL) (fs st1) = true).
  { eapply FSFacts.grows_exists; [exact G|]. unfold exists_. now rewrite L. }
  rewrite E. now rewrite app_nil_r.
Qed.

End ProvisionerResults.

(** ** The text and the recognizer *)

Section TranscriptText.

Import TranscriptSpec.

Lemma pieces_nil l :
  pieces l = [] <-> Forall (fun x => PyStr.strip x = EmptyString) l.
Proof.
  unfold pieces. induction l as [|x l IH]; simpl.
  - split; auto.
  - destruct (PyStr.strip x) eqn:S; simpl.
    + rewrite IH. split; [intros H; constructor; auto|].
      intros H. now inversion H.
    + split; [discriminate|]. intros H. inversion H. congruence.
Qed.

Lemma pieces_app a b : pieces (a ++ b) = pieces a ++ pieces b.
Proof. unfold pieces. now rewrite map_app, filter_app. Qed.

(** X11.  The text that [transcribe_with_vosk] builds from the collected
    segments is empty, so that [main] prints its warning, exactly when
    every segment is blank; blank segments never change the text, and a
    single segment gives its trimmed text. *)
Theorem text_is_empty_exactly_when_every_segment_is_blank (results : list string) :
  (PyStr.truthy (Mp3Vosk.assemble results) = false
   <-> Forall (fun x => PyStr.strip x = EmptyString) results)
  /\ (forall before x after,
         results = before ++ x :: after -> PyStr.strip x = EmptyString ->
         Mp3Vosk.assemble results = Mp3Vosk.assemble (before ++ after))
  /\ (forall x, results = [x] -> Mp3Vosk.assemble results = PyStr.strip x).
Proof.
  split; [|split].
  - rewrite TranscriptFacts.assemble_pieces, <- pieces_nil.
    destruct (pieces results) as [|p ps] eqn:P.
    + split; reflexivity.
    + split; [|discriminate]. intros H. exfalso.
      pose proof (TranscriptFacts.pieces_clean results) as C. rewrite P in C.
      destruct (PyStrFacts.join_trimmed _ C) as [_ N].
      apply N; [discriminate|].
      destruct (PyStr.join " " (p :: ps)); [reflexivity | discriminate].
  - intros before x after -> Hx.
    rewrite !TranscriptFacts.assemble_pieces, !pieces_app.
    change (x :: after) with ([x] ++ after). rewrite pieces_app.
    unfold pieces at 2. simpl. now rewrite Hx.
  - intros x ->. rewrite TranscriptFacts.assemble_pieces. unfold pieces. simpl.
    destruct (PyStr.strip x); reflexivity.
Qed.

End TranscriptText.

Section RecognizerFailure.

Variable X : Externals.

Import TranscriptSpec.

(** The loop of the script when the recognizer fails on some read: the
    failing read is the last thing done. *)
Lemma read_loop_fails nbytes todo rec results : forall e,
  segments X rec (chunks nbytes todo) = inl e ->
  exists before data after,
    chunks nbytes todo = before ++ data :: after
    /\ Mp3Vosk.read_loop X nbytes todo rec results
       = (Raise e,
          flat_map (fun d => [ReadFrames 4000; Feed d]) before
          ++ [ReadFrames 4000; Feed data]).
Proof.
  funelim (Mp3Vosk.read_loop X nbytes todo rec results); intros err Hseg;
    rewrite TranscriptFacts.chunks_unfold in Hseg |- *;
    match goal with
    | E : firstn _ _ = _ |- _ => rewrite E in *
    end; simpl in Hseg.
  - discriminate.
  - rewrite Heq0 in Hseg. injection Hseg as <-.
    exists [], (b :: bs), (chunks nbytes (skipn nbytes todo)). split; reflexivity.
  - rewrite Heq0 in Hseg. simpl in Hseg.
    destruct (segments X _ _) as [err'|[ts r3]] eqn:E; [|discriminate].
    injection Hseg as <-.
    destruct (H err' eq_refl) as (before & data & after & Hc & Hl).
    exists ((b :: bs) :: before), data, after. split.
    + now rewrite Hc.
    + rewrite Hl. reflexivity.
  - rewrite Heq0 in Hseg. simpl in Hseg.
    destruct (segments X _ _) as [err'|[ts r3]] eqn:E; [|discriminate].
    injection Hseg as <-.
    destruct (H err' eq_refl) as (before & data & after & Hc & Hl).
    exists ((b :: bs) :: before), data, after. split.
    + now rewrite Hc.
    + rewrite Hl. reflexivity.
Qed.

(** X12.  When the recognizer fails on some read of a well-formed WAV,
    [transcribe_with_vosk] raises that failure right after feeding the
    read: no later read is made, the text of the segments collected so
    far is dropped, and the transcription stage of [main] ends there,
    without the warning and without writing the transcript file. *)
Theorem recognizer_failure_drops_the_transcript
        (st : State) (model_dir : Path) model (content : string)
        (wf : wave_read) (e : exn) :
  vosk_importable st = true ->
  vosk_Model X (fs st) (at_ X model_dir) = inr model ->
  read_file (at_ X (Mp3Vosk.WAV_FILE X)) (fs st) = inr content ->
  wave_open X content = inr wf ->
  nchannels wf = 1%Z -> sampwidth wf = 2%Z -> framerate wf = 16000%Z ->
  segments X (SetWords X (KaldiRecognizer X model 16000) true)
           (chunks (Z.to_nat 8000) (frames wf)) = inl e ->
  exists before data after,
    chunks (Z.to_nat 8000) (frames wf) = before ++ data :: after
    /\ Mp3Vosk.transcribe_with_vosk X (Mp3Vosk.WAV_FILE X) model_dir st
       = (Raise e, st,
          Log Mp3Vosk.msg_loading
          :: flat_map (fun d => [ReadFrames 4000; Feed d]) before
          ++ [ReadFrames 4000; Feed data])
    /\ Mp3Vosk.transcribe_and_save X model_dir st
       = (Raise e, st,
          Log Mp3Vosk.msg_loading
          :: flat_map (fun d => [ReadFrames 4000; Feed d]) before
          ++ [ReadFrames 4000; Feed data]).
Proof.
  intros Himp Hmodel Hread Hwave Hch Hsw Hfr Hseg.
  destruct (read_loop_fails (Z.to_nat 8000) (frames wf) _ [] e Hseg)
    as (before & data & after & Hc & Hl).
  exists before, data, after. split; [exact Hc|].
  assert (T : Mp3Vosk.transcribe_with_vosk X (Mp3Vosk.WAV_FILE X) model_dir st
              = (Raise e, st,
                 Log Mp3Vosk.msg_loading
                 :: flat_map (fun d => [ReadFrames 4000; Feed d]) before
                 ++ [ReadFrames 4000; Feed data])).
  { rewrite (transcribe_with_vosk_opens X st _ model_dir model content wf); auto.
    rewrite Hch, Hsw, Hfr. cbn [Z.eqb Pos.eqb negb orb].
    unfold Mp3Vosk.frame_bytes. rewrite Hch, Hsw.
    change (4000 * 1 * 2)%Z with 8000%Z.
    rewrite Hl. reflexivity. }
  split; [exact T|].
  unfold Mp3Vosk.transcribe_and_save. unfold bind at 1. now rewrite T.
Qed.

End RecognizerFailure.

(** ** The two [main]s, end to end *)

Section Pipelines.

Variable X : Externals.

Lemma last_event_snoc (t : list event) (ev : event) :
  last_event (t ++ [ev]) = Some ev.
Proof. unfold last_event. now rewrite rev_app_distr. Qed.

Lemma mkdir_silent (p : Path) (st : State) : events (mkdir X p st) = [].
Proof.
  unfold mkdir, fs_update, os_call. now destruct (mkdir_p (at_ X p) (fs st)).
Qed.

Lemma ensure_dirs_silent (st : State) : events (Mp4ToMp3.ensure_dirs X st) = [].
Proof.
  unfold Mp4ToMp3.ensure_dirs, bind.
  pose proof (mkdir_silent (Mp4ToMp3.TOOLS_DIR X) st) as S1.
  destruct (mkdir X (Mp4ToMp3.TOOLS_DIR X) st) as [[[[]|e1] s1] t1];
    cbn [events snd] in S1; subst t1; [|reflexivity].
  pose proof (mkdir_silent (Mp4ToMp3.FFMPEG_ROOT X) s1) as S2.
  destruct (mkdir X (Mp4ToMp3.FFMPEG_ROOT X) s1) as [[r2 s2] t2].
  cbn [events snd] in S2. now subst t2.
Qed.

Lemma make_cache_dirs_silent (st : State) :
  events (Mp3Vosk.make_cache_dirs X st) = [].
Proof.
  unfold Mp3Vosk.make_cache_dirs, bind.
  pose proof (mkdir_silent (Mp3Vosk.TOOLS_DIR X) st) as S1.
  destruct (mkdir X (Mp3Vosk.TOOLS_DIR X) st) as [[[[]|e1] s1] t1];
    cbn [events snd] in S1; subst t1; [|reflexivity].
  pose proof (mkdir_silent (Mp3Vosk.MODELS_DIR X) s1) as S2.
  destruct (mkdir X (Mp3Vosk.MODELS_DIR X) s1) as [[r2 s2] t2].
  cbn [events snd] in S2. now subst t2.
Qed.

(** The run ended on another line than the one claimed. *)
Ltac other_last_line H :=
  exfalso; cbn [events snd] in H; rewrite ?app_nil_r in H;
  first [ rewrite ?app_assoc in H; rewrite last_event_snoc in H
        | unfold last_event in H; cbn [rev app] in H ];
  injection H as H; cbn in H; discriminate H.

(** X13.  When the first script ends by printing "Proceso finalizado",
    [main] has returned normally and the MP3 exists in the state reached,
    at the very path where the second script looks for its input. *)
Theorem finished_means_the_mp3_is_there (st : State) :
  last_event (events (Mp4ToMp3.main X st)) = Some (Log "Proceso finalizado") ->
  res (Mp4ToMp3.main X st) = Ok tt
  /\ exists_ (at_ X (Mp4ToMp3.input_mp4 X)) (fs st) = true
  /\ exists_ (at_ X Mp3Vosk.mp3_path) (fs (final (Mp4ToMp3.main X st))) = true.
Proof.
  pose proof (ensure_dirs_silent st) as S0.
  unfold Mp4ToMp3.main. run_py.
  destruct (exists_ (at_ X (Mp4ToMp3.input_mp4 X)) (fs st)) eqn:Hin;
    cbn [negb]; cbv beta iota.
  - destruct (Mp4ToMp3.ensure_dirs X st) as [[[[]|e0] s0] t0];
      cbn [events snd] in S0; subst t0; cbv beta iota.
    + destruct (Mp4ToMp3.ensure_ffmpeg X s0) as [[[exe|e1] s1] t1]; cbv beta iota.
      * destruct (Mp4ToMp3.convert_mp4_to_mp3 X _ exe s1) as [[[out|e2] s2] t2] eqn:C;
          cbv beta iota.
        -- intros _. unfold res, final. cbn [fst snd].
           split; [reflexivity|]. split; [reflexivity|].
           destruct (convert_mp4_to_mp3_made X _ _ _ _ _ _ C) as [N M].
           now rewrite <- (output_is_the_next_input X out N).
        -- intros H. other_last_line H.
      * intros H. other_last_line H.
    + intros H. other_last_line H.
  - intros H. other_last_line H.
Qed.

(** The text that [transcribe_with_vosk] returns was built by its last
    line. *)
Lemma transcribe_with_vosk_text (st st1 : State) (wav model_dir : Path) text t1 :
  Mp3Vosk.transcribe_with_vosk X wav model_dir st = (Ok text, st1, t1) ->
  PyStr.trimmed text.
Proof.
  unfold Mp3Vosk.transcribe_with_vosk, Mp3Vosk.import_vosk. run_py.
  destruct (vosk_importable st); cbn; [|discriminate].
  destruct (vosk_Model X (fs st) _); cbn; [discriminate|].
  destruct (read_file (at_ X wav) (fs st)) as [e|content]; cbn; [discriminate|].
  destruct (wave_open X content) as [e|wf]; cbn; [discriminate|].
  destruct (negb (nchannels wf =? 1)%Z || negb (sampwidth wf =? 2)%Z
            || negb (framerate wf =? 16000)%Z); cbn; [discriminate|].
  destruct (Mp3Vosk.read_loop X _ _ _ _) as [[l|e] t]; cbn; [|discriminate].
  intros H. injection H as <- _ _. apply PyStrFacts.strip_trimmed.
Qed.

(** When the last [try] of the second [main] goes through, the file is
    written. *)
Lemma transcribe_and_save_wrote (st st1 : State) (model_dir : Path) t :
  Mp3Vosk.transcribe_and_save X model_dir st = (Ok tt, st1, t) ->
  exists text,
    read_file (at_ X (Mp3Vosk.OUTPUT_FILE X)) (fs st1)
    = inr (Mp3Vosk.banner ++ text ++ Mp3Vosk.nl)%string
    /\ PyStr.trimmed text.
Proof.
  unfold Mp3Vosk.transcribe_and_save. unfold bind at 1.
  destruct (Mp3Vosk.transcribe_with_vosk X _ model_dir st) as [[[text|e] s1] t1] eqn:T;
    [|discriminate].
  pose proof (transcribe_with_vosk_text _ _ _ _ _ _ T) as Tr.
  run_py.
  destruct (write_file (at_ X (Mp3Vosk.OUTPUT_FILE X))
                       (Mp3Vosk.banner ++ text ++ Mp3Vosk.nl)%string (fs s1))
    as [e|n'] eqn:W.
  - destruct (negb (PyStr.truthy text)); cbv beta iota; rewrite W; discriminate.
  - intros H. exists text. split; [|exact Tr].
    assert (E : fs st1 = n').
    { revert H. destruct (negb (PyStr.truthy text)); cbv beta iota; rewrite W;
        cbv beta iota; intros H; now injection H as <- _. }
    rewrite E. unfold read_file.
    now rewrite (FSFacts.write_file_lookup _ _ _ _ W).
Qed.

(** X14.  When the second script ends by printing "Proceso completado",
    [main] has returned normally and the transcript file holds, in the
    state reached, the banner, a text without whitespace at either end,
    and a newline. *)
Theorem completed_means_the_transcript_is_written (st : State) :
  last_event (events (Mp3Vosk.main X st)) = Some (Log "Proceso completado") ->
  res (Mp3Vosk.main X st) = Ok tt
  /\ exists text,
       read_file (at_ X (Mp3Vosk.OUTPUT_FILE X)) (fs (final (Mp3Vosk.main X st)))
       = inr (Mp3Vosk.banner ++ text ++ Mp3Vosk.nl)%string
       /\ PyStr.trimmed text.
Proof.
  pose proof (make_cache_dirs_silent st) as S0.
  unfold Mp3Vosk.main. run_py.
  destruct (exists_ (at_ X Mp3Vosk.mp3_path) (fs st)) eqn:Hin;
    cbn [negb]; cbv beta iota.
  - destruct (Mp3Vosk.make_cache_dirs X st) as [[[[]|e0] s0] t0];
      cbn [events snd] in S0; subst t0; cbv beta iota.
    + destruct (Mp3Vosk.ensure_ffmpeg X s0) as [[[exe|e1] s1] t1]; cbv beta iota.
      * destruct (Mp3Vosk.convert_mp3_to_wav X exe _ _ s1) as [[[[]|e2] s2] t2];
          cbv beta iota.
        -- destruct (Mp3Vosk.prepare_vosk X s2) as [[[md|e3] s3] t3]; cbv beta iota.
           ++ destruct (Mp3Vosk.transcribe_and_save X md s3) as [[[[]|e4] s4] t4] eqn:C4;
                cbv beta iota.
              ** intros _. unfold res, final. cbn [fst snd].
                 split; [reflexivity|].
                 exact (transcribe_and_save_wrote _ _ _ _ C4).
              ** intros H. other_last_line H.
           ++ intros H. other_last_line H.
        -- intros H. other_last_line H.
      * intros H. other_last_line H.
    + intros H. other_last_line H.
  - intros H. other_last_line H.
Qed.

End Pipelines.

(** ** The second script without [tools/ffmpeg] *)

Section MissingToolDirectory.

Variable X : Externals.

Let ROOT : Path := Mp3Vosk.FFMPEG_ROOT X.

Lemma mkdir_keeps_missing (p : Path) (q : FS.path) st st1 t :
  mkdir X p st = (Ok tt, st1, t) ->
  exists_ q (fs st) = false ->
  (forall r, at_ X p <> q ++ r) ->
  exists_ q (fs st1) = false.
Proof.
  unfold mkdir, fs_update, os_call.
  destruct (mkdir_p (at_ X p) (fs st)) as [e|n'] eqn:E; [discriminate|].
  intros H Hq Hp. injection H as <- _. cbn [fs with_fs].
  destruct (exists_ q n') eqn:Q; [|reflexivity].
  destruct (FSMore.mkdir_p_only_adds _ _ _ _ E Q) as [K|[r K]];
    [congruence | now apply Hp in K].
Qed.

(** Without its directory, [ensure_ffmpeg] asks the network and then
    fails, whatever the network answers and whatever the message of its
    last line. *)
Lemma ensure_ffmpeg_without_directory (msg : string) (st : State) :
  exists_ (at_ X ROOT) (fs st) = false ->
  exists e,
    Mp4ToMp3.first_ffmpeg X
      (_ <- Mp4ToMp3.fetch_and_extract_ffmpeg X ;;
       Mp4ToMp3.first_ffmpeg X (raise (FileNotFoundError msg))) st
    = (Raise e, st,
       [ Log ("Descargando: " ++ Mp4ToMp3.FFMPEG_URL)%string;
         HttpGet Mp4ToMp3.FFMPEG_URL ]).
Proof.
  intros H. unfold exists_ in H.
  destruct (lookup (at_ X ROOT) (fs st)) eqn:L; [discriminate|].
  assert (R : FS.rglob (at_ X ROOT) "ffmpeg.exe" (fs st) = [])
    by (unfold FS.rglob; now rewrite L).
  assert (Z : exists_ (at_ X (Mp4ToMp3.FFMPEG_ZIP X)) (fs st) = false).
  { change (at_ X (Mp4ToMp3.FFMPEG_ZIP X))
      with (at_ X ROOT ++ ["ffmpeg-release-essentials.zip"]).
    unfold exists_. now rewrite FSFacts.lookup_app, L. }
  assert (D : is_dir (at_ X ROOT) (fs st) = false)
    by (unfold is_dir; now rewrite L).
  rewrite (first_ffmpeg_miss X st _ R).
  unfold Mp4ToMp3.fetch_and_extract_ffmpeg, download_file. run_py.
  rewrite Z. cbn [negb].
  change (at_ X (Mp4ToMp3.FFMPEG_ZIP X))
    with (at_ X ROOT ++ ["ffmpeg-release-essentials.zip"]).
  destruct (requests_get X Mp4ToMp3.FFMPEG_URL) as [body|e|received e];
    cbv beta iota zeta.
  - destruct (FSMore.write_file_needs_parent _ "ffmpeg-release-essentials.zip"
                body (fs st) D) as [e W].
    rewrite W. eexists. reflexivity.
  - eauto.
  - destruct (FSMore.write_file_needs_parent _ "ffmpeg-release-essentials.zip"
                received (fs st) D) as [e' W].
    rewrite W. eexists. reflexivity.
Qed.

Lemma longer_is_no_prefix (p : FS.path) (a b c : string) (r : FS.path) :
  p ++ [c] <> ((p ++ [a]) ++ [b]) ++ r.
Proof.
  intros E. apply (f_equal (@List.length _)) in E.
  rewrite !length_app in E. simpl in E. lia.
Qed.

(** X15.  The second script never makes [tools/ffmpeg]: its [ensure_dirs]
    is not called, and [main] only makes [tools] and [models].  So when
    the MP3 is there, [tools/ffmpeg] is not, and [main] can make [tools]
    and [models], [main] asks the network once, cannot store or extract
    the archive, starts no subprocess, and ends by printing the
    provisioning error, whatever the network answers; the state it leaves
    is in the same situation (the MP3 there, [tools/ffmpeg] not, [tools]
    and [models] made without an error). *)
Theorem second_script_cannot_fetch_ffmpeg (st : State) :
  exists_ (at_ X Mp3Vosk.mp3_path) (fs st) = true ->
  exists_ (at_ X ROOT) (fs st) = false ->
  res (Mp3Vosk.make_cache_dirs X st) = Ok tt ->
  let o := Mp3Vosk.main X st in
  (exists e, reported "Error preparando FFmpeg: " e o)
  /\ count is_http (events o) = 1
  /\ count is_extract (events o) = 0
  /\ count is_run (events o) = 0
  /\ exists_ (at_ X Mp3Vosk.mp3_path) (fs (final o)) = true
  /\ exists_ (at_ X ROOT) (fs (final o)) = false
  /\ res (Mp3Vosk.make_cache_dirs X (final o)) = Ok tt.
Proof.
  intros Hin Hroot Hdirs.
  pose proof (make_cache_dirs_silent X st) as S0.
  destruct (Mp3Vosk.make_cache_dirs X st) as [[r0 s0] t0] eqn:D.
  unfold res in Hdirs. cbn [fst events snd] in Hdirs, S0. subst r0 t0.
  assert (F : exists_ (at_ X Mp3Vosk.mp3_path) (fs s0) = true
              /\ exists_ (at_ X ROOT) (fs s0) = false
              /\ Mp3Vosk.make_cache_dirs X s0 = (Ok tt, s0, [])).
  { revert D. unfold Mp3Vosk.make_cache_dirs, bind.
    destruct (mkdir X (Mp3Vosk.TOOLS_DIR X) st) as [[[[]|e1] s1] t1] eqn:M1;
      [|discriminate].
    destruct (mkdir X (Mp3Vosk.MODELS_DIR X) s1) as [[[[]|e2] s2] t2] eqn:M2;
      [|discriminate].
    intros K. injection K as <- _.
    destruct (mkdir_returns X _ _ _ _ M1) as (D1 & G1 & ->).
    destruct (mkdir_returns X _ _ _ _ M2) as (D2 & G2 & ->).
    split; [|split].
    - eapply FSFacts.grows_exists; [apply (extends_trans _ _ _ G1 G2) | exact Hin].
    - apply (mkdir_keeps_missing _ _ _ _ _ M2).
      + apply (mkdir_keeps_missing _ _ _ _ _ M1 Hroot).
        intros r. apply (longer_is_no_prefix (cwd X) "tools" "ffmpeg" "tools" r).
      + intros r. apply (longer_is_no_prefix (cwd X) "tools" "ffmpeg" "models" r).
    - rewrite (mkdir_again X _ s2)
        by (eapply FSFacts.grows_is_dir; [apply G2 | exact D1]).
      now rewrite (mkdir_again X _ s2 D2). }
  destruct F as (F1 & F2 & F3).
  destruct (ensure_ffmpeg_without_directory Mp3Vosk.msg_ffmpeg_not_found s0 F2)
    as [e He].
  assert (E : Mp3Vosk.main X st
              = (Ok tt, s0,
                 [ Log "Transcriptor offline Vosk - Espanol";
                   Log ("Descargando: " ++ Mp4ToMp3.FFMPEG_URL)%string;
                   HttpGet Mp4ToMp3.FFMPEG_URL;
                   Log ("Error preparando FFmpeg: " ++ str_exn e)%string ])).
  { change (Mp3Vosk.ensure_ffmpeg X s0
            = (Raise e, s0,
               [ Log ("Descargando: " ++ Mp4ToMp3.FFMPEG_URL)%string;
                 HttpGet Mp4ToMp3.FFMPEG_URL ])) in He.
    unfold Mp3Vosk.main, try_or_return, bind, log, emit, path_exists, fs_read.
    rewrite Hin. cbn [negb]. cbv beta iota.
    rewrite D. cbv beta iota. rewrite He. reflexivity. }
  cbv zeta. rewrite E. unfold final, events, reported, res. cbn [fst snd].
  split; [exists e; split; reflexivity|].
  repeat (split; [reflexivity|]).
  split; [exact F1|]. split; [exact F2|]. now rewrite F3.
Qed.

End MissingToolDirectory.

(** ** How often a run reaches outside *)

Section Bounds.

Variable X : Externals.

Ltac tally :=
  unfold within, count in *; cbn [events snd] in *;
  repeat (progress (rewrite ?filter_app, ?length_app;
                    cbn [filter List.length app is_http is_extract is_run]));
  lia.

Lemma download_file_within url dest st :
  within 1 0 0 (events (download_file X url dest st)).
Proof.
  unfold download_file. run_py.
  destruct (requests_get X url) as [body|e|received e]; cbv beta iota zeta.
  - destruct (write_file (at_ X dest) body (fs st)); tally.
  - tally.
  - destruct (write_file (at_ X dest) received (fs st)); tally.
Qed.

Lemma unzip_within archive dest st :
  within 0 1 0 (events (unzip X archive dest st)).
Proof.
  destruct (unzip X archive dest st) as [[r s1] t] eqn:U.
  apply unzip_outcome in U. destruct U as (_ & [->| ->] & _); tally.
Qed.

Lemma fetch_and_extract_within (zip dest : Path) (url msg : string) st :
  within 1 1 0
    (events ((have_zip <- path_exists X zip ;;
              (if negb have_zip then download_file X url zip else ret tt) ;;
              log msg ;;
              unzip X zip dest) st)).
Proof.
  unfold bind at 1. unfold path_exists, fs_read.
  destruct (exists_ (at_ X zip) (fs st)); cbn [negb].
  - unfold bind, ret, log, emit.
    pose proof (unzip_within zip dest st) as U.
    destruct (unzip X zip dest st) as [[r2 s2] t2]. tally.
  - unfold bind.
    pose proof (download_file_within url zip st) as D.
    destruct (download_file X url zip st) as [[[[]|e] s1] t1]; [|tally].
    unfold log, emit.
    pose proof (unzip_within zip dest s1) as U.
    destruct (unzip X zip dest s1) as [[r2 s2] t2]. tally.
Qed.

Lemma ensure_ffmpeg_within (msg : string) st :
  within 1 1 0
    (events (Mp4ToMp3.first_ffmpeg X
               (_ <- Mp4ToMp3.fetch_and_extract_ffmpeg X ;;
                Mp4ToMp3.first_ffmpeg X (raise (FileNotFoundError msg))) st)).
Proof.
  destruct (FS.rglob (at_ X (Mp4ToMp3.FFMPEG_ROOT X)) "ffmpeg.exe" (fs st))
    as [|q rest] eqn:R.
  - rewrite (first_ffmpeg_miss X st _ R). unfold bind.
    pose proof (fetch_and_extract_within (Mp4ToMp3.FFMPEG_ZIP X)
                  (Mp4ToMp3.FFMPEG_ROOT X) Mp4ToMp3.FFMPEG_URL
                  "Extrayendo FFmpeg..." st) as F.
    change (within 1 1 0 (events (Mp4ToMp3.fetch_and_extract_ffmpeg X st))) in F.
    destruct (Mp4ToMp3.fetch_and_extract_ffmpeg X st) as [[[[]|e] s1] t1]; [|tally].
    destruct (FS.rglob (at_ X (Mp4ToMp3.FFMPEG_ROOT X)) "ffmpeg.exe" (fs s1))
      as [|q rest] eqn:R1.
    + rewrite (first_ffmpeg_miss X s1 _ R1). unfold raise. tally.
    + rewrite (first_ffmpeg_hit X s1 q rest _ R1). tally.
  - rewrite (first_ffmpeg_hit X st q rest _ R). tally.
Qed.

Lemma convert_mp4_to_mp3_within input exe st :
  within 0 0 1 (events (Mp4ToMp3.convert_mp4_to_mp3 X input exe st)).
Proof.
  destruct (exists_ (at_ X input) (fs st)) eqn:Hin.
  - destruct (replace_suffix input ".mp3") as [e|out] eqn:Hout.
    + unfold Mp4ToMp3.convert_mp4_to_mp3. run_py.
      rewrite Hin, Hout. cbn. tally.
    + rewrite (convert_mp4_to_mp3_runs X st input exe out Hin Hout).
      destruct (subprocess_run X _ st) as [rc so se st'|e]; [|tally].
      destruct (rc =? 0)%Z; [|tally].
      destruct (exists_ (at_ X out) (fs st')); tally.
  - unfold Mp4ToMp3.convert_mp4_to_mp3. run_py. rewrite Hin. cbn. tally.
Qed.

Lemma convert_mp3_to_wav_within exe input output st :
  within 0 0 1 (events (Mp3Vosk.convert_mp3_to_wav X exe input output st)).
Proof.
  destruct (exists_ (at_ X input) (fs st)) eqn:Hin.
  - destruct (exists_ (at_ X output) (fs st)) eqn:Hout.
    + unfold Mp3Vosk.convert_mp3_to_wav. run_py. rewrite Hin. cbn.
      rewrite Hout. cbn. tally.
    + rewrite (convert_mp3_to_wav_runs X st exe input output Hin Hout).
      destruct (subprocess_run X _ st) as [rc so se st'|e]; [|tally].
      destruct (rc =? 0)%Z; tally.
  - unfold Mp3Vosk.convert_mp3_to_wav. run_py. rewrite Hin. cbn. tally.
Qed.

Lemma ensure_vosk_installed_within st :
  within 0 0 1 (events (Mp3Vosk.ensure_vosk_installed X st)).
Proof.
  unfold Mp3Vosk.ensure_vosk_installed, Mp3Vosk.import_vosk, run. run_py.
  destruct (vosk_importable st); cbv beta iota; [tally|].
  destruct (subprocess_run X _ st) as [rc so se st'|e]; cbv beta iota; [|tally].
  cbn [returncode]. destruct (rc =? 0)%Z; cbn [negb]; cbv beta iota; tally.
Qed.

Lemma similar_model_dir_silent ds : forall st,
  events (Mp3Vosk.similar_model_dir X ds st) = [].
Proof.
  induction ds as [|d ds IH]; intros st; cbn [Mp3Vosk.similar_model_dir].
  - reflexivity.
  - unfold Mp3Vosk.is_dir, bind, fs_read.
    destruct (FS.is_dir (at_ X d) (fs st)
              && PyStr.startswith "vosk-model-small-es" (name d)).
    + reflexivity.
    + specialize (IH st).
      destruct (Mp3Vosk.similar_model_dir X ds st) as [[r s] t].
      cbn [events snd] in *. now subst t.
Qed.

Lemma locate_model_silent st : events (Mp3Vosk.locate_model X st) = [].
Proof.
  unfold Mp3Vosk.locate_model, Mp3Vosk.iterdir. run_py.
  destruct (exists_ (at_ X (Mp3Vosk.VOSK_MODEL_DIR X)) (fs st)); [reflexivity|].
  destruct (FS.iterdir (at_ X (Mp3Vosk.MODELS_DIR X)) (fs st)) as [e|l];
    cbv beta iota; [reflexivity|].
  pose proof (similar_model_dir_silent
                (map (fun e => below X (Mp3Vosk.MODELS_DIR X) (fst e)) l) st) as S.
  destruct (Mp3Vosk.similar_model_dir X _ st) as [[r s] t].
  cbn [events snd] in *. now subst t.
Qed.

Lemma ensure_vosk_model_within st :
  within 1 1 0 (events (Mp3Vosk.ensure_vosk_model X st)).
Proof.
  unfold Mp3Vosk.ensure_vosk_model. unfold bind at 1.
  rewrite (model_ready_cases X st).
  assert (F : within 1 1 0
                (events ((_ <- Mp3Vosk.fetch_and_extract_model X ;;
                          Mp3Vosk.locate_model X) st))).
  { unfold bind.
    pose proof (fetch_and_extract_within (Mp3Vosk.VOSK_MODEL_ZIP X)
                  (Mp3Vosk.MODELS_DIR X) Mp3Vosk.VOSK_MODEL_URL
                  "Extrayendo modelo Vosk..." st) as F.
    change (within 1 1 0 (events (Mp3Vosk.fetch_and_extract_model X st))) in F.
    destruct (Mp3Vosk.fetch_and_extract_model X st) as [[[[]|e] s1] t1]; [|tally].
    pose proof (locate_model_silent s1) as L.
    destruct (Mp3Vosk.locate_model X s1) as [[r s2] t2].
    cbn [events snd] in L. subst t2. tally. }
  destruct (lookup (at_ X (Mp3Vosk.VOSK_MODEL_DIR X)) (fs st))
    as [[c|[|[k v] es]]|]; cbv beta iota.
  - tally.
  - destruct ((_ <- Mp3Vosk.fetch_and_extract_model X ;; Mp3Vosk.locate_model X) st)
      as [[r s] t]. tally.
  - unfold bind, log, emit, ret. tally.
  - destruct ((_ <- Mp3Vosk.fetch_and_extract_model X ;; Mp3Vosk.locate_model X) st)
      as [[r s] t]. tally.
Qed.

Lemma prepare_vosk_within st :
  within 1 1 1 (events (Mp3Vosk.prepare_vosk X st)).
Proof.
  unfold Mp3Vosk.prepare_vosk, bind.
  pose proof (ensure_vosk_installed_within st) as I.
  destruct (Mp3Vosk.ensure_vosk_installed X st) as [[[[]|e] s1] t1]; [|tally].
  pose proof (ensure_vosk_model_within s1) as V.
  destruct (Mp3Vosk.ensure_vosk_model X s1) as [[r s2] t2]. tally.
Qed.

(** The loop only reads frames and feeds them. *)
Lemma read_loop_within nbytes todo rec results :
  within 0 0 0 (snd (Mp3Vosk.read_loop X nbytes todo rec results)).
Proof.
  funelim (Mp3Vosk.read_loop X nbytes todo rec results).
  - tally.
  - tally.
  - cbv zeta. cbn [snd].
    destruct (Mp3Vosk.read_loop X nbytes (skipn nbytes todo) _ _) as [r t]. tally.
  - cbv zeta. cbn [snd].
    destruct (Mp3Vosk.read_loop X nbytes (skipn nbytes todo) _ _) as [r t]. tally.
Qed.

Lemma transcribe_with_vosk_within wav model_dir st :
  within 0 0 0 (events (Mp3Vosk.transcribe_with_vosk X wav model_dir st)).
Proof.
  unfold Mp3Vosk.transcribe_with_vosk, Mp3Vosk.import_vosk. run_py.
  destruct (vosk_importable st); cbn; [|tally].
  destruct (vosk_Model X (fs st) _); cbn; [tally|].
  destruct (read_file (at_ X wav) (fs st)) as [e|content]; cbn; [tally|].
  destruct (wave_open X content) as [e|wf]; cbn; [tally|].
  destruct (negb (nchannels wf =? 1)%Z || negb (sampwidth wf =? 2)%Z
            || negb (framerate wf =? 16000)%Z); cbn; [tally|].
  pose proof (read_loop_within (Mp3Vosk.frame_bytes wf 4000) (frames wf)
                (SetWords X (KaldiRecognizer X m (framerate wf)) true) []) as L.
  destruct (Mp3Vosk.read_loop X _ _ _ _) as [[l|e] t]; cbn; tally.
Qed.

Lemma transcribe_and_save_within model_dir st :
  within 0 0 0 (events (Mp3Vosk.transcribe_and_save X model_dir st)).
Proof.
  unfold Mp3Vosk.transcribe_and_save. unfold bind at 1.
  pose proof (transcribe_with_vosk_within (Mp3Vosk.WAV_FILE X) model_dir st) as T.
  destruct (Mp3Vosk.transcribe_with_vosk X _ model_dir st) as [[[text|e] s1] t1];
    [|tally].
  run_py.
  destruct (negb (PyStr.truthy text)); cbv beta iota;
    destruct (write_file _ _ (fs s1)); cbv beta iota; tally.
Qed.

Lemma ensure_requests_within st :
  within 0 0 1 (events (ensure_requests X st)).
Proof.
  unfold ensure_requests, import_requests, run. run_py.
  destruct (requests_importable st); cbv beta iota; [tally|].
  destruct (subprocess_run X _ st) as [rc so se st'|e]; cbv beta iota; [|tally].
  destruct (requests_importable st'); tally.
Qed.

(** What one call of [main] does outside. *)
Lemma main_within (st : State) :
  within 1 1 1 (events (Mp4ToMp3.main X st))
  /\ within 2 2 2 (events (Mp3Vosk.main X st)).
Proof.
  split.
  - pose proof (ensure_dirs_silent X st) as S0.
    unfold Mp4ToMp3.main, try_or_return, bind, log, emit, path_exists, fs_read.
    destruct (exists_ (at_ X (Mp4ToMp3.input_mp4 X)) (fs st));
      cbn [negb]; cbv beta iota; [|tally].
    destruct (Mp4ToMp3.ensure_dirs X st) as [[[[]|e0] s0] t0];
      cbn [events snd] in S0; subst t0; cbv beta iota; [|tally].
    pose proof (ensure_ffmpeg_within Mp4ToMp3.msg_ffmpeg_not_found s0) as B1.
    change (within 1 1 0 (events (Mp4ToMp3.ensure_ffmpeg X s0))) in B1.
    destruct (Mp4ToMp3.ensure_ffmpeg X s0) as [[[exe|e1] s1] t1];
      cbv beta iota; [|tally].
    pose proof (convert_mp4_to_mp3_within (Mp4ToMp3.input_mp4 X) exe s1) as B2.
    destruct (Mp4ToMp3.convert_mp4_to_mp3 X _ exe s1) as [[[out|e2] s2] t2];
      cbv beta iota; tally.
  - pose proof (make_cache_dirs_silent X st) as S0.
    unfold Mp3Vosk.main, try_or_return, bind, log, emit, path_exists, fs_read.
    destruct (exists_ (at_ X Mp3Vosk.mp3_path) (fs st));
      cbn [negb]; cbv beta iota; [|tally].
    destruct (Mp3Vosk.make_cache_dirs X st) as [[[[]|e0] s0] t0];
      cbn [events snd] in S0; subst t0; cbv beta iota; [|tally].
    pose proof (ensure_ffmpeg_within Mp3Vosk.msg_ffmpeg_not_found s0) as B1.
    change (within 1 1 0 (events (Mp3Vosk.ensure_ffmpeg X s0))) in B1.
    destruct (Mp3Vosk.ensure_ffmpeg X s0) as [[[exe|e1] s1] t1];
      cbv beta iota; [|tally].
    pose proof (convert_mp3_to_wav_within exe Mp3Vosk.mp3_path
                  (Mp3Vosk.WAV_FILE X) s1) as B2.
    destruct (Mp3Vosk.convert_mp3_to_wav X exe _ _ s1) as [[[[]|e2] s2] t2];
      cbv beta iota; [|tally].
    pose proof (prepare_vosk_within s2) as B3.
    destruct (Mp3Vosk.prepare_vosk X s2) as [[[md|e3] s3] t3];
      cbv beta iota; [|tally].
    pose proof (transcribe_and_save_within md s3) as B4.
    destruct (Mp3Vosk.transcribe_and_save X md s3) as [[[[]|e4] s4] t4];
      cbv beta iota; tally.
Qed.

(** X16.  One call of [main] of the first script asks the network at most
    once, extracts at most one archive and starts at most one program
    (FFmpeg); one call of [main] of the second script does each at most
    twice (FFmpeg and the model are fetched and extracted, FFmpeg and pip
    are started).  A whole run of either script, with the import fallback
    of its first lines, starts at most one program more (pip, for
    [requests]) and asks and extracts no more than [main] does. *)
Theorem a_run_reaches_outside_boundedly (st : State) :
  within 1 1 1 (events (Mp4ToMp3.main X st))
  /\ within 2 2 2 (events (Mp3Vosk.main X st))
  /\ within 1 1 2 (events (Mp4ToMp3.script X st))
  /\ within 2 2 3 (events (Mp3Vosk.script X st)).
Proof.
  split; [apply main_within|]. split; [apply main_within|].
  pose proof (ensure_requests_within st) as I.
  unfold Mp4ToMp3.script, Mp3Vosk.script, bind.
  destruct (ensure_requests X st) as [[[[]|e] s0] t0].
  - destruct (main_within s0) as [B1 B2].
    destruct (Mp4ToMp3.main X s0) as [[r1 s1] t1].
    destruct (Mp3Vosk.main X s0) as [[r2 s2] t2].
    split; tally.
  - split; tally.
Qed.

End Bounds.

(** ** Runs on a prepared working directory *)

Section PreparedRuns.

Variable X : Externals.

Import TranscriptSpec.

Let ROOT : Path := Mp4ToMp3.FFMPEG_ROOT X.
Let MODEL : Path := Mp3Vosk.VOSK_MODEL_DIR X.

Lemma exists_prefix_is_dir p r n :
  exists_ (p ++ r) n = true -> r <> [] -> is_dir p n = true.
Proof.
  unfold exists_, is_dir. rewrite FSFacts.lookup_app.
  destruct (lookup p n) as [[c|es]|]; try discriminate; [|reflexivity].
  destruct r; [congruence | discriminate].
Qed.

(** Where an [ffmpeg.exe] was found, the cache directories exist. *)
Lemma found_means_directories (st : State) q rest :
  FS.rglob (at_ X ROOT) "ffmpeg.exe" (fs st) = q :: rest ->
  is_dir (at_ X (Mp4ToMp3.TOOLS_DIR X)) (fs st) = true
  /\ is_dir (at_ X ROOT) (fs st) = true.
Proof.
  intros R.
  assert (Hq : In q (FS.rglob (at_ X ROOT) "ffmpeg.exe" (fs st)))
    by (rewrite R; now left).
  apply FSFacts.rglob_spec in Hq. destruct Hq as (d & -> & Hex).
  assert (D : is_dir (at_ X ROOT) (fs st) = true).
  { apply (exists_prefix_is_dir _ (d ++ ["ffmpeg.exe"])); [exact Hex|].
    destruct d; discriminate. }
  split; [|exact D].
  apply (FSFacts.exists_parent_is_dir _ "ffmpeg").
  change (exists_ (at_ X ROOT) (fs st) = true).
  unfold is_dir in D. unfold exists_.
  destruct (lookup (at_ X ROOT) (fs st)); [reflexivity | discriminate].
Qed.

(** X17.  The first script on a working directory where the video and an
    [ffmpeg.exe] are in place, with an FFmpeg that ends with status 0 and
    leaves an MP3: [main] touches nothing before FFmpeg runs, asks the
    network for nothing, starts FFmpeg once on the first [ffmpeg.exe]
    found, prints its six lines, and leaves the state as FFmpeg left
    it. *)
Theorem first_script_with_ffmpeg_in_place
        (st st' : State) (q : FS.path) (rest : list FS.path) (so se : string) :
  let exe := below X ROOT q in
  let out := child (Mp4ToMp3.WORKDIR X) Mp3Vosk.MP3_FILE in
  let cmd := Mp4ToMp3.ffmpeg_cmd X exe (Mp4ToMp3.input_mp4 X) out in
  exists_ (at_ X (Mp4ToMp3.input_mp4 X)) (fs st) = true ->
  FS.rglob (at_ X ROOT) "ffmpeg.exe" (fs st) = q :: rest ->
  subprocess_run X cmd st = Completed 0 so se st' ->
  exists_ (at_ X out) (fs st') = true ->
  Mp4ToMp3.main X st
  = (Ok tt, st',
     [ Log ("Conversor MP4 a MP3 (FFmpeg port" ++ Mp4ToMp3.a_acute ++ "til)")%string;
       Log ("FFmpeg localizado: " ++ str X exe)%string;
       Log Mp4ToMp3.msg_starting;
       Run cmd;
       Log Mp4ToMp3.msg_done;
       Log ("Archivo MP3 creado: " ++ str X out)%string;
       Log "Proceso finalizado" ]).
Proof.
  intros exe out cmd Hin R Hrun Hmade.
  destruct (found_means_directories st q rest R) as [D1 D2].
  assert (N : replace_suffix (Mp4ToMp3.input_mp4 X) ".mp3" = inr out).
  { unfold Mp4ToMp3.input_mp4. rewrite replace_suffix_child.
    replace (drop_suffix Mp4ToMp3.VIDEO_FILE) with Mp3Vosk.VIDEO_STEM
      by (vm_compute; reflexivity).
    reflexivity. }
  assert (E0 : Mp4ToMp3.ensure_dirs X st = (Ok tt, st, [])).
  { unfold Mp4ToMp3.ensure_dirs, bind.
    rewrite (mkdir_again X _ st D1). cbv beta iota.
    now rewrite (mkdir_again X (Mp4ToMp3.FFMPEG_ROOT X) st D2). }
  assert (E1 : Mp4ToMp3.ensure_ffmpeg X st
               = (Ok exe, st, [Log ("FFmpeg localizado: " ++ str X exe)%string]))
    by apply (first_ffmpeg_hit X st q rest _ R).
  assert (E2 : Mp4ToMp3.convert_mp4_to_mp3 X (Mp4ToMp3.input_mp4 X) exe st
               = (Ok out, st',
                  [Log Mp4ToMp3.msg_starting; Run cmd; Log Mp4ToMp3.msg_done])).
  { rewrite (convert_mp4_to_mp3_runs X st _ exe out Hin N).
    fold cmd. rewrite Hrun. cbn [Z.eqb]. now rewrite Hmade. }
  unfold Mp4ToMp3.main, try_or_return, bind, log, emit, path_exists, fs_read.
  rewrite Hin. cbn [negb]. cbv beta iota.
  rewrite E0. cbv beta iota. rewrite E1. cbv beta iota. rewrite E2. reflexivity.
Qed.

(** The last [try] of the second [main], once the text is known and the
    file can be written. *)
Lemma transcribe_and_save_goes (st : State) (model_dir : Path) text t1 n' :
  Mp3Vosk.transcribe_with_vosk X (Mp3Vosk.WAV_FILE X) model_dir st = (Ok text, st, t1) ->
  write_file (at_ X (Mp3Vosk.OUTPUT_FILE X))
             (Mp3Vosk.banner ++ text ++ Mp3Vosk.nl)%string (fs st) = inr n' ->
  Mp3Vosk.transcribe_and_save X model_dir st
  = (Ok tt, with_fs n' st,
     t1 ++ (if PyStr.truthy text then [] else [Log Mp3Vosk.msg_no_text])
        ++ [ Log ("Transcripcion guardada: " ++ str X (Mp3Vosk.OUTPUT_FILE X))%string;
             Log ("Caracteres: " ++ Mp3Vosk.str_nat (String.length text))%string ]).
Proof.
  intros T W. unfold Mp3Vosk.transcribe_and_save. run_py. rewrite T.
  destruct (PyStr.truthy text); cbn [negb]; cbv beta iota zeta;
    rewrite W; cbv beta iota zeta; rewrite ?app_nil_r; reflexivity.
Qed.

(** X18.  The second script on a working directory where everything is
    cached (the MP3, an [ffmpeg.exe], a well-formed WAV, a model directory
    with something in it, an importable [vosk]) and with a recognizer that
    accepts every read: [main] asks the network for nothing, extracts
    nothing and starts no program; it reuses the WAV, reads it to the end,
    and the only change it makes is to write the transcript file, which
    holds the banner, the non-empty trimmed segments joined by single
    spaces, and a newline. *)
Theorem second_script_with_everything_cached
        (st : State) (q : FS.path) (rest : list FS.path)
        (e : string * node) (es : list (string * node))
        model (content : string) (wf : wave_read)
        (texts : list string) rec' :
  let reads := chunks (Z.to_nat 8000) (frames wf) in
  let text := PyStr.join " " (pieces (texts ++ text_of (fst (FinalResult X rec')))) in
  exists_ (at_ X Mp3Vosk.mp3_path) (fs st) = true ->
  FS.rglob (at_ X ROOT) "ffmpeg.exe" (fs st) = q :: rest ->
  lookup (at_ X MODEL) (fs st) = Some (Dir (e :: es)) ->
  vosk_importable st = true ->
  vosk_Model X (fs st) (at_ X MODEL) = inr model ->
  read_file (at_ X (Mp3Vosk.WAV_FILE X)) (fs st) = inr content ->
  wave_open X content = inr wf ->
  nchannels wf = 1%Z -> sampwidth wf = 2%Z -> framerate wf = 16000%Z ->
  segments X (SetWords X (KaldiRecognizer X model 16000) true) reads
  = inr (texts, rec') ->
  is_dir (at_ X (Mp3Vosk.OUTPUT_FILE X)) (fs st) = false ->
  exists n',
    write_file (at_ X (Mp3Vosk.OUTPUT_FILE X))
               (Mp3Vosk.banner ++ text ++ Mp3Vosk.nl)%string (fs st) = inr n'
    /\ read_file (at_ X (Mp3Vosk.OUTPUT_FILE X)) n'
       = inr (Mp3Vosk.banner ++ text ++ Mp3Vosk.nl)%string
    /\ Mp3Vosk.main X st
       = (Ok tt, with_fs n' st,
          [ Log "Transcriptor offline Vosk - Espanol";
            Log ("FFmpeg localizado: " ++ str X (below X ROOT q))%string;
            Log Mp3Vosk.msg_reused;
            Log ("Modelo Vosk listo: " ++ str X MODEL)%string;
            Log Mp3Vosk.msg_loading ]
          ++ audio_events reads
          ++ (if PyStr.truthy text then [] else [Log Mp3Vosk.msg_no_text])
          ++ [ Log ("Transcripcion guardada: "
                    ++ str X (Mp3Vosk.OUTPUT_FILE X))%string;
               Log ("Caracteres: " ++ Mp3Vosk.str_nat (String.length text))%string;
               Log "Proceso completado" ]).
Proof.
  intros reads text Hin R L Himp Hmodel Hread Hwave Hch Hsw Hfr Hseg Hout.
  destruct (found_means_directories st q rest R) as [D1 _].
  assert (D2 : is_dir (at_ X (Mp3Vosk.MODELS_DIR X)) (fs st) = true).
  { apply (FSFacts.exists_parent_is_dir _ Mp3Vosk.VOSK_MODEL_NAME).
    change (exists_ (at_ X MODEL) (fs st) = true). unfold exists_. now rewrite L. }
  assert (Dc : is_dir (cwd X) (fs st) = true)
    by exact (FSFacts.exists_parent_is_dir (cwd X) Mp3Vosk.MP3_FILE _ Hin).
  assert (Hwav : exists_ (at_ X (Mp3Vosk.WAV_FILE X)) (fs st) = true).
  { unfold read_file in Hread. unfold exists_.
    destruct (lookup (at_ X (Mp3Vosk.WAV_FILE X)) (fs st)); [reflexivity | discriminate]. }
  destruct (FSFacts.write_file_succeeds (cwd X)
              (Mp3Vosk.VIDEO_STEM ++ "_transcripcion_vosk.txt")%string
              (Mp3Vosk.banner ++ text ++ Mp3Vosk.nl)%string (fs st) Dc Hout)
    as (n' & W).
  change (cwd X ++ [(Mp3Vosk.VIDEO_STEM ++ "_transcripcion_vosk.txt")%string])
    with (at_ X (Mp3Vosk.OUTPUT_FILE X)) in W.
  exists n'. split; [exact W|]. split.
  { unfold read_file. now rewrite (FSFacts.write_file_lookup _ _ _ _ W). }
  assert (E0 : Mp3Vosk.make_cache_dirs X st = (Ok tt, st, [])).
  { unfold Mp3Vosk.make_cache_dirs, bind.
    rewrite (mkdir_again X (Mp3Vosk.TOOLS_DIR X) st D1). cbv beta iota.
    now rewrite (mkdir_again X _ st D2). }
  assert (E1 : Mp3Vosk.ensure_ffmpeg X st
               = (Ok (below X ROOT q), st,
                  [Log ("FFmpeg localizado: " ++ str X (below X ROOT q))%string]))
    by apply (first_ffmpeg_hit X st q rest _ R).
  assert (E2 : Mp3Vosk.convert_mp3_to_wav X (below X ROOT q) Mp3Vosk.mp3_path
                 (Mp3Vosk.WAV_FILE X) st
               = (Ok tt, st, [Log Mp3Vosk.msg_reused])).
  { unfold Mp3Vosk.convert_mp3_to_wav, bind, path_exists, fs_read.
    rewrite Hin. cbn [negb]. cbv beta iota. now rewrite Hwav. }
  assert (E3 : Mp3Vosk.prepare_vosk X st
               = (Ok MODEL, st, [Log ("Modelo Vosk listo: " ++ str X MODEL)%string])).
  { unfold Mp3Vosk.prepare_vosk, Mp3Vosk.ensure_vosk_installed,
      Mp3Vosk.import_vosk, try_except. unfold bind at 1. rewrite Himp.
    unfold Mp3Vosk.ensure_vosk_model. unfold bind at 1.
    rewrite (model_ready_cases X st). fold MODEL. rewrite L. reflexivity. }
  assert (T : Mp3Vosk.transcribe_with_vosk X (Mp3Vosk.WAV_FILE X) MODEL st
              = (Ok text, st, Log Mp3Vosk.msg_loading :: audio_events reads)).
  { rewrite (transcribe_with_vosk_opens X st _ MODEL model content wf); auto.
    rewrite Hch, Hsw, Hfr. cbn [Z.eqb Pos.eqb negb orb].
    unfold Mp3Vosk.frame_bytes. rewrite Hch, Hsw.
    change (4000 * 1 * 2)%Z with 8000%Z.
    rewrite (TranscriptFacts.read_loop_segments X _ (frames wf) _ [] texts rec' Hseg).
    cbn [fst snd app]. rewrite TranscriptFacts.append_text_app.
    now rewrite TranscriptFacts.assemble_pieces. }
  pose proof (transcribe_and_save_goes st MODEL text _ n' T W) as E4.
  unfold Mp3Vosk.main, try_or_return, bind, log, emit, path_exists, fs_read.
  rewrite Hin. cbn [negb]. cbv beta iota.
  rewrite E0. cbv beta iota. rewrite E1. cbv beta iota.
  rewrite E2. cbv beta iota. rewrite E3. cbv beta iota.
  rewrite E4. cbv beta iota. cbn [app].
  rewrite <- !app_assoc. reflexivity.
Qed.

End PreparedRuns.

(** ** The further properties on concrete worlds *)

Section FurtherWitnesses.

Import Examples.

Let Xsilent : Externals := world tool_silent.
Let Xencodes : Externals := world tool_encodes.
Let Xcut : Externals := world_of cut_off open_wave accept_every tool_silent.
Let Xwrong : Externals := world_of serve_ffmpeg_only open_wave accept_every tool_silent.
Let Xbreaks : Externals := world_of serve open_wave accept_once tool_silent.

(** X1 on empty cache directories: the archive is stored as served. *)
Lemma download_file_stores_the_body_witness :
  read_file ["w"; "tools"; "ffmpeg"; "ffmpeg-release-essentials.zip"]
            (fs (final (download_file Xsilent Mp4ToMp3.FFMPEG_URL
                                      (Mp4ToMp3.FFMPEG_ZIP Xsilent) st_empty_caches)))
  = inr "ZIP-FFMPEG".
Proof.
  destruct (download_file_stores_the_body Xsilent Mp4ToMp3.FFMPEG_URL
              (Mp4ToMp3.FFMPEG_ZIP Xsilent) st_empty_caches
              (final (download_file Xsilent Mp4ToMp3.FFMPEG_URL
                                    (Mp4ToMp3.FFMPEG_ZIP Xsilent) st_empty_caches))
              (events (download_file Xsilent Mp4ToMp3.FFMPEG_URL
                                     (Mp4ToMp3.FFMPEG_ZIP Xsilent) st_empty_caches))
              eq_refl) as (body & Hb & Hr & _).
  vm_compute in Hb. injection Hb as <-. exact Hr.
Defined.

(** X2 on empty cache directories, with a network that breaks after four
    bytes: the next run fails on the truncated archive. *)
Lemma interrupted_download_blocks_later_runs_witness :
  exists st1,
    res (Mp4ToMp3.ensure_ffmpeg Xcut st_empty_caches)
    = Raise (OtherError "ChunkedEncodingError" "Connection broken")
    /\ final (Mp4ToMp3.ensure_ffmpeg Xcut st_empty_caches) = st1
    /\ read_file ["w"; "tools"; "ffmpeg"; "ffmpeg-release-essentials.zip"] (fs st1)
       = inr "ZIP-"
    /\ Mp4ToMp3.ensure_ffmpeg Xcut st1
       = (Raise (OtherError "BadZipFile" "File is not a zip file"), st1,
          [Log "Extrayendo FFmpeg..."]).
Proof.
  destruct (interrupted_download_blocks_later_runs Xcut st_empty_caches "ZIP-"
              (OtherError "ChunkedEncodingError" "Connection broken")
              eq_refl eq_refl eq_refl eq_refl) as (st1 & A & B & _ & D).
  exists st1. rewrite A. repeat split; [exact B|].
  exact (D _ eq_refl).
Defined.

(** X3 on the working directory that holds only the video. *)
Lemma ensure_dirs_is_idempotent_witness :
  is_dir ["w"; "tools"; "ffmpeg"]
         (fs (final (Mp4ToMp3.ensure_dirs Xsilent st_video))) = true
  /\ Mp4ToMp3.ensure_dirs Xsilent (final (Mp4ToMp3.ensure_dirs Xsilent st_video))
     = (Ok tt, final (Mp4ToMp3.ensure_dirs Xsilent st_video), []).
Proof.
  destruct (ensure_dirs_is_idempotent Xsilent st_video
              (final (Mp4ToMp3.ensure_dirs Xsilent st_video)) []) as [H _].
  destruct (H eq_refl) as (_ & D & _ & _ & I).
  split; [exact D | exact I].
Defined.

(** X4 with a file called [tools] next to the video. *)
Lemma a_file_in_the_way_ends_the_run_witness :
  exit_status (Mp4ToMp3.script Xsilent st_tools_is_a_file) = 1%Z
  /\ res (Mp4ToMp3.script Xsilent st_tools_is_a_file)
     = Raise (FileExistsError "[Errno 17] File exists: '/w/tools'")
  /\ count is_log (events (Mp4ToMp3.script Xsilent st_tools_is_a_file)) = 1.
Proof.
  destruct (a_file_in_the_way_ends_the_run Xsilent st_tools_is_a_file
              st_tools_is_a_file [] eq_refl) as [H _].
  assert (B : blocked (at_ Xsilent (Mp4ToMp3.FFMPEG_ROOT Xsilent))
                      (fs st_tools_is_a_file)).
  { exists ["w"; "tools"], ["ffmpeg"], "notes". split; reflexivity. }
  destruct (H eq_refl B) as (e & He & Hs & Hx).
  split; [exact Hx|]. rewrite Hs. vm_compute in He. injection He as <-.
  split; reflexivity.
Defined.

(** X5 with a pip that ends with 0 and installs nothing. *)
Lemma ensure_vosk_installed_trusts_pip_witness :
  res (Mp3Vosk.ensure_vosk_installed Xsilent st_no_vosk) = Ok tt
  /\ count is_run (events (Mp3Vosk.ensure_vosk_installed Xsilent st_no_vosk)) = 1
  /\ Mp3Vosk.transcribe_with_vosk Xsilent (Mp3Vosk.WAV_FILE Xsilent)
       (Mp3Vosk.VOSK_MODEL_DIR Xsilent) st_no_vosk
     = (Raise (OtherError "ModuleNotFoundError" "No module named 'vosk'"),
        st_no_vosk, []).
Proof.
  destruct (ensure_vosk_installed_trusts_pip Xsilent st_no_vosk)
    as (A & _ & B & C).
  split; [apply B; right; repeat eexists; reflexivity|].
  split; [exact A|].
  exact (proj2 (C st_no_vosk
                  (events (Mp3Vosk.ensure_vosk_installed Xsilent st_no_vosk))
                  (Mp3Vosk.WAV_FILE Xsilent) (Mp3Vosk.VOSK_MODEL_DIR Xsilent)
                  eq_refl eq_refl)).
Defined.

(** X6 on the video of the first script: its output is the MP3 that the
    second script reads. *)
Lemma output_name_replaces_the_last_suffix_witness :
  replace_suffix (Mp4ToMp3.input_mp4 Xsilent) ".mp3"
  = inr (child (Mp4ToMp3.WORKDIR Xsilent) Mp3Vosk.MP3_FILE).
Proof.
  assert (Hs : Mp3Vosk.VIDEO_STEM <> EmptyString) by (vm_compute; discriminate).
  assert (He : "mp4" <> EmptyString) by discriminate.
  exact (proj1 (output_name_replaces_the_last_suffix
                  (Mp4ToMp3.WORKDIR Xsilent) Mp3Vosk.VIDEO_STEM "mp4"
                  Hs He eq_refl)).
Defined.

(** X7 with an FFmpeg that writes the MP3. *)
Lemma convert_mp4_to_mp3_returns_an_existing_file_witness :
  res (Mp4ToMp3.convert_mp4_to_mp3 Xencodes (Mp4ToMp3.input_mp4 Xencodes)
                                   exe_path st_video_and_tool)
  = Ok (mkPath true ["w"; Mp3Vosk.MP3_FILE])
  /\ read_file ["w"; Mp3Vosk.MP3_FILE]
               (fs (final (Mp4ToMp3.convert_mp4_to_mp3
                             Xencodes (Mp4ToMp3.input_mp4 Xencodes)
                             exe_path st_video_and_tool)))
     = inr "ID3".
Proof.
  destruct (convert_mp4_to_mp3_returns_an_existing_file Xencodes
              st_video_and_tool
              (final (Mp4ToMp3.convert_mp4_to_mp3
                        Xencodes (Mp4ToMp3.input_mp4 Xencodes)
                        exe_path st_video_and_tool))
              (Mp4ToMp3.input_mp4 Xencodes) exe_path
              (mkPath true ["w"; Mp3Vosk.MP3_FILE])
              (events (Mp4ToMp3.convert_mp4_to_mp3
                         Xencodes (Mp4ToMp3.input_mp4 Xencodes)
                         exe_path st_video_and_tool))
              eq_refl) as (_ & _ & E & _).
  split; [reflexivity|].
  unfold exists_ in E. unfold read_file.
  destruct (lookup _ _) as [[c|es]|] eqn:L; try discriminate E;
    vm_compute in L; [injection L as <-; reflexivity | discriminate L].
Defined.

(** X8 on empty cache directories: the second call finds what the first
    one extracted. *)
Lemma ensure_ffmpeg_returns_an_existing_executable_witness :
  Mp4ToMp3.ensure_ffmpeg Xsilent
    (final (Mp4ToMp3.ensure_ffmpeg Xsilent st_empty_caches))
  = (Ok exe_path, final (Mp4ToMp3.ensure_ffmpeg Xsilent st_empty_caches),
     [Log "FFmpeg localizado: /w/tools/ffmpeg/ffmpeg-8.0/bin/ffmpeg.exe"]).
Proof.
  destruct (ensure_ffmpeg_returns_an_existing_executable Xsilent st_empty_caches
              (final (Mp4ToMp3.ensure_ffmpeg Xsilent st_empty_caches)) exe_path
              (events (Mp4ToMp3.ensure_ffmpeg Xsilent st_empty_caches)))
    as [H _].
  exact (proj2 (proj2 (proj2 (H eq_refl)))).
Defined.

(** X9 on empty cache directories: the model is fetched once, and not
    again. *)
Lemma ensure_vosk_model_returns_an_existing_path_witness :
  count is_http (events (Mp3Vosk.ensure_vosk_model Xsilent st_empty_caches)) = 1
  /\ is_dir ["w"; "models"; "vosk-model-small-es-0.42"]
            (fs (final (Mp3Vosk.ensure_vosk_model Xsilent st_empty_caches))) = true
  /\ count is_http
       (events (Mp3Vosk.ensure_vosk_model Xsilent
                  (final (Mp3Vosk.ensure_vosk_model Xsilent st_empty_caches)))) = 0.
Proof.
  destruct (ensure_vosk_model_returns_an_existing_path Xsilent st_empty_caches
              (final (Mp3Vosk.ensure_vosk_model Xsilent st_empty_caches))
              (Mp3Vosk.VOSK_MODEL_DIR Xsilent)
              (events (Mp3Vosk.ensure_vosk_model Xsilent st_empty_caches))
              eq_refl) as (_ & _ & _ & H).
  split; [reflexivity|]. split; [reflexivity | exact H].
Defined.

(** X10 with a server that delivers the wrong archive: the empty model
    directory is returned, still empty. *)
Lemma empty_model_directory_is_returned_unchecked_witness :
  res (Mp3Vosk.ensure_vosk_model Xwrong st_empty_model)
  = Ok (Mp3Vosk.VOSK_MODEL_DIR Xwrong)
  /\ lookup ["w"; "models"; "vosk-model-small-es-0.42"]
            (fs (final (Mp3Vosk.ensure_vosk_model Xwrong st_empty_model)))
     = Some (Dir []).
Proof.
  rewrite (empty_model_directory_is_returned_unchecked Xwrong st_empty_model
             (final (Mp3Vosk.fetch_and_extract_model Xwrong st_empty_model))
             (events (Mp3Vosk.fetch_and_extract_model Xwrong st_empty_model))
             eq_refl eq_refl).
  split; reflexivity.
Defined.

(** X12 with a recognizer that breaks on the second read: the segment of
    the first read is lost, and nothing is written. *)
Lemma recognizer_failure_drops_the_transcript_witness :
  Mp3Vosk.transcribe_and_save Xbreaks (Mp3Vosk.VOSK_MODEL_DIR Xbreaks) st_ready
  = (Raise (OtherError "Exception" "Failed to process waveform"), st_ready,
     events (Mp3Vosk.transcribe_and_save Xbreaks (Mp3Vosk.VOSK_MODEL_DIR Xbreaks)
                                         st_ready))
  /\ count (fun ev => match ev with Feed _ => true | _ => false end)
           (events (Mp3Vosk.transcribe_and_save Xbreaks
                      (Mp3Vosk.VOSK_MODEL_DIR Xbreaks) st_ready)) = 2.
Proof.
  assert (Hseg : TranscriptSpec.segments Xbreaks 0
                   (TranscriptSpec.chunks (Z.to_nat 8000) silence)
                 = inl (OtherError "Exception" "Failed to process waveform"))
    by (vm_compute; reflexivity).
  destruct (recognizer_failure_drops_the_transcript Xbreaks st_ready
              (Mp3Vosk.VOSK_MODEL_DIR Xbreaks) tt "WAV-16K-MONO"
              (mkWave 1 2 16000 silence)
              (OtherError "Exception" "Failed to process waveform")
              eq_refl eq_refl eq_refl eq_refl eq_refl eq_refl eq_refl Hseg)
    as (before & data & after & _ & _ & E).
  split; [rewrite E; reflexivity | vm_compute; reflexivity].
Defined.

(** X13 with an FFmpeg that writes the MP3. *)
Lemma finished_means_the_mp3_is_there_witness :
  exists_ ["w"; Mp3Vosk.MP3_FILE]
          (fs (final (Mp4ToMp3.main Xencodes st_video_and_tool))) = true
  /\ exists_ ["w"; Mp3Vosk.MP3_FILE] (fs st_video_and_tool) = false.
Proof.
  assert (H : last_event (events (Mp4ToMp3.main Xencodes st_video_and_tool))
              = Some (Log "Proceso finalizado")) by (vm_compute; reflexivity).
  destruct (finished_means_the_mp3_is_there Xencodes st_video_and_tool H)
    as (_ & _ & E).
  split; [exact E | reflexivity].
Defined.

(** X14 on the working directory where everything is in place. *)
Lemma completed_means_the_transcript_is_written_witness :
  exists text,
    read_file (at_ Xsilent (Mp3Vosk.OUTPUT_FILE Xsilent))
              (fs (final (Mp3Vosk.main Xsilent st_ready)))
    = inr (Mp3Vosk.banner ++ text ++ Mp3Vosk.nl)%string
    /\ PyStr.trimmed text.
Proof.
  assert (H : last_event (events (Mp3Vosk.main Xsilent st_ready))
              = Some (Log "Proceso completado")) by (vm_compute; reflexivity).
  exact (proj2 (completed_means_the_transcript_is_written Xsilent st_ready H)).
Defined.

(** X15 on the working directory that holds only the MP3. *)
Lemma second_script_cannot_fetch_ffmpeg_witness :
  count is_http (events (Mp3Vosk.main Xsilent st_audio)) = 1
  /\ count is_run (events (Mp3Vosk.main Xsilent st_audio)) = 0
  /\ exists_ ["w"; "tools"; "ffmpeg"] (fs (final (Mp3Vosk.main Xsilent st_audio)))
     = false.
Proof.
  destruct (second_script_cannot_fetch_ffmpeg Xsilent st_audio
              eq_refl eq_refl eq_refl) as (_ & A & _ & B & _ & C & _).
  split; [exact A|]. split; [exact B | exact C].
Defined.

(** X17 with an FFmpeg that writes the MP3. *)
Lemma first_script_with_ffmpeg_in_place_witness :
  res (Mp4ToMp3.main Xencodes st_video_and_tool) = Ok tt
  /\ count is_run (events (Mp4ToMp3.main Xencodes st_video_and_tool)) = 1
  /\ count is_http (events (Mp4ToMp3.main Xencodes st_video_and_tool)) = 0
  /\ last_event (events (Mp4ToMp3.main Xencodes st_video_and_tool))
     = Some (Log "Proceso finalizado").
Proof.
  rewrite (first_script_with_ffmpeg_in_place Xencodes st_video_and_tool
             (tree [ (Mp4ToMp3.VIDEO_FILE, File "mp4"); provisioned_ffmpeg;
                     (Mp3Vosk.MP3_FILE, File "ID3") ])
             ["w"; "tools"; "ffmpeg"; "ffmpeg-8.0"; "bin"; "ffmpeg.exe"] []
             EmptyString EmptyString eq_refl eq_refl eq_refl eq_refl).
  repeat split; reflexivity.
Defined.

(** X18 on the working directory where everything is in place: the
    transcript reads "hola mundo". *)
Lemma second_script_with_everything_cached_witness :
  exists n',
    read_file (at_ Xsilent (Mp3Vosk.OUTPUT_FILE Xsilent)) n'
    = inr (Mp3Vosk.banner ++ "hola mundo" ++ Mp3Vosk.nl)%string
    /\ res (Mp3Vosk.main Xsilent st_ready) = Ok tt
    /\ fs (final (Mp3Vosk.main Xsilent st_ready)) = n'.
Proof.
  assert (Hseg : TranscriptSpec.segments Xsilent 0
                   (TranscriptSpec.chunks (Z.to_nat 8000) silence)
                 = inr (["  hola "], 2)) by (vm_compute; reflexivity).
  destruct (second_script_with_everything_cached Xsilent st_ready
              ["w"; "tools"; "ffmpeg"; "ffmpeg-8.0"; "bin"; "ffmpeg.exe"] []
              ("README", File "modelo") [] tt "WAV-16K-MONO"
              (mkWave 1 2 16000 silence) ["  hola "] 2
              eq_refl eq_refl eq_refl eq_refl eq_refl eq_refl eq_refl
              eq_refl eq_refl eq_refl Hseg eq_refl)
    as (n' & _ & Rd & E).
  exists n'. split; [exact Rd|]. rewrite E. split; reflexivity.
Defined.

End FurtherWitnesses.
